(** * TeleMenu: inline-keyboard menus for Telegram bots

    A shallow embedding of the JavaScript sources
    [src/button.js], [src/buttonManager.js], [src/menuRange.js],
    [src/menuManager.js] and [src/menu.js], and the properties of the
    grid-construction, evaluation, serialization and routing engine.

    Conventions of the embedding.
    - [async]/[await] is sequential composition: every promise the modelled
      paths create is awaited before the next statement runs.
    - A method that mutates [this] returns the object as it is after the call.
    - A JavaScript exception is the [Thrown] outcome of a small state and
      exception monad; the state that was reached when it was raised is kept.
    - User callbacks (predicates, actions, disabled-handlers, generators) are
      functions over an abstract user world [U]; they may throw.
    - [world_trace] is ghost state: the model appends an event at each place
      where the source calls a user callback or an external collaborator.
    - Button objects are values: a method that changes the flags of a
      button returns the button with its new flags, and the grid in which
      the button was reached is updated. The flags of one Button object
      that stands in several grids are therefore kept for each grid, and
      not shared as in the source; no statement below compares them. Menu
      objects live in a store, because the registry and the running
      middleware share them.
    - A handler (the action or the disabled-handler of a button) is user
      code over the user world. A handler that calls the api object it is
      given is not expressed by [Handler]: what the closures of that object
      do is modelled on its own by [Menu_update], [Menu_nav] and [api_back].
      A statement about a route pass therefore covers what the pass does
      itself, and not what a routed handler makes the api do.
    - Label and caption functions are total functions of their arguments.
    - [nav] starts [update] and does not await it: the model runs the
      update to its end at that point, which is the state once the promise
      has settled when nothing else runs in between.
    - The Telegram client [ctx.telegram] is an external collaborator: the
      answers of its methods come from the user world.
    - Not modelled: the builder methods [submenu] and [back] of menu.js and
      [submenu] of menuRange.js, whose buttons carry a closure over the
      registry that a [Handler] cannot express. *)

From Stdlib Require Import Ascii Bool Arith NArith Lia DecimalString DecimalNat.
From Stdlib Require Import Sorted.
From stdpp Require Import base option list strings gmap.

(** ** Exceptions and the state monad *)

Inductive JsError : Type :=
| Error (msg : string)
| TypeError (msg : string).

Inductive Outcome (A : Type) : Type :=
| Returned (a : A)
| Thrown (e : JsError).
Arguments Returned {A} a.
Arguments Thrown {A} e.

Definition M (S A : Type) : Type := S -> Outcome A * S.

Definition ret {S A : Type} (a : A) : M S A := fun s => (Returned a, s).

Definition throw {S A : Type} (e : JsError) : M S A := fun s => (Thrown e, s).

Definition bind {S A B : Type} (c : M S A) (k : A -> M S B) : M S B :=
  fun s =>
    match c s with
    | (Returned a, s') => k a s'
    | (Thrown e, s') => (Thrown e, s')
    end.

Definition gets {S A : Type} (f : S -> A) : M S A := fun s => (Returned (f s), s).

Definition modify {S : Type} (f : S -> S) : M S unit := fun s => (Returned tt, f s).

(** [try { c } catch (error) { h error }] *)
Definition try_catch {S A : Type} (c : M S A) (h : JsError -> M S A) : M S A :=
  fun s =>
    match c s with
    | (Returned a, s') => (Returned a, s')
    | (Thrown e, s') => h e s'
    end.

Notation "'let!' x ':=' c 'in' k" := (bind c (fun x => k))
  (at level 10, x name, c at level 100, k at level 200).

(** ** JavaScript truthiness of the values the sources test *)

(** [null], [undefined] and the empty string are falsy. *)
Definition truthy_str (s : option string) : bool :=
  match s with
  | Some s' => negb (String.eqb s' "")
  | None => false
  end.

(** [null], [undefined] and [0] are falsy. *)
Definition truthy_num (n : option N) : bool :=
  match n with
  | Some n' => negb (N.eqb n' 0)
  | None => false
  end.

(** Template-literal rendering of a non-negative integer. *)
Definition string_of_nat (n : nat) : string := NilZero.string_of_uint (Nat.to_uint n).
Definition string_of_N (n : N) : string := NilZero.string_of_uint (N.to_uint n).

(** ** The request context (the fields the library reads) *)

Record Message : Type := { message_id : N }.

Record CallbackQuery : Type := {
  data : option string;
  message : option Message
}.

Record Ctx : Type := {
  callbackQuery : option CallbackQuery;
  chat_id : option N;
  from_id : option N
}.

(** The API object handed to handlers: its four closures capture one menu,
    identified here by the address of the menu object. *)
Record MenuApi : Type := { api_menu : nat }.

(** ** External collaborators *)

(** [crypto.createHash('sha256').update(s).digest('hex')] yields 64
    hexadecimal characters. *)
Record HexDigest : Type := {
  hex : string;
  hex_length : String.length hex = 64
}.

(** One reading of [Date.now()] and of [Math.random()] (as the template
    literal prints it). *)
Record Sample : Type := {
  date_now : N;
  math_random : string
}.

Inductive Event : Type :=
| EvRequire (cb : option string)
| EvAction (cb : option string) (api : MenuApi)
| EvDisabled (cb : option string) (api : MenuApi)
| EvGenerator (id : string)
| EvAnswerCbQuery
| EvNext.

Inductive LogEntry : Type :=
| ConsoleError (msg : string) (e : JsError)
| ConsoleLog (msg : string).

Section Model.

Context {U V : Type}.
Variable sha256_hex : string -> HexDigest.

Record World : Type := {
  world_user : U;
  world_rng : nat -> Sample;
  world_rng_pos : nat;
  world_console : list LogEntry;
  world_trace : list Event
}.

Definition set_user (w : World) (u : U) : World :=
  {| world_user := u; world_rng := world_rng w; world_rng_pos := world_rng_pos w;
     world_console := world_console w; world_trace := world_trace w |}.

Definition push_trace (w : World) (e : Event) : World :=
  {| world_user := world_user w; world_rng := world_rng w;
     world_rng_pos := world_rng_pos w; world_console := world_console w;
     world_trace := world_trace w ++ [e] |}.

Definition push_console (w : World) (l : LogEntry) : World :=
  {| world_user := world_user w; world_rng := world_rng w;
     world_rng_pos := world_rng_pos w; world_console := world_console w ++ [l];
     world_trace := world_trace w |}.

Definition advance_rng (w : World) : World :=
  {| world_user := world_user w; world_rng := world_rng w;
     world_rng_pos := S (world_rng_pos w); world_console := world_console w;
     world_trace := world_trace w |}.

Definition emit (e : Event) : M World unit := modify (fun w => push_trace w e).

Definition console_log (l : LogEntry) : M World unit := modify (fun w => push_console w l).

Definition next_sample : M World Sample :=
  fun w => (Returned (world_rng w (world_rng_pos w)), advance_rng w).

(** Run a user callback on the user world. *)
Definition call_user {A : Type} (f : U -> Outcome A * U) : M World A :=
  fun w => let '(r, u') := f (world_user w) in (r, set_user w u').

(** ** button.js *)

Inductive ButtonType : Type := TAction | TUrl | TWebApp | TPlaceholder.

Definition type_name (t : ButtonType) : string :=
  match t with
  | TAction => "action"
  | TUrl => "url"
  | TWebApp => "webApp"
  | TPlaceholder => "placeholder"
  end.

Definition is_placeholder (t : ButtonType) : bool :=
  match t with TPlaceholder => true | _ => false end.

Definition is_action (t : ButtonType) : bool :=
  match t with TAction => true | _ => false end.

Definition Predicate : Type := Ctx -> U -> Outcome bool * U.
Definition Handler : Type := Ctx -> MenuApi -> U -> Outcome V * U.

(** The [requirement] argument as the caller writes it. *)
Record RequirementOptions : Type := {
  opt_require : option Predicate;
  opt_disable : bool;
  opt_doWhenDisable : option Handler;
  opt_hidden : bool
}.

(** [this.requirement] as the constructor stores it. *)
Record Requirement : Type := {
  require : Predicate;
  disable : bool;
  doWhenDisable : option Handler;
  hidden : bool
}.

Inductive Label : Type :=
| LabelText (s : string)
| LabelFn (f : Ctx -> string).

Record ButtonOptions : Type := {
  opt_type : option ButtonType;
  opt_url : option string;
  opt_middleware : option Handler;
  opt_requirement : option RequirementOptions
}.

(** The private fields [#_label] and [#_labelFunction] are one [Label]: the
    constructor sets exactly one of them. [doWhenDisable = None] stands for
    the default [() => { }]. *)
Record Button : Type := {
  label : Label;
  type : ButtonType;
  url : option string;
  middleware : option Handler;
  requirement : Requirement;
  isDisable : bool;
  isHidden : bool;
  callbackData : option string;
  button_frozen : bool
}.

Definition always_true : Predicate := fun _ u => (Returned true, u).

Definition generateCallbackData (ty : string) : M World string :=
  let! s := next_sample in
  let uniqueString := ty +:+ "_" +:+ string_of_N (date_now s) +:+ "_" +:+ math_random s in
  ret (String.substring 0 16 (hex (sha256_hex uniqueString))).

Definition normalize_requirement (r : option RequirementOptions) : Requirement :=
  match r with
  | Some o =>
      {| require := match opt_require o with Some p => p | None => always_true end;
         disable := opt_disable o;
         doWhenDisable := opt_doWhenDisable o;
         hidden := opt_hidden o |}
  | None =>
      {| require := always_true; disable := false;
         doWhenDisable := None; hidden := false |}
  end.

Definition Button_new (lbl : Label) (o : ButtonOptions) : M World Button :=
  match opt_type o with
  | None => throw (Error "Button type is required.")
  | Some ty =>
      let! cb := (if is_action ty
                  then (let! t := generateCallbackData (type_name ty) in ret (Some t))
                  else ret None) in
      ret {| label := lbl; type := ty; url := opt_url o;
             middleware := opt_middleware o;
             requirement := normalize_requirement (opt_requirement o);
             isDisable := false; isHidden := false;
             callbackData := cb; button_frozen := false |}
  end.

Definition getLabel (b : Button) (ctx : Ctx) : string :=
  match label b with
  | LabelFn f => f ctx
  | LabelText s => s
  end.

Definition rawLabel (b : Button) : option string :=
  match label b with
  | LabelFn _ => None
  | LabelText s => Some s
  end.

Definition set_flags (b : Button) (dis hid : bool) : Button :=
  {| label := label b; type := type b; url := url b; middleware := middleware b;
     requirement := requirement b; isDisable := dis; isHidden := hid;
     callbackData := callbackData b; button_frozen := button_frozen b |}.

(** Returns the predicate's result and the button with its new flags. *)
Definition Button_evaluateRequirement (b : Button) (ctx : Ctx) : M World (bool * Button) :=
  if is_placeholder (type b) then
    ret (false, set_flags b (isDisable b) true)
  else
    let! _ := emit (EvRequire (callbackData b)) in
    let! check := call_user (require (requirement b) ctx) in
    ret (check, set_flags b (negb check && disable (requirement b))
                            (negb check && hidden (requirement b))).

Definition run_doWhenDisable (b : Button) (ctx : Ctx) (api : MenuApi) : M World (option V) :=
  match doWhenDisable (requirement b) with
  | Some h => let! v := call_user (h ctx api) in ret (Some v)
  | None => ret None
  end.

(** Returns the handler's result ([None] is [undefined]) and the button
    with the flags the re-evaluation gave it. *)
Definition Button_handler (b : Button) (ctx : Ctx) (api : MenuApi) : M World (option V * Button) :=
  let! cr := Button_evaluateRequirement b ctx in
  let '(checkRequirement, b') := cr in
  match checkRequirement, middleware b' with
  | true, Some mw =>
      let! r := try_catch
                  (let! _ := emit (EvAction (callbackData b') api) in
                   let! v := call_user (mw ctx api) in ret (Some v))
                  (fun error =>
                     let! _ := console_log (ConsoleError "Error in middleware:" error) in
                     ret None) in
      ret (r, b')
  | _, _ =>
      if isDisable b' then
        let! r := try_catch
                    (let! _ := emit (EvDisabled (callbackData b') api) in
                     run_doWhenDisable b' ctx api)
                    (fun error =>
                       let! _ := console_log
                                   (ConsoleError "Error in doWhenDisable middleware:" error) in
                       ret None) in
        ret (r, b')
      else ret (None, b')
  end.

(** The marker the source appends to a disabled label: a space and the
    ten bytes that follow it in [button.js]. *)
Definition locked_marker : string :=
  String " "
    (String.string_of_list_ascii
       (List.map ascii_of_nat [195; 176; 197; 184; 226; 128; 157; 226; 128; 153])).

Record WireButton : Type := {
  text : string;
  wire_url : option string;
  callback_data : option string
}.

Definition Button_toJSON (b : Button) (ctx : Ctx) : M World (option WireButton) :=
  if isHidden b then ret None
  else if is_placeholder (type b) then ret None
  else if isDisable b then
    let! cb := (if truthy_str (callbackData b)
                then ret (default "" (callbackData b))
                else generateCallbackData "action") in
    ret (Some {| text := getLabel b ctx +:+ locked_marker;
                 wire_url := None;
                 callback_data := Some cb |})
  else
    ret (Some {| text := getLabel b ctx;
                 wire_url := if truthy_str (url b) then url b else None;
                 callback_data := if truthy_str (callbackData b)
                                  then callbackData b else None |}).


(** ** buttonManager.js *)

(** A row array and whether [Object.freeze] was applied to it. *)
Record Row : Type := {
  cells : list Button;
  row_frozen : bool
}.

(** [bm_buttons] is the outer array [this.buttons]; [array_frozen] says
    whether that array is frozen, [manager_frozen] whether the manager
    object is. *)
Record ButtonManager : Type := {
  bm_buttons : list Row;
  array_frozen : bool;
  manager_frozen : bool
}.

Definition empty_row : Row := {| cells := []; row_frozen := false |}.

Definition ButtonManager_new : ButtonManager :=
  {| bm_buttons := [empty_row]; array_frozen := false; manager_frozen := false |}.

Definition set_rows (bm : ButtonManager) (rows : list Row) : ButtonManager :=
  {| bm_buttons := rows; array_frozen := array_frozen bm;
     manager_frozen := manager_frozen bm |}.

(** The error of [push] on a frozen array that holds [index] elements. *)
Definition not_extensible (index : nat) : JsError :=
  TypeError ("Cannot add property " +:+ string_of_nat index
             +:+ ", object is not extensible").

(** [this.buttons[this.buttons.length - 1].push(button)] *)
Definition addButton (button : Button) : M ButtonManager unit :=
  fun bm =>
    match last (bm_buttons bm) with
    | None => (Thrown (TypeError "Cannot read properties of undefined (reading 'push')"), bm)
    | Some r =>
        if row_frozen r then (Thrown (not_extensible (length (cells r))), bm)
        else (Returned tt,
              set_rows bm (<[length (bm_buttons bm) - 1 :=
                              {| cells := cells r ++ [button];
                                 row_frozen := row_frozen r |}]> (bm_buttons bm)))
    end.

Definition newRow : M ButtonManager unit :=
  fun bm =>
    if (length (bm_buttons bm) =? 0)
       || match last (bm_buttons bm) with
          | Some r => 0 <? length (cells r)
          | None => false
          end
    then
      if array_frozen bm then (Thrown (not_extensible (length (bm_buttons bm))), bm)
      else (Returned tt, set_rows bm (bm_buttons bm ++ [empty_row]))
    else (Returned tt, bm).

Definition getButtons (bm : ButtonManager) : list Row := bm_buttons bm.

(** The inner loop of [evaluateAll]: the buttons of one row, in order.
    The row comes back with the flags of the buttons evaluated so far. *)
Fixpoint evaluateAll_cells (cs : list Button) (ctx : Ctx) (w : World)
  : Outcome unit * list Button * World :=
  match cs with
  | [] => (Returned tt, [], w)
  | button :: rest =>
      match Button_evaluateRequirement button ctx w with
      | (Returned (_, button'), w') =>
          let '(r, rest', w'') := evaluateAll_cells rest ctx w' in
          (r, button' :: rest', w'')
      | (Thrown e, w') => (Thrown e, button :: rest, w')
      end
  end.

Fixpoint evaluateAll_rows (rows : list Row) (ctx : Ctx) (w : World)
  : Outcome unit * list Row * World :=
  match rows with
  | [] => (Returned tt, [], w)
  | row :: rest =>
      match evaluateAll_cells (cells row) ctx w with
      | (Returned _, cs', w') =>
          let '(r, rest', w'') := evaluateAll_rows rest ctx w' in
          (r, {| cells := cs'; row_frozen := row_frozen row |} :: rest', w'')
      | (Thrown e, cs', w') =>
          (Thrown e, {| cells := cs'; row_frozen := row_frozen row |} :: rest, w')
      end
  end.

Definition evaluateAll (ctx : Ctx) : M (ButtonManager * World) unit :=
  fun '(bm, w) =>
    let '(r, rows', w') := evaluateAll_rows (bm_buttons bm) ctx w in
    (r, (set_rows bm rows', w')).

(** The inner loop of [toJSON]; [rowData] is the array being filled. *)
Fixpoint toJSON_row (row : list Button) (ctx : Ctx) (rowData : list WireButton)
  : M World (list WireButton) :=
  match row with
  | [] => ret rowData
  | button :: rest =>
      let! json := Button_toJSON button ctx in
      toJSON_row rest ctx
        match json with
        | Some j => rowData ++ [j]
        | None => rowData
        end
  end.

Fixpoint toJSON_rows (rows : list Row) (ctx : Ctx) (inlineKeyboard : list (list WireButton))
  : M World (list (list WireButton)) :=
  match rows with
  | [] => ret inlineKeyboard
  | row :: rest =>
      let! rowData := toJSON_row (cells row) ctx [] in
      toJSON_rows rest ctx
        (if 0 <? length rowData then inlineKeyboard ++ [rowData] else inlineKeyboard)
  end.

(** The value of the [inline_keyboard] field of the result. *)
Definition ButtonManager_toJSON (bm : ButtonManager) (ctx : Ctx)
  : M World (list (list WireButton)) :=
  toJSON_rows (bm_buttons bm) ctx [].

(** ** deepFreeze (menuManager.js), specialised to the objects it meets *)

Definition deepFreeze_button (b : Button) : Button :=
  {| label := label b; type := type b; url := url b; middleware := middleware b;
     requirement := requirement b; isDisable := isDisable b; isHidden := isHidden b;
     callbackData := callbackData b; button_frozen := true |}.

Definition deepFreeze_row (r : Row) : Row :=
  {| cells := List.map (fun b => if button_frozen b then b else deepFreeze_button b)
                       (cells r);
     row_frozen := true |}.

Definition deepFreeze_array (rows : list Row) : list Row :=
  List.map (fun r => if row_frozen r then r else deepFreeze_row r) rows.

Definition deepFreeze_manager (bm : ButtonManager) : ButtonManager :=
  {| bm_buttons := if array_frozen bm then bm_buttons bm
                   else deepFreeze_array (bm_buttons bm);
     array_frozen := true;
     manager_frozen := true |}.

(** ** menuRange.js *)

Definition lift_world {X A : Type} (c : M World A) : M (X * World) A :=
  fun '(x, w) => let '(r, w') := c w in (r, (x, w')).

Definition lift_obj {X W A : Type} (c : M X A) : M (X * W) A :=
  fun '(x, w) => let '(r, x') := c x in (r, (x', w)).

Definition MenuRange_text (lbl : Label) (mw : option Handler)
    (req : option RequirementOptions) : M (ButtonManager * World) unit :=
  let! button := lift_world (Button_new lbl
                   {| opt_type := Some TAction; opt_url := None;
                      opt_middleware := mw; opt_requirement := req |}) in
  lift_obj (addButton button).

Definition MenuRange_url (lbl : Label) (u : option string)
    (req : option RequirementOptions) : M (ButtonManager * World) unit :=
  let! button := lift_world (Button_new lbl
                   {| opt_type := Some TUrl; opt_url := u;
                      opt_middleware := None; opt_requirement := req |}) in
  lift_obj (addButton button).

Definition MenuRange_webApp (lbl : Label) (webAppUrl : option string)
    (req : option RequirementOptions) : M (ButtonManager * World) unit :=
  let! button := lift_world (Button_new lbl
                   {| opt_type := Some TWebApp; opt_url := webAppUrl;
                      opt_middleware := None; opt_requirement := req |}) in
  lift_obj (addButton button).

Definition MenuRange_row : M (ButtonManager * World) unit := lift_obj newRow.

(** What a dynamic generator does with the range it is given: the calls it
    makes on it, in order, and whether it finally throws. *)
Inductive RangeCall : Type :=
| CallText (lbl : Label) (mw : option Handler) (req : option RequirementOptions)
| CallUrl (lbl : Label) (u : option string) (req : option RequirementOptions)
| CallWebApp (lbl : Label) (u : option string) (req : option RequirementOptions)
| CallRow.

Definition run_call (c : RangeCall) : M (ButtonManager * World) unit :=
  match c with
  | CallText lbl mw req => MenuRange_text lbl mw req
  | CallUrl lbl u req => MenuRange_url lbl u req
  | CallWebApp lbl u req => MenuRange_webApp lbl u req
  | CallRow => MenuRange_row
  end.

Fixpoint run_calls (cs : list RangeCall) : M (ButtonManager * World) unit :=
  match cs with
  | [] => ret tt
  | c :: rest => let! _ := run_call c in run_calls rest
  end.

(** ** menu.js: the Menu object and its builder methods *)

(** [null] is [None]. *)
Definition Payload : Type := option V.

Record GeneratorRun : Type := {
  gen_calls : list RangeCall;
  gen_throws : option JsError
}.

Definition Generator : Type := Ctx -> Payload -> U -> GeneratorRun * U.

Record DynamicItem : Type := {
  dyn_id : string;
  dyn_generator : Generator
}.

Inductive Caption : Type :=
| CaptionText (s : string)
| CaptionFn (f : Ctx -> Payload -> string).

Record Menu : Type := {
  menuId : string;
  buttons : ButtonManager;
  parentMenuId : option string;
  _caption : option Caption;
  _format : option string;
  _dynamicGenerators : list DynamicItem;
  _temporaryButtons : option ButtonManager;
  menu_frozen : bool
}.

Definition Menu_new (id : option string) : Outcome Menu :=
  if negb (truthy_str id) then Thrown (Error "Menu ID is required.")
  else Returned {| menuId := default "" id; buttons := ButtonManager_new;
                   parentMenuId := None; _caption := None; _format := None;
                   _dynamicGenerators := []; _temporaryButtons := None;
                   menu_frozen := false |}.

Definition set_buttons (m : Menu) (bm : ButtonManager) : Menu :=
  {| menuId := menuId m; buttons := bm; parentMenuId := parentMenuId m;
     _caption := _caption m; _format := _format m;
     _dynamicGenerators := _dynamicGenerators m;
     _temporaryButtons := _temporaryButtons m; menu_frozen := menu_frozen m |}.

Definition set_temporary (m : Menu) (t : option ButtonManager) : Menu :=
  {| menuId := menuId m; buttons := buttons m; parentMenuId := parentMenuId m;
     _caption := _caption m; _format := _format m;
     _dynamicGenerators := _dynamicGenerators m;
     _temporaryButtons := t; menu_frozen := menu_frozen m |}.

Definition set_generators (m : Menu) (gens : list DynamicItem) : Menu :=
  {| menuId := menuId m; buttons := buttons m; parentMenuId := parentMenuId m;
     _caption := _caption m; _format := _format m;
     _dynamicGenerators := gens;
     _temporaryButtons := _temporaryButtons m; menu_frozen := menu_frozen m |}.

(** Run a method of [this.buttons]. *)
Definition on_buttons {A : Type} (c : M ButtonManager A) : M Menu A :=
  fun m => let '(r, bm') := c (buttons m) in (r, set_buttons m bm').

Definition Menu_text (lbl : Label) (mw : option Handler)
    (req : option RequirementOptions) : M (Menu * World) unit :=
  let! button := lift_world (Button_new lbl
                   {| opt_type := Some TAction; opt_url := None;
                      opt_middleware := mw; opt_requirement := req |}) in
  lift_obj (on_buttons (addButton button)).

Definition Menu_url (lbl : Label) (u : option string)
    (req : option RequirementOptions) : M (Menu * World) unit :=
  let! button := lift_world (Button_new lbl
                   {| opt_type := Some TUrl; opt_url := u;
                      opt_middleware := None; opt_requirement := req |}) in
  lift_obj (on_buttons (addButton button)).

Definition Menu_webApp (lbl : Label) (webAppUrl : option string)
    (req : option RequirementOptions) : M (Menu * World) unit :=
  let! button := lift_world (Button_new lbl
                   {| opt_type := Some TWebApp; opt_url := webAppUrl;
                      opt_middleware := None; opt_requirement := req |}) in
  lift_obj (on_buttons (addButton button)).

Definition dynamic_id (n : nat) : string := "dynamic_" +:+ string_of_nat n.

Definition placeholder_label (dynamicId : string) : string :=
  "__placeholder_" +:+ dynamicId +:+ "__".

Definition Menu_dynamic (generator : Generator) : M (Menu * World) unit :=
  let! dynamicId :=
    gets (fun mw : Menu * World => dynamic_id (length (_dynamicGenerators (fst mw)))) in
  let! _ := lift_obj (modify (fun m =>
              set_generators m (_dynamicGenerators m ++
                                [{| dyn_id := dynamicId; dyn_generator := generator |}]))) in
  let! placeholderButton :=
    lift_world (Button_new (LabelText (placeholder_label dynamicId))
      {| opt_type := Some TPlaceholder; opt_url := None; opt_middleware := None;
         opt_requirement := Some {| opt_require := None; opt_disable := false;
                                    opt_doWhenDisable := None; opt_hidden := true |} |}) in
  lift_obj (on_buttons (addButton placeholderButton)).

Definition Menu_row : M (Menu * World) unit := lift_obj (on_buttons newRow).

(** [format] is ['Markdown'] when the caller leaves it out. *)
Definition Menu_setCaption (caption : Caption) (format : option string) : M Menu unit :=
  modify (fun m =>
    {| menuId := menuId m; buttons := buttons m; parentMenuId := parentMenuId m;
       _caption := Some caption;
       _format := Some (default "Markdown" format);
       _dynamicGenerators := _dynamicGenerators m;
       _temporaryButtons := _temporaryButtons m; menu_frozen := menu_frozen m |}).

(** [deepFreeze] on a Menu: its own keys are [menuId], [buttons] and
    [parentMenuId]; private fields are not keys. *)
Definition deepFreeze_menu (m : Menu) : Menu :=
  {| menuId := menuId m;
     buttons := if manager_frozen (buttons m) then buttons m
                else deepFreeze_manager (buttons m);
     parentMenuId := parentMenuId m; _caption := _caption m; _format := _format m;
     _dynamicGenerators := _dynamicGenerators m;
     _temporaryButtons := _temporaryButtons m; menu_frozen := true |}.

(** ** menu.js: the merge of [#evaluate] *)

(** [s.replace(pat, rep)] for a string pattern: the first occurrence. *)
Fixpoint drop_string (n : nat) (s : string) : string :=
  match n, s with
  | O, _ => s
  | S n', String _ s' => drop_string n' s'
  | S _, EmptyString => EmptyString
  end.

Fixpoint js_replace (pat rep s : string) : string :=
  if String.prefix pat s then rep +:+ drop_string (String.length pat) s
  else match s with
       | EmptyString => EmptyString
       | String c s' => String c (js_replace pat rep s')
       end.

Definition dynamicId_of (raw : string) : string :=
  js_replace "__" "" (js_replace "__placeholder_" "" raw).

Fixpoint add_all (dynRow : list Button) : M ButtonManager unit :=
  match dynRow with
  | [] => ret tt
  | dynButton :: rest => let! _ := addButton dynButton in add_all rest
  end.

(** The loop over [dynamicButtons]; [i < dynamicButtons.length - 1] holds
    exactly when rows remain. *)
Fixpoint merge_dynamicButtons (dynamicButtons : list Row) : M ButtonManager unit :=
  match dynamicButtons with
  | [] => ret tt
  | dynRow :: rest =>
      let! _ := add_all (cells dynRow) in
      let! _ := (match rest with [] => ret tt | _ :: _ => newRow end) in
      merge_dynamicButtons rest
  end.

Definition is_marker (button : Button) : bool :=
  is_placeholder (type button)
  && truthy_str (rawLabel button)
  && String.prefix "__placeholder_" (default "" (rawLabel button)).

Definition merge_cell (generatedContent : gmap string (list Row)) (button : Button)
  : M ButtonManager unit :=
  if is_marker button then
    let dynamicId := dynamicId_of (default "" (rawLabel button)) in
    match generatedContent !! dynamicId with
    | Some dynamicButtons =>
        if 0 <? length dynamicButtons then merge_dynamicButtons dynamicButtons
        else ret tt
    | None => ret tt
    end
  else addButton button.

Fixpoint merge_row (generatedContent : gmap string (list Row)) (row : list Button)
  : M ButtonManager unit :=
  match row with
  | [] => ret tt
  | button :: rest =>
      let! _ := merge_cell generatedContent button in
      merge_row generatedContent rest
  end.

Fixpoint merge_rows (generatedContent : gmap string (list Row)) (originalButtons : list Row)
  : M ButtonManager unit :=
  match originalButtons with
  | [] => ret tt
  | row :: rest =>
      let! _ := merge_row generatedContent (cells row) in
      let! _ := (match rest with [] => ret tt | _ :: _ => newRow end) in
      merge_rows generatedContent rest
  end.

(** Run a computation on an object that is local to the caller. *)
Definition with_obj {X A : Type} (x : X) (c : M (X * World) A) : M World (A * X) :=
  fun w =>
    match c (x, w) with
    | (Returned a, (x', w')) => (Returned (a, x'), w')
    | (Thrown e, (_, w')) => (Thrown e, w')
    end.

Definition call_generator (g : Generator) (ctx : Ctx) (payload : Payload)
  : M World GeneratorRun :=
  call_user (fun u => let '(r, u') := g ctx payload u in (Returned r, u')).

(** The first loop of [#evaluate]. *)
Fixpoint run_generators (gens : list DynamicItem) (ctx : Ctx) (payload : Payload)
    (generatedContent : gmap string (list Row)) : M World (gmap string (list Row)) :=
  match gens with
  | [] => ret generatedContent
  | dynItem :: rest =>
      let tempManager := ButtonManager_new in
      let! _ := emit (EvGenerator (dyn_id dynItem)) in
      let! run := call_generator (dyn_generator dynItem) ctx payload in
      let! filled := with_obj tempManager (run_calls (gen_calls run)) in
      match gen_throws run with
      | Some e => throw e
      | None =>
          run_generators rest ctx payload
            (<[dyn_id dynItem := getButtons (snd filled)]> generatedContent)
      end
  end.

(** ** menuManager.js *)

(** [#_menus] is an ordinary object created by [{}]: its own properties in
    creation order, each holding the address of a Menu object; it inherits
    the members of [Object.prototype]. *)
Definition JsObject : Type := list (string * nat).

Definition object_prototype_keys : list string :=
  ["constructor"; "__defineGetter__"; "__defineSetter__"; "hasOwnProperty";
   "__lookupGetter__"; "__lookupSetter__"; "isPrototypeOf";
   "propertyIsEnumerable"; "toString"; "valueOf"; "__proto__"; "toLocaleString"].

Inductive JsProperty : Type :=
| OwnMenu (address : nat)
| Inherited (name : string).

Fixpoint get_own (o : JsObject) (key : string) : option nat :=
  match o with
  | [] => None
  | (k, a) :: rest => if String.eqb k key then Some a else get_own rest key
  end.

(** [o[key]]: an own property, else a member of the prototype, else
    [undefined]. Every value it finds is truthy. *)
Definition get_property (o : JsObject) (key : string) : option JsProperty :=
  match get_own o key with
  | Some a => Some (OwnMenu a)
  | None =>
      if bool_decide (key ∈ object_prototype_keys) then Some (Inherited key)
      else None
  end.

(** A key that is a canonical array index is enumerated before the other
    keys, in ascending numeric order. *)
Definition array_index (key : string) : option N :=
  match NilZero.uint_of_string key with
  | Some d =>
      let n := N.of_uint d in
      if String.eqb (string_of_N n) key && (n <? 4294967295)%N then Some n else None
  | None => None
  end.

Fixpoint insert_index (x : N * string) (l : list (N * string)) : list (N * string) :=
  match l with
  | [] => [x]
  | y :: l' => if (fst x <=? fst y)%N then x :: l else y :: insert_index x l'
  end.

Definition tag_index (key : string) : option (N * string) :=
  match array_index key with
  | Some n => Some (n, key)
  | None => None
  end.

Definition is_index (key : string) : bool :=
  match array_index key with Some _ => true | None => false end.

(** The order in which [for (const key in o)] visits the keys of [o]. *)
Definition for_in_keys (o : JsObject) : list string :=
  List.map snd (foldr insert_index [] (omap tag_index (List.map fst o)))
  ++ List.filter (fun k => negb (is_index k)) (List.map fst o).

Record MenuManager : Type := {
  _menus : JsObject;
  _context : Ctx;
  _currentMessageId : option N;
  _mediaType : string;
  _payload : Payload
}.

(** [{}] as a context: every field is [undefined]. *)
Definition empty_context : Ctx :=
  {| callbackQuery := None; chat_id := None; from_id := None |}.

Definition MenuManager_initial : MenuManager :=
  {| _menus := []; _context := empty_context; _currentMessageId := None;
     _mediaType := "text"; _payload := None |}.

(** The Menu objects live in a store and are named by address, since the
    registry and the handlers refer to the same objects. *)
Record State : Type := {
  st_world : World;
  st_heap : list Menu;
  st_mm : MenuManager
}.

Definition lift_w {A : Type} (c : M World A) : M State A :=
  fun s =>
    let '(r, w') := c (st_world s) in
    (r, {| st_world := w'; st_heap := st_heap s; st_mm := st_mm s |}).

Definition set_mm (s : State) (mm : MenuManager) : State :=
  {| st_world := st_world s; st_heap := st_heap s; st_mm := mm |}.

(** No JavaScript reference dangles; the model raises this for an address
    outside the store. *)
Definition no_such_object : JsError := Error "no object at this address".

Definition read_menu (a : nat) : M State Menu :=
  fun s =>
    match st_heap s !! a with
    | Some m => (Returned m, s)
    | None => (Thrown no_such_object, s)
    end.

Definition write_menu (a : nat) (m : Menu) : M State unit :=
  modify (fun s => {| st_world := st_world s; st_heap := <[a := m]> (st_heap s);
                      st_mm := st_mm s |}).

(** [new Menu(id)]: allocate the object and return its address. *)
Definition Menu_alloc (id : option string) : M State nat :=
  fun s =>
    match Menu_new id with
    | Returned m =>
        (Returned (length (st_heap s)),
         {| st_world := st_world s; st_heap := st_heap s ++ [m]; st_mm := st_mm s |})
    | Thrown e => (Thrown e, s)
    end.

(** Run a builder method on the Menu object at address [this]. *)
Definition on_menu {A : Type} (this : nat) (c : M (Menu * World) A) : M State A :=
  fun s =>
    match st_heap s !! this with
    | Some m =>
        let '(r, (m', w')) := c (m, st_world s) in
        (r, {| st_world := w'; st_heap := <[this := m']> (st_heap s); st_mm := st_mm s |})
    | None => (Thrown no_such_object, s)
    end.

(** The argument is the address of a Menu object, so the guard on the shape
    of the argument passes. *)
Definition registerMenu (menuClass : nat) : M State unit :=
  let! menu := read_menu menuClass in
  let! existing := gets (fun s => get_property (_menus (st_mm s)) (menuId menu)) in
  match existing with
  | Some _ => ret tt
  | None =>
      let! _ := write_menu menuClass (deepFreeze_menu menu) in
      modify (fun s => set_mm s
        {| _menus := _menus (st_mm s) ++ [(menuId menu, menuClass)];
           _context := _context (st_mm s);
           _currentMessageId := _currentMessageId (st_mm s);
           _mediaType := _mediaType (st_mm s);
           _payload := _payload (st_mm s) |})
  end.

Definition getMenuById (id : string) : M State JsProperty :=
  let! menu := gets (fun s => get_property (_menus (st_mm s)) id) in
  match menu with
  | None => throw (Error ("Menu with ID " +:+ id +:+ " does not exist."))
  | Some found => ret found
  end.

Definition getMenus : M State JsObject := gets (fun s => _menus (st_mm s)).

Definition setContext (newContext : Ctx) (messageId : option N) (mediaType : option string)
  : M State Ctx :=
  let! _ := modify (fun s => set_mm s
    {| _menus := _menus (st_mm s);
       _context := newContext;
       _currentMessageId := if truthy_num messageId then messageId
                            else _currentMessageId (st_mm s);
       _mediaType := if truthy_str mediaType then default "" mediaType
                     else _mediaType (st_mm s);
       _payload := _payload (st_mm s) |}) in
  gets (fun s => _context (st_mm s)).

Definition getContext : M State Ctx := gets (fun s => _context (st_mm s)).

Definition getCurrentMessageId : M State (option N) :=
  gets (fun s => _currentMessageId (st_mm s)).

Definition getMediaType : M State string := gets (fun s => _mediaType (st_mm s)).

(** The argument is [None] for [undefined]. *)
Definition setPayload (payload : option Payload) : M State Payload :=
  let! _ := modify (fun s => set_mm s
    {| _menus := _menus (st_mm s);
       _context := _context (st_mm s);
       _currentMessageId := _currentMessageId (st_mm s);
       _mediaType := _mediaType (st_mm s);
       _payload := match payload with None => None | Some p => p end |}) in
  gets (fun s => _payload (st_mm s)).

Definition getPayload : M State Payload := gets (fun s => _payload (st_mm s)).

(** ** menu.js: methods that use the registry *)

Definition Menu_register (this submenu : nat) : M State unit :=
  let! parent := read_menu this in
  let! sub := read_menu submenu in
  if menu_frozen sub then
    throw (TypeError "Cannot assign to read only property 'parentMenuId' of object '#<Menu>'")
  else
    let! _ := write_menu submenu
      {| menuId := menuId sub; buttons := buttons sub;
         parentMenuId := Some (menuId parent);
         _caption := _caption sub; _format := _format sub;
         _dynamicGenerators := _dynamicGenerators sub;
         _temporaryButtons := _temporaryButtons sub; menu_frozen := menu_frozen sub |} in
    registerMenu submenu.

(** Run a computation on [this.#_temporaryButtons] and the world. *)
Definition on_temporary {A : Type} (this : nat) (c : M (ButtonManager * World) A)
  : M State A :=
  fun s =>
    match st_heap s !! this with
    | Some m =>
        match _temporaryButtons m with
        | Some t =>
            let '(r, (t', w')) := c (t, st_world s) in
            (r, {| st_world := w';
                   st_heap := <[this := set_temporary m (Some t')]> (st_heap s);
                   st_mm := st_mm s |})
        | None => (Thrown no_such_object, s)
        end
    | None => (Thrown no_such_object, s)
    end.

Definition Menu_evaluate (this : nat) : M State unit :=
  let! m0 := read_menu this in
  let! _ := write_menu this (set_temporary m0 (Some ButtonManager_new)) in
  let originalButtons := getButtons (buttons m0) in
  let! ctx := getContext in
  let! payload := getPayload in
  let! generatedContent :=
    lift_w (run_generators (_dynamicGenerators m0) ctx payload ∅) in
  let! _ := on_temporary this (lift_obj (merge_rows generatedContent originalButtons)) in
  on_temporary this (evaluateAll ctx).

(** The grid a reader of the menu sees:
    [this.#_temporaryButtons || this.buttons]. *)
Definition current_grid (m : Menu) : ButtonManager :=
  match _temporaryButtons m with
  | Some t => t
  | None => buttons m
  end.

(** The [inline_keyboard] of [toJSON(ctx)]; [ctx] is [None] when the caller
    leaves it out. *)
Definition Menu_toJSON (this : nat) (ctx : option Ctx) : M State (list (list WireButton)) :=
  let! stored := getContext in
  let context := default stored ctx in
  let! m := read_menu this in
  lift_w (ButtonManager_toJSON (current_grid m) context).

Definition createMenuApi (this : nat) (targetMenu : option nat) : MenuApi :=
  {| api_menu := default this targetMenu |}.

(** ** menu.js: the router *)

(** The loops of the middleware, with their [break]s: the result is the
    first match with its column, row and menu. *)
Fixpoint scan_row (row : list Button) (token : string) (col : nat)
  : option (nat * Button) :=
  match row with
  | [] => None
  | button :: rest =>
      if bool_decide (callbackData button = Some token)
      then Some (col, button)
      else scan_row rest token (S col)
  end.

Fixpoint scan_rows (rows : list Row) (token : string) (rowIndex : nat)
  : option (nat * nat * Button) :=
  match rows with
  | [] => None
  | row :: rest =>
      match scan_row (cells row) token 0 with
      | Some (col, button) => Some (rowIndex, col, button)
      | None => scan_rows rest token (S rowIndex)
      end
  end.

Fixpoint scan_menus (heap : list Menu) (allMenus : JsObject) (keys : list string)
    (token : string) : option (nat * nat * nat * Button) :=
  match keys with
  | [] => None
  | key :: rest =>
      match get_own allMenus key with
      | Some a =>
          match heap !! a with
          | Some menu =>
              match scan_rows (getButtons (current_grid menu)) token 0 with
              | Some (r, c, button) => Some (a, r, c, button)
              | None => scan_menus heap allMenus rest token
              end
          | None => scan_menus heap allMenus rest token
          end
      | None => scan_menus heap allMenus rest token
      end
  end.

Definition find_button (token : string)
  : M State (option (nat * nat * nat * Button)) :=
  let! allMenus := getMenus in
  gets (fun s => scan_menus (st_heap s) allMenus (for_in_keys allMenus) token).

Definition put_cell (rows : list Row) (r c : nat) (b : Button) : list Row :=
  match rows !! r with
  | Some row => <[r := {| cells := <[c := b]> (cells row);
                          row_frozen := row_frozen row |}]> rows
  | None => rows
  end.

(** The found button is an object of the grid it was found in: store the
    flags its handler gave it. *)
Definition store_button (a r c : nat) (b : Button) : M State unit :=
  let! m := read_menu a in
  write_menu a
    match _temporaryButtons m with
    | Some t => set_temporary m (Some (set_rows t (put_cell (bm_buttons t) r c b)))
    | None => set_buttons m (set_rows (buttons m) (put_cell (bm_buttons (buttons m)) r c b))
    end.

Definition message_id_of (ctx : Ctx) : M State (option N) :=
  match callbackQuery ctx with
  | None => ret None
  | Some q =>
      match message q with
      | None => throw (TypeError "Cannot read properties of undefined (reading 'message_id')")
      | Some msg => ret (Some (message_id msg))
      end
  end.

Definition token_of (ctx : Ctx) : option string :=
  match callbackQuery ctx with
  | Some q => data q
  | None => None
  end.

(** The function [middleware()] returns, applied to [ctx]; [next()] is the
    event [EvNext]. *)
Definition Menu_middleware (this : nat) (ctx : Ctx) : M State unit :=
  let! _ := registerMenu this in
  let! messageId := message_id_of ctx in
  let! ctx := setContext ctx messageId None in
  let! _ := Menu_evaluate this in
  let callbackData := token_of ctx in
  if negb (truthy_str callbackData) then lift_w (emit EvNext)
  else
    let! found := find_button (default "" callbackData) in
    let! _ :=
      match found with
      | Some (foundMenu, r, c, foundButton) =>
          let menuApi := createMenuApi this (Some foundMenu) in
          let! res := lift_w (Button_handler foundButton ctx menuApi) in
          store_button foundMenu r c (snd res)
      | None =>
          lift_w (console_log (ConsoleLog ("No button found for callback data: "
                                           +:+ default "" callbackData)))
      end in
    let! _ := lift_w (emit EvAnswerCbQuery) in
    lift_w (emit EvNext).

Fixpoint no_underscore (s : string) : Prop :=
  match s with
  | EmptyString => True
  | String c s' => c <> "_"%char /\ no_underscore s'
  end.

(** ** Sequences of grid operations *)

Inductive GridOp : Type :=
| OpAdd (button : Button)
| OpNewRow.

Definition run_op (op : GridOp) : M ButtonManager unit :=
  match op with
  | OpAdd button => addButton button
  | OpNewRow => newRow
  end.

Fixpoint run_ops (ops : list GridOp) : M ButtonManager unit :=
  match ops with
  | [] => ret tt
  | op :: rest => let! _ := run_op op in run_ops rest
  end.

Fixpoint no_adjacent_empty (rows : list Row) : Prop :=
  match rows with
  | r1 :: rest =>
      match rest with
      | r2 :: _ => ~ (cells r1 = [] /\ cells r2 = [])
      | [] => True
      end /\ no_adjacent_empty rest
  | [] => True
  end.

(** A manager none of whose arrays is frozen, with at least one row. *)
Definition extensible (bm : ButtonManager) : Prop :=
  array_frozen bm = false
  /\ bm_buttons bm <> []
  /\ Forall (fun r => row_frozen r = false) (bm_buttons bm).

(** ** The specification's wording, for comparison with the code *)

Definition exactly_one_of (j : WireButton) : Prop :=
  (is_Some (wire_url j) /\ callback_data j = None)
  \/ (wire_url j = None /\ is_Some (callback_data j)).

(** An element that is neither hidden, nor a placeholder, nor disabled is
    serialized with its label and exactly one of url and callback token. *)
Definition serialize_enabled_as_specified (b : Button) (ctx : Ctx) (w : World) : Prop :=
  isHidden b = false -> type b <> TPlaceholder -> isDisable b = false ->
  exists j w', Button_toJSON b ctx w = (Returned (Some j), w')
               /\ text j = getLabel b ctx /\ exactly_one_of j.

(** The token in the serialized output always equals the identifier stored
    on the element. *)
Definition emits_stored_identifier (b : Button) (ctx : Ctx) (w : World) : Prop :=
  forall j w', Button_toJSON b ctx w = (Returned (Some j), w') ->
               callback_data j = callbackData b.

(** Serialization as the specification words it: every row is mapped
    through the element serialization, omitted elements are dropped from
    each row, and rows left empty are dropped. *)
Fixpoint serialize_cells (cs : list Button) (ctx : Ctx) : M World (list (option WireButton)) :=
  match cs with
  | [] => ret []
  | b :: rest =>
      let! j := Button_toJSON b ctx in
      let! js := serialize_cells rest ctx in
      ret (j :: js)
  end.

Fixpoint serialize_rows (rows : list Row) (ctx : Ctx)
  : M World (list (list (option WireButton))) :=
  match rows with
  | [] => ret []
  | r :: rest =>
      let! js := serialize_cells (cells r) ctx in
      let! jss := serialize_rows rest ctx in
      ret (js :: jss)
  end.

Definition drop_omitted (js : list (option WireButton)) : list WireButton := omap id js.

Definition non_empty {A : Type} (row : list A) : bool := 0 <? length row.

Definition wire_grid_as_specified (bm : ButtonManager) (ctx : Ctx)
  : M World (list (list WireButton)) :=
  let! jss := serialize_rows (bm_buttons bm) ctx in
  ret (List.filter non_empty (List.map drop_omitted jss)).

(** The merge of [#evaluate] as the specification words it. A grid is a
    list of rows. [continue_with acc g] puts the grid [g] at the end of the
    grid [acc]: the first row of [g] continues the last row of [acc], the
    other rows of [g] follow with their own breaks. *)
Fixpoint continue_with {A : Type} (acc g : list (list A)) : list (list A) :=
  match acc with
  | [] => g
  | l :: acc' =>
      match acc' with
      | [] => match g with
              | [] => [l]
              | g1 :: grest => (l ++ g1) :: grest
              end
      | _ :: _ => l :: continue_with acc' g
      end
  end.

(** What stands at the place of one element of the static grid: the
    generated sub-grid for a placeholder, the element itself otherwise. *)
Definition expand_cell (generatedContent : gmap string (list Row)) (b : Button)
  : list (list Button) :=
  if is_marker b then
    match generatedContent !! dynamicId_of (default "" (rawLabel b)) with
    | Some (r :: rest) => List.map cells (r :: rest)
    | _ => [[]]
    end
  else [[b]].

Definition expand_row (generatedContent : gmap string (list Row)) (row : list Button)
  : list (list Button) :=
  fold_left (fun acc b => continue_with acc (expand_cell generatedContent b)) row [[]].

(** The rows of the static grid stay separate rows. *)
Definition splice_as_specified (generatedContent : gmap string (list Row))
    (staticGrid : list Row) : list (list Button) :=
  concat (List.map (fun r => expand_row generatedContent (cells r)) staticGrid).

(** A grid without its empty rows, the last row apart. *)
Fixpoint squash {A : Type} (g : list (list A)) : list (list A) :=
  match g with
  | [] => []
  | l :: rest =>
      match rest with
      | [] => [l]
      | _ :: _ => if non_empty l then l :: squash rest else squash rest
      end
  end.

(** The manager [bm] holds the grid [g] without its empty rows. *)
Definition tracks (bm : ButtonManager) (g : list (list Button)) : Prop :=
  extensible bm /\ g <> [] /\ List.map cells (bm_buttons bm) = squash g.

(** The state in which the menu at [this] has the rendered grid [t] and
    the world is [w]. *)
Definition rendered (s : State) (this : nat) (m : Menu) (t : ButtonManager) (w : World)
  : State :=
  {| st_world := w;
     st_heap := <[this := set_temporary m (Some t)]> (st_heap s);
     st_mm := st_mm s |}.

(** The button a call on the range constructs, if it constructs one. *)
Definition button_of_call (c : RangeCall) : option (Label * ButtonOptions) :=
  match c with
  | CallText lbl mw req =>
      Some (lbl, {| opt_type := Some TAction; opt_url := None;
                    opt_middleware := mw; opt_requirement := req |})
  | CallUrl lbl u req =>
      Some (lbl, {| opt_type := Some TUrl; opt_url := u;
                    opt_middleware := None; opt_requirement := req |})
  | CallWebApp lbl u req =>
      Some (lbl, {| opt_type := Some TWebApp; opt_url := u;
                    opt_middleware := None; opt_requirement := req |})
  | CallRow => None
  end.

(** [b'] is the object [b] with re-evaluated flags. *)
Definition same_element (b b' : Button) : Prop :=
  exists d h, b' = set_flags b d h.

Definition one_row (cs : list Button) : Row := {| cells := cs; row_frozen := false |}.

(** A new manager holding the rows [g]. *)
Definition grid_of (g : list (list Button)) : ButtonManager :=
  {| bm_buttons := List.map one_row g; array_frozen := false; manager_frozen := false |}.

(** The static grid of [m] is the one row [A, placeholder, B], and [g] is
    the generator of the placeholder's block, the first of the menu. *)
Definition sandwich (m : Menu) (A P B : Button) (g : Generator) : Prop :=
  (exists row0, bm_buttons (buttons m) = [row0] /\ cells row0 = [A; P; B])
  /\ is_marker A = false /\ is_marker B = false
  /\ type P = TPlaceholder /\ label P = LabelText "__placeholder_dynamic_0__"
  /\ _dynamicGenerators m = [{| dyn_id := "dynamic_0"; dyn_generator := g |}].

(** The world in which the range calls of a generator run. *)
Definition after_generator (w : World) (id : string) (u : U) : World :=
  set_user (push_trace w (EvGenerator id)) u.


(** A computation that leaves the registry as it is. *)
Definition keeps_registry {A : Type} (c : M State A) : Prop :=
  forall s, st_mm (snd (c s)) = st_mm s.


(** The first loop of [#evaluate] as a list: the id of every block with
    the rows its generator produced, in the order of the blocks. *)
Fixpoint generate_all (gens : list DynamicItem) (ctx : Ctx) (payload : Payload)
  : M World (list (string * list Row)) :=
  match gens with
  | [] => ret []
  | dynItem :: rest =>
      let! _ := emit (EvGenerator (dyn_id dynItem)) in
      let! run := call_generator (dyn_generator dynItem) ctx payload in
      let! filled := with_obj ButtonManager_new (run_calls (gen_calls run)) in
      match gen_throws run with
      | Some e => throw e
      | None =>
          let! l := generate_all rest ctx payload in
          ret ((dyn_id dynItem, getButtons (snd filled)) :: l)
      end
  end.

(** What the builder methods maintain: the k-th block is named
    [dynamic_k], and every placeholder of the static grid carries the label
    of one of the blocks. *)
Definition well_built (m : Menu) : Prop :=
  (forall k item, _dynamicGenerators m !! k = Some item -> dyn_id item = dynamic_id k)
  /\ Forall (fun r =>
              Forall (fun b =>
                        type b = TPlaceholder ->
                        exists k, k < length (_dynamicGenerators m)
                                  /\ label b = LabelText (placeholder_label (dynamic_id k)))
                     (cells r))
            (bm_buttons (buttons m)).

(** ** The order in which the router meets the elements *)

(** An element with its place: address of the menu, row, column. *)
Definition matches (token : string) (p : nat * nat * nat * Button) : bool :=
  bool_decide (callbackData (snd p) = Some token).

Fixpoint row_positions (a r c : nat) (cs : list Button) : list (nat * nat * nat * Button) :=
  match cs with
  | [] => []
  | b :: rest => (a, r, c, b) :: row_positions a r (S c) rest
  end.

Fixpoint grid_positions (a r : nat) (rows : list Row) : list (nat * nat * nat * Button) :=
  match rows with
  | [] => []
  | row :: rest => row_positions a r 0 (cells row) ++ grid_positions a (S r) rest
  end.

(** The elements of the menu registered under [key], rows top to bottom and
    columns left to right, in the grid a reader of the menu sees. *)
Definition menu_positions (heap : list Menu) (o : JsObject) (key : string)
  : list (nat * nat * nat * Button) :=
  match get_own o key with
  | Some a =>
      match heap !! a with
      | Some menu => grid_positions a 0 (getButtons (current_grid menu))
      | None => []
      end
  | None => []
  end.



Definition with_world (s : State) (w : World) : State :=
  {| st_world := w; st_heap := st_heap s; st_mm := st_mm s |}.



(** ** Frozen and unfrozen menus *)

(** The menu object, its manager, the arrays of its static grid and the
    buttons in them are all frozen. *)
Definition deep_frozen (m : Menu) : Prop :=
  menu_frozen m = true
  /\ manager_frozen (buttons m) = true
  /\ array_frozen (buttons m) = true
  /\ Forall (fun r => row_frozen r = true
                      /\ Forall (fun b => button_frozen b = true) (cells r))
            (bm_buttons (buttons m)).

(** Nothing of the static grid is frozen, as in every menu that was built
    with the builder methods and not registered yet. *)
Definition pristine (m : Menu) : Prop :=
  manager_frozen (buttons m) = false /\ extensible (buttons m).

(** ** menu.js: the caption, [update] and navigation *)

(** The getter [caption]; [None] is [undefined]. *)
Definition Menu_caption (this : nat) : M State (option string) :=
  let! m := read_menu this in
  match _caption m with
  | Some (CaptionFn f) =>
      let! ctx := getContext in
      let! payload := getPayload in
      ret (Some (f ctx payload))
  | Some (CaptionText s) => ret (Some s)
  | None => ret None
  end.

(** The getter [format]. *)
Definition Menu_format (this : nat) : M State (option string) :=
  let! m := read_menu this in
  ret (_format m).

(** The arguments of an edit call: [ctx.chat.id], the message id, the
    caption, and the two fields of [options]. The third argument of the
    call is always [undefined]. *)
Record EditRequest : Type := {
  edit_chat : N;
  edit_message : N;
  edit_caption : option string;
  parse_mode : option string;
  reply_markup : list (list WireButton)
}.

Inductive EditMethod : Type := EditMessageCaption | EditMessageText.

Definition other_method (method : EditMethod) : EditMethod :=
  match method with
  | EditMessageCaption => EditMessageText
  | EditMessageText => EditMessageCaption
  end.

(** The client object [ctx.telegram]: each method answers or rejects. *)
Record Telegram : Type := {
  editMessageCaption : EditRequest -> U -> Outcome unit * U;
  editMessageText : EditRequest -> U -> Outcome unit * U
}.

(** [ctx.telegram], which the record [Ctx] of data fields does not hold;
    [None] is a context without a client. In the same way [chat_id ctx] is
    [None] for a context without [chat]. *)
Variable telegram_of : Ctx -> option Telegram.

(** What [update] does to its collaborators, in order: the edit calls it
    makes and the lines it writes with [console.error] (the text, and the
    error message printed after it, if any). *)
Inductive Effect : Type :=
| Called (method : EditMethod) (request : EditRequest)
| ErrorLine (msg : string) (detail : option string).

Record Bot : Type := {
  bot_state : State;
  bot_effects : list Effect
}.

Definition lift_s {A : Type} (c : M State A) : M Bot A :=
  fun b =>
    let '(r, s') := c (bot_state b) in
    (r, {| bot_state := s'; bot_effects := bot_effects b |}).

Definition effect (e : Effect) : M Bot unit :=
  modify (fun b => {| bot_state := bot_state b; bot_effects := bot_effects b ++ [e] |}).

(** [error.message] *)
Definition message_of (e : JsError) : string :=
  match e with
  | Error msg => msg
  | TypeError msg => msg
  end.

Definition call_edit (tg : Telegram) (method : EditMethod) (request : EditRequest)
  : M Bot unit :=
  let! _ := effect (Called method request) in
  lift_s (lift_w (call_user
    match method with
    | EditMessageCaption => editMessageCaption tg request
    | EditMessageText => editMessageText tg request
    end)).

(** One edit call of [update]: the arguments are evaluated, [this.caption]
    among them, and the method is called. *)
Definition send_edit (this : nat) (tg : Telegram) (method : EditMethod)
    (chat messageId : N) (format : option string) (markup : list (list WireButton))
  : M Bot unit :=
  let! caption := lift_s (Menu_caption this) in
  call_edit tg method
    {| edit_chat := chat; edit_message := messageId; edit_caption := caption;
       parse_mode := format; reply_markup := markup |}.

Definition Menu_update (this : nat) : M Bot unit :=
  let! ctx := lift_s getContext in
  try_catch
    (let! _ := lift_s (Menu_evaluate this) in
     match chat_id ctx, telegram_of ctx with
     | Some chat, Some tg =>
         let! messageId := lift_s getCurrentMessageId in
         if negb (truthy_num messageId) then
           effect (ErrorLine "No message ID available for update" None)
         else
           let! mediaType := lift_s getMediaType in
           let! format := lift_s (Menu_format this) in
           let! markup := lift_s (Menu_toJSON this (Some ctx)) in
           let first := if String.eqb mediaType "media"
                        then EditMessageCaption else EditMessageText in
           try_catch
             (send_edit this tg first chat (default 0%N messageId) format markup)
             (fun editError =>
                try_catch
                  (send_edit this tg (other_method first) chat (default 0%N messageId)
                             format markup)
                  (fun altError =>
                     effect (ErrorLine "Both update methods failed:"
                                       (Some (message_of altError)))))
     | _, _ => effect (ErrorLine "Invalid context for menu update" None)
     end)
    (fun error => effect (ErrorLine "Error updating menu:" (Some (message_of error)))).

(** [nav(menuId, payload = null)]; [menuId] is [None] for [null], which as
    a property key is the string ["null"]; [payload] is [None] when the
    caller leaves it out. A value found on the prototype has no [update]
    method. *)
Definition Menu_nav (menuId : option string) (payload : option Payload) : M Bot unit :=
  let! menu := lift_s (getMenuById (default "null" menuId)) in
  let! _ := lift_s (setPayload (Some (default None payload))) in
  match menu with
  | OwnMenu a => Menu_update a
  | Inherited _ => throw (TypeError "menu.update is not a function")
  end.

(** The four closures of the object [#createMenuApi] returns. *)
Definition api_update (api : MenuApi) : M Bot unit := Menu_update (api_menu api).

Definition api_nav (api : MenuApi) (menuId : option string) (payload : option Payload)
  : M Bot unit :=
  Menu_nav menuId payload.

Definition api_back (api : MenuApi) (menuId : option string) (payload : option Payload)
  : M Bot unit :=
  let! menu := lift_s (read_menu (api_menu api)) in
  Menu_nav (if truthy_str menuId then menuId else parentMenuId menu) payload.

Definition api_getPayload (api : MenuApi) : M State Payload := getPayload.

(** Registration as the specification words it: registering the menu at
    [a] leaves it deep-frozen. *)
Definition freezes_as_specified (a : nat) (s : State) : Prop :=
  forall s', registerMenu a s = (Returned tt, s') ->
  exists m', st_heap s' !! a = Some m' /\ deep_frozen m'.

(** ** Vocabulary of the further properties *)

(** The value of the getter [caption] of [m] under the registry [mm]. *)
Definition caption_value (m : Menu) (mm : MenuManager) : option string :=
  match _caption m with
  | Some (CaptionFn f) => Some (f (_context mm) (_payload mm))
  | Some (CaptionText s) => Some s
  | None => None
  end.

Definition run_method (tg : Telegram) (method : EditMethod)
  : EditRequest -> U -> Outcome unit * U :=
  match method with
  | EditMessageCaption => editMessageCaption tg
  | EditMessageText => editMessageText tg
  end.

Definition first_method (mediaType : string) : EditMethod :=
  if String.eqb mediaType "media" then EditMessageCaption else EditMessageText.

Definition with_effects (b : Bot) (s : State) (new : list Effect) : Bot :=
  {| bot_state := s; bot_effects := bot_effects b ++ new |}.

(** The registry after [setPayload(payload)]. *)
Definition with_payload (s : State) (payload : Payload) : State :=
  set_mm s {| _menus := _menus (st_mm s); _context := _context (st_mm s);
              _currentMessageId := _currentMessageId (st_mm s);
              _mediaType := _mediaType (st_mm s); _payload := payload |}.

Definition set_parent (m : Menu) (parent : option string) : Menu :=
  {| menuId := menuId m; buttons := buttons m; parentMenuId := parent;
     _caption := _caption m; _format := _format m;
     _dynamicGenerators := _dynamicGenerators m;
     _temporaryButtons := _temporaryButtons m; menu_frozen := menu_frozen m |}.

Definition with_heap (s : State) (heap : list Menu) : State :=
  {| st_world := st_world s; st_heap := heap; st_mm := st_mm s |}.

(** The buttons a sequence of grid operations adds, in order. *)
Definition added (ops : list GridOp) : list Button :=
  omap (fun op => match op with OpAdd button => Some button | OpNewRow => None end) ops.

(** All the buttons of a grid, row after row. *)
Definition all_cells (rows : list Row) : list Button :=
  concat (List.map cells rows).


(** A property of the registry object that a computation maintains,
    whether it returns or throws. *)
Definition maintains (P : JsObject -> Prop) {A : Type} (c : M State A) : Prop :=
  forall s, P (_menus (st_mm s)) -> P (_menus (st_mm (snd (c s)))).

(** A property of the registry object that survives a new entry under a
    name the object does not have. *)
Definition survives_growth (P : JsObject -> Prop) : Prop :=
  forall (o : JsObject) id a, P o -> get_property o id = None -> P (o ++ [(id, a)]).

(** The outcome of [register] on a menu that is frozen already. *)
Definition read_only_parent : JsError :=
  TypeError "Cannot assign to read only property 'parentMenuId' of object '#<Menu>'".

(** The error of reading [message_id] of a missing message. *)
Definition no_message : JsError :=
  TypeError "Cannot read properties of undefined (reading 'message_id')".

(** The identifier [#generateCallbackData('action')] computes from one
    reading of the clock and the random source. *)
Definition token_of_sample (smp : Sample) : string :=
  String.substring 0 16
    (hex (sha256_hex (type_name TAction +:+ "_" +:+ string_of_N (date_now smp)
                      +:+ "_" +:+ math_random smp))).

(** The identifiers of the action elements among [bs], in order. *)
Definition action_tokens (bs : list Button) : list (option string) :=
  List.map callbackData (List.filter (fun b => is_action (type b)) bs).

(** The identifiers computed from the [n] readings that start at [from]. *)
Definition drawn_tokens (rng : nat -> Sample) (from n : nat) : list (option string) :=
  List.map (fun k => Some (token_of_sample (rng k))) (seq from n).

End Model.

(** ** Concrete collaborators for the worked examples *)

Module Demo.

(** A stand-in for the digest: the eighth character of the input (the first
    digit of the timestamp in [action_<now>_<random>]) followed by zeros. *)
Definition digest_of (c : ascii) : HexDigest :=
  {| hex := String c "000000000000000000000000000000000000000000000000000000000000000";
     hex_length := eq_refl |}.

Definition sha256_hex (s : string) : HexDigest :=
  digest_of (default "0"%char (String.get 7 s)).

(** The user world of the examples counts the actions that ran. *)
Definition rng (n : nat) : Sample :=
  {| date_now := N.of_nat (S n); math_random := "0.5" |}.

Definition world0 : @World nat :=
  {| world_user := 0; world_rng := rng; world_rng_pos := 0;
     world_console := []; world_trace := [] |}.

Definition ctx0 : Ctx :=
  {| callbackQuery := None; chat_id := Some 1%N; from_id := Some 7%N |}.

Definition pass : @Predicate nat := fun _ u => (Returned true, u).
Definition fail : @Predicate nat := fun _ u => (Returned false, u).
Definition boom : @Handler nat string := fun _ _ u => (Thrown (Error "boom"), u).
Definition count : @Handler nat string := fun _ _ u => (Returned "done", S u).

Definition action_options (mw : option (@Handler nat string))
    (req : option (@RequirementOptions nat string)) : @ButtonOptions nat string :=
  {| opt_type := Some TAction; opt_url := None; opt_middleware := mw;
     opt_requirement := req |}.

Definition link_options (u : option string)
    (req : option (@RequirementOptions nat string)) : @ButtonOptions nat string :=
  {| opt_type := Some TUrl; opt_url := u; opt_middleware := None;
     opt_requirement := req |}.

Definition lock_when_failing : @RequirementOptions nat string :=
  {| opt_require := Some fail; opt_disable := true;
     opt_doWhenDisable := Some boom; opt_hidden := false |}.

(** [new Button("Go", { type: 'action', middleware: count })] in [world0] *)
Definition go : @Button nat string :=
  {| label := LabelText "Go"; type := TAction; url := None;
     middleware := Some count; requirement := normalize_requirement None;
     isDisable := false; isHidden := false;
     callbackData := Some "1000000000000000"; button_frozen := false |}.

(** [new Button("Crash", { type: 'action', middleware: boom })] in [world0] *)
Definition faulty : @Button nat string :=
  {| label := LabelText "Crash"; type := TAction; url := None;
     middleware := Some boom; requirement := normalize_requirement None;
     isDisable := false; isHidden := false;
     callbackData := Some "1000000000000000"; button_frozen := false |}.

(** [new Button("Docs", { type: 'url' })]: the url is left out. *)
Definition bare_link : @Button nat string :=
  {| label := LabelText "Docs"; type := TUrl; url := None;
     middleware := None; requirement := normalize_requirement None;
     isDisable := false; isHidden := false;
     callbackData := None; button_frozen := false |}.

(** [new Button("Docs", { type: 'url', url, requirement })] with a failing
    predicate and [disable: true]. *)
Definition locked_link : @Button nat string :=
  {| label := LabelText "Docs"; type := TUrl; url := Some "https://example.org";
     middleware := None; requirement := normalize_requirement (Some lock_when_failing);
     isDisable := false; isHidden := false;
     callbackData := None; button_frozen := false |}.

(** The placeholder [dynamic()] builds for the first dynamic block. *)
Definition marker : @Button nat string :=
  {| label := LabelText "__placeholder_dynamic_0__"; type := TPlaceholder; url := None;
     middleware := None;
     requirement := normalize_requirement
                      (Some {| opt_require := None; opt_disable := false;
                               opt_doWhenDisable := None; opt_hidden := true |});
     isDisable := false; isHidden := false;
     callbackData := None; button_frozen := false |}.

Definition api0 : MenuApi := {| api_menu := 0 |}.

Definition state0 : @State nat string :=
  {| st_world := world0; st_heap := []; st_mm := MenuManager_initial |}.

(** A generator that appends X and Y to its range, and one that starts a
    new row between them. *)
Definition callX : @RangeCall nat string := CallText (LabelText "X") (Some count) None.
Definition callY : @RangeCall nat string :=
  CallUrl (LabelText "Y") (Some "https://example.org") None.

Definition gen_flat : @Generator nat string :=
  fun _ _ u => ({| gen_calls := [callX; callY]; gen_throws := None |}, u).

Definition gen_break : @Generator nat string :=
  fun _ _ u => ({| gen_calls := [callX; CallRow; callY]; gen_throws := None |}, u).

(** [new Menu("root").text("A", count).dynamic(g).text("B")] *)
Definition build_root (g : @Generator nat string) : M (@State nat string) nat :=
  let! a := Menu_alloc (Some "root") in
  let! _ := on_menu a (Menu_text sha256_hex (LabelText "A") (Some count) None) in
  let! _ := on_menu a (Menu_dynamic sha256_hex g) in
  let! _ := on_menu a (Menu_text sha256_hex (LabelText "B") None None) in
  ret a.

Definition with_root (g : @Generator nat string) : @State nat string :=
  snd (build_root g state0).



Definition press (token : string) : Ctx :=
  {| callbackQuery := Some {| data := Some token;
                              message := Some {| message_id := 41 |} |};
     chat_id := Some 1%N; from_id := Some 7%N |}.


(** A predicate that throws, and an action element guarded by it. *)
Definition crash : @Predicate nat := fun _ u => (Thrown (Error "no session"), u).

Definition guarded : @Button nat string :=
  {| label := LabelText "Pay"; type := TAction; url := None;
     middleware := Some count;
     requirement := normalize_requirement
                      (Some {| opt_require := Some crash; opt_disable := true;
                               opt_doWhenDisable := Some count; opt_hidden := false |});
     isDisable := false; isHidden := false;
     callbackData := Some "1000000000000000"; button_frozen := false |}.

(** A generator that appends X and then throws. *)
Definition gen_fail : @Generator nat string :=
  fun _ _ u => ({| gen_calls := [callX]; gen_throws := Some (Error "no data") |}, u).

(** A client that accepts caption edits, which it counts in the user
    world, and refuses text edits. *)
Definition captions_only : @Telegram nat :=
  {| editMessageCaption := fun _ u => (Returned tt, S u);
     editMessageText :=
       fun _ u => (Thrown (Error "there is no text in the message to edit"), u) |}.

Definition telegram_of (ctx : Ctx) : option (@Telegram nat) := Some captions_only.

(** [root] and [items], with [root.register(items)]; the caption of
    [items] shows the payload. The registry holds the context of a press on
    message 41, whose content is text. *)
Definition page_caption : Ctx -> @Payload string -> string :=
  fun _ payload => "Page " +:+ default "none" payload.

Definition build_shop : M (@State nat string) Ctx :=
  let! root := Menu_alloc (Some "root") in
  let! items := Menu_alloc (Some "items") in
  let! _ := on_menu items (Menu_text sha256_hex (LabelText "Buy") (Some count) None) in
  let! _ := on_menu items (lift_obj (Menu_setCaption (CaptionFn page_caption) None)) in
  let! _ := Menu_register root items in
  let! _ := registerMenu root in
  setContext (press "1000000000000000") (Some 41%N) None.

Definition shop : @Bot nat string :=
  {| bot_state := snd (build_shop state0); bot_effects := [] |}.

(** [new Menu("root")] and [new Menu("items")], not yet registered. *)
Definition two_menus : @State nat string :=
  snd ((let! _ := Menu_alloc (Some "root") in Menu_alloc (Some "items")) state0).

(** A press on an inline message: the callback query carries no message. *)
Definition inline_press : Ctx :=
  {| callbackQuery := Some {| data := Some "1000000000000000"; message := None |};
     chat_id := None; from_id := Some 7%N |}.

(** The grid [[Go, placeholder], [Docs]]. *)
Definition small_grid : @ButtonManager nat string :=
  grid_of [[go; marker]; [locked_link]].

(** Two menu objects with the id ["root"], the first of them registered,
    and a menu with the id ["constructor"]. *)
Definition twins : @State nat string :=
  snd ((let! first := Menu_alloc (Some "root") in
        let! _ := Menu_alloc (Some "root") in
        let! _ := Menu_alloc (Some "constructor") in
        registerMenu first) state0).

End Demo.

(** * Properties *)

Section Properties.

Context {U V : Type}.
Variable sha256_hex : string -> HexDigest.

Implicit Types (b button : @Button U V) (w : @World U) (ctx : Ctx) (api : MenuApi).

Ltac run_monad :=
  unfold bind, ret, throw, try_catch, emit, console_log, modify, gets, call_user,
    next_sample in *; simpl in *.

(** ** Element: requirement evaluation *)

Lemma evaluateRequirement_placeholder b ctx w :
  type b = TPlaceholder ->
  Button_evaluateRequirement b ctx w
  = (Returned (false, set_flags b (isDisable b) true), w).
Proof. intros Hty. unfold Button_evaluateRequirement. rewrite Hty. reflexivity. Qed.

Lemma evaluateRequirement_checked b ctx w check u' :
  type b <> TPlaceholder ->
  require (requirement b) ctx (world_user w) = (Returned check, u') ->
  Button_evaluateRequirement b ctx w
  = (Returned (check, set_flags b (negb check && disable (requirement b))
                                  (negb check && hidden (requirement b))),
     set_user (push_trace w (EvRequire (callbackData b))) u').
Proof.
  intros Hty Hreq. unfold Button_evaluateRequirement.
  destruct (type b) eqn:E; try congruence; run_monad; rewrite Hreq; reflexivity.
Qed.

Lemma evaluateRequirement_throws b ctx w e u' :
  type b <> TPlaceholder ->
  require (requirement b) ctx (world_user w) = (Thrown e, u') ->
  Button_evaluateRequirement b ctx w
  = (Thrown e, set_user (push_trace w (EvRequire (callbackData b))) u').
Proof.
  intros Hty Hreq. unfold Button_evaluateRequirement.
  destruct (type b) eqn:E; try congruence; run_monad; rewrite Hreq; reflexivity.
Qed.

Lemma Button_new_fields lbl o w b w' :
  Button_new sha256_hex lbl o w = (Returned b, w') ->
  exists ty, opt_type o = Some ty /\ type b = ty /\ label b = lbl
    /\ url b = opt_url o /\ middleware b = opt_middleware o
    /\ requirement b = normalize_requirement (opt_requirement o)
    /\ isDisable b = false /\ isHidden b = false /\ button_frozen b = false.
Proof.
  unfold Button_new. destruct (opt_type o) as [ty|]; [|discriminate].
  intros H. exists ty. destruct (is_action ty); run_monad; inversion H; subst; simpl;
    repeat split; reflexivity.
Qed.

Lemma default_predicate_passes lbl o w b w' :
  Button_new sha256_hex lbl o w = (Returned b, w') ->
  match opt_requirement o with
  | None => True
  | Some r => opt_require r = None
  end ->
  forall ctx u, require (requirement b) ctx u = (Returned true, u).
Proof.
  intros Hnew Hdef ctx u.
  destruct (Button_new_fields _ _ _ _ _ Hnew) as (ty & _ & _ & _ & _ & _ & Hreq & _).
  rewrite Hreq. unfold normalize_requirement.
  destruct (opt_requirement o) as [r|]; [rewrite Hdef|]; reflexivity.
Qed.

(** C3. Requirement evaluation. A placeholder gets [isHidden = true] and the
    result [false], and the world (its trace of callback invocations
    included) is untouched, so the predicate is not invoked. Any other kind
    invokes the predicate once; when it answers [check], the flags become
    [isDisable = disable && !check] and [isHidden = hidden && !check] and
    [check] is returned. An element built without a predicate has the
    always-true predicate. *)
Theorem C3_evaluateRequirement b ctx w :
  (type b = TPlaceholder ->
     exists b', Button_evaluateRequirement b ctx w = (Returned (false, b'), w)
                /\ isHidden b' = true)
  /\ (type b <> TPlaceholder ->
      forall check u', require (requirement b) ctx (world_user w) = (Returned check, u') ->
      exists b' w',
        Button_evaluateRequirement b ctx w = (Returned (check, b'), w')
        /\ isDisable b' = (disable (requirement b) && negb check)
        /\ isHidden b' = (hidden (requirement b) && negb check)
        /\ world_user w' = u'
        /\ world_trace w' = world_trace w ++ [EvRequire (callbackData b)])
  /\ (forall lbl o w0,
      Button_new sha256_hex lbl o w0 = (Returned b, w) ->
      match opt_requirement o with
      | None => True
      | Some r => opt_require r = None
      end ->
      forall c u, require (requirement b) c u = (Returned true, u)).
Proof.
  split; [|split].
  - intros Hty. eexists. split; [apply evaluateRequirement_placeholder, Hty|reflexivity].
  - intros Hty check u' Hreq. do 2 eexists.
    split; [apply evaluateRequirement_checked; eassumption|].
    simpl. repeat split; apply andb_comm.
  - intros lbl o w0 Hnew Hdef. eapply default_predicate_passes; eassumption.
Qed.

(** ** Element: serialization *)

Lemma digest_slice_nonempty (d : HexDigest) : String.substring 0 16 (hex d) <> "".
Proof.
  destruct d as [h Hlen]. simpl. destruct h as [|c h']; [discriminate|].
  simpl. discriminate.
Qed.

Lemma truthy_str_spec (s : option string) :
  truthy_str s = true <-> exists t, s = Some t /\ t <> "".
Proof.
  unfold truthy_str. destruct s as [t|].
  - rewrite negb_true_iff. split.
    + intros H. exists t. split; [reflexivity|]. intros ->. discriminate.
    + intros (t' & [= <-] & Hne). apply String.eqb_neq, Hne.
  - split; [discriminate|]. intros (t & [=] & _).
Qed.

Lemma generateCallbackData_fresh ty w :
  exists t, generateCallbackData sha256_hex ty w = (Returned t, advance_rng w) /\ t <> "".
Proof.
  unfold generateCallbackData. run_monad. eexists. split; [reflexivity|].
  apply digest_slice_nonempty.
Qed.

Lemma toJSON_omitted b ctx w :
  isHidden b = true \/ type b = TPlaceholder ->
  Button_toJSON sha256_hex b ctx w = (Returned None, w).
Proof.
  unfold Button_toJSON. intros [H|H]; rewrite H; [reflexivity|].
  destruct (isHidden b); reflexivity.
Qed.

Lemma toJSON_disabled b ctx w :
  isHidden b = false -> type b <> TPlaceholder -> isDisable b = true ->
  exists token w',
    Button_toJSON sha256_hex b ctx w
    = (Returned (Some {| text := getLabel b ctx +:+ locked_marker;
                         wire_url := None; callback_data := Some token |}), w')
    /\ token <> ""
    /\ (truthy_str (callbackData b) = true -> callbackData b = Some token /\ w' = w).
Proof.
  intros Hh Hty Hd. unfold Button_toJSON. rewrite Hh, Hd.
  replace (is_placeholder (type b)) with false by (destruct (type b); simpl; congruence).
  destruct (truthy_str (callbackData b)) eqn:Ht.
  - apply truthy_str_spec in Ht as (t & Ht & Hne). rewrite Ht. run_monad.
    exists t, w. auto.
  - destruct (generateCallbackData_fresh "action" w) as (t & Hg & Hne).
    unfold bind. rewrite Hg. run_monad. exists t, (advance_rng w).
    repeat split; [assumption|discriminate|discriminate].
Qed.

Lemma toJSON_enabled b ctx w :
  isHidden b = false -> type b <> TPlaceholder -> isDisable b = false ->
  Button_toJSON sha256_hex b ctx w
  = (Returned (Some {| text := getLabel b ctx;
                       wire_url := if truthy_str (url b) then url b else None;
                       callback_data := if truthy_str (callbackData b)
                                        then callbackData b else None |}), w).
Proof.
  intros Hh Hty Hd. unfold Button_toJSON. rewrite Hh, Hd.
  replace (is_placeholder (type b)) with false by (destruct (type b); simpl; congruence).
  reflexivity.
Qed.

Lemma present_iff_truthy (s : option string) :
  is_Some (if truthy_str s then s else None) <-> truthy_str s = true.
Proof.
  destruct (truthy_str s) eqn:E.
  - split; [reflexivity|]. intros _. apply truthy_str_spec in E as (t & -> & _). eauto.
  - split; [intros [x [=]]|discriminate].
Qed.

Lemma Button_new_identifier lbl o w b w' :
  Button_new sha256_hex lbl o w = (Returned b, w') ->
  if is_action (type b)
  then exists t, callbackData b = Some t /\ t <> ""
  else callbackData b = None.
Proof.
  unfold Button_new. destruct (opt_type o) as [ty|]; [|discriminate].
  destruct (is_action ty) eqn:Ea.
  - destruct (generateCallbackData_fresh (type_name ty) w) as (t & Hg & Hne).
    unfold bind at 1. unfold bind at 1. rewrite Hg. run_monad.
    intros [= <- <-]. simpl. rewrite Ea. eauto.
  - run_monad. intros [= <- <-]. simpl. rewrite Ea. reflexivity.
Qed.

Lemma Button_new_truthy_identifier lbl o w b w' :
  Button_new sha256_hex lbl o w = (Returned b, w') ->
  truthy_str (callbackData b) = is_action (type b).
Proof.
  intros H. apply Button_new_identifier in H. destruct (is_action (type b)).
  - apply truthy_str_spec. exact H.
  - rewrite H. reflexivity.
Qed.

(** C2 (amended). Serialization omits a hidden element and a placeholder,
    whatever the disabled flag. A disabled, visible element is serialized
    with its label followed by the locked marker, a non-empty callback token
    and no url. Any other element is serialized with its label, its url
    exactly when the url is non-empty, and its callback token exactly when
    it has a stored identifier, which the constructor gives to action
    elements only; so exactly one of the two is present when the element is
    an action without url or a link or embedded-app with a non-empty url. *)
Theorem C2_serialize b ctx w :
  (isHidden b = true \/ type b = TPlaceholder ->
     Button_toJSON sha256_hex b ctx w = (Returned None, w))
  /\ (isHidden b = false -> type b <> TPlaceholder -> isDisable b = true ->
      exists token w',
        Button_toJSON sha256_hex b ctx w
        = (Returned (Some {| text := getLabel b ctx +:+ locked_marker;
                             wire_url := None; callback_data := Some token |}), w')
        /\ token <> "")
  /\ (isHidden b = false -> type b <> TPlaceholder -> isDisable b = false ->
      exists j,
        Button_toJSON sha256_hex b ctx w = (Returned (Some j), w)
        /\ text j = getLabel b ctx
        /\ (is_Some (wire_url j) <-> truthy_str (url b) = true)
        /\ (is_Some (callback_data j) <-> truthy_str (callbackData b) = true)
        /\ (truthy_str (url b) = negb (truthy_str (callbackData b)) -> exactly_one_of j))
  /\ (forall lbl o w0 w1,
      Button_new sha256_hex lbl o w0 = (Returned b, w1) ->
      truthy_str (callbackData b) = is_action (type b)).
Proof.
  split; [|split; [|split]].
  - apply toJSON_omitted.
  - intros Hh Hty Hd. destruct (toJSON_disabled b ctx w Hh Hty Hd) as (t & w' & H & Hne & _).
    eauto.
  - intros Hh Hty Hd. eexists. split; [apply toJSON_enabled; assumption|].
    simpl. split; [reflexivity|]. split; [apply present_iff_truthy|].
    split; [apply present_iff_truthy|].
    intros Hx. unfold exactly_one_of. simpl.
    destruct (truthy_str (callbackData b)) eqn:Ec; simpl in Hx; rewrite Hx.
    + right. split; [reflexivity|]. apply truthy_str_spec in Ec as (t & -> & _). eauto.
    + left. split; [|reflexivity]. apply truthy_str_spec in Hx as (t & -> & _). eauto.
  - intros lbl o w0 w1. apply Button_new_truthy_identifier.
Qed.

(** ** Element: invocation *)

Lemma evaluateRequirement_result b ctx w check b' w' :
  Button_evaluateRequirement b ctx w = (Returned (check, b'), w') ->
  exists d h, b' = set_flags b d h.
Proof.
  unfold Button_evaluateRequirement. destruct (is_placeholder (type b)).
  - run_monad. intros [= <- <- <-]. eauto.
  - run_monad. destruct (require (requirement b) ctx (world_user w)) as [[c|e] u'];
      simpl; [|discriminate].
    intros [= <- <- <-]. eauto.
Qed.

Lemma handler_after_throw b ctx api w e w1 :
  Button_evaluateRequirement b ctx w = (Thrown e, w1) ->
  Button_handler b ctx api w = (Thrown e, w1).
Proof. intros H. unfold Button_handler, bind. rewrite H. reflexivity. Qed.

Lemma handler_action b ctx api w b' w1 mw :
  Button_evaluateRequirement b ctx w = (Returned (true, b'), w1) ->
  middleware b = Some mw ->
  Button_handler b ctx api w
  = match mw ctx api (world_user w1) with
    | (Returned v, u') =>
        (Returned (Some v, b'),
         set_user (push_trace w1 (EvAction (callbackData b) api)) u')
    | (Thrown e, u') =>
        (Returned (None, b'),
         push_console (set_user (push_trace w1 (EvAction (callbackData b) api)) u')
                      (ConsoleError "Error in middleware:" e))
    end.
Proof.
  intros H Hmw. destruct (evaluateRequirement_result _ _ _ _ _ _ H) as (d & h & ->).
  unfold Button_handler. unfold bind at 1. rewrite H. simpl. rewrite Hmw.
  run_monad. destruct (mw ctx api (world_user w1)) as [[v|e] u']; reflexivity.
Qed.

Lemma handler_fallback b ctx api w check b' w1 :
  Button_evaluateRequirement b ctx w = (Returned (check, b'), w1) ->
  check = false \/ middleware b = None ->
  Button_handler b ctx api w
  = if isDisable b' then
      match doWhenDisable (requirement b) with
      | Some h =>
          match h ctx api (world_user w1) with
          | (Returned v, u') =>
              (Returned (Some v, b'),
               set_user (push_trace w1 (EvDisabled (callbackData b) api)) u')
          | (Thrown e, u') =>
              (Returned (None, b'),
               push_console (set_user (push_trace w1 (EvDisabled (callbackData b) api)) u')
                            (ConsoleError "Error in doWhenDisable middleware:" e))
          end
      | None => (Returned (None, b'), push_trace w1 (EvDisabled (callbackData b) api))
      end
    else (Returned (None, b'), w1).
Proof.
  intros H Hc. destruct (evaluateRequirement_result _ _ _ _ _ _ H) as (d & h & ->).
  unfold Button_handler. unfold bind at 1. rewrite H. simpl.
  assert (Hbranch : match check, middleware b with
                    | true, Some _ => False
                    | _, _ => True
                    end).
  { destruct Hc as [-> | ->]; [exact I|]. destruct check; exact I. }
  destruct check, (middleware b); try contradiction;
    destruct d; simpl; try reflexivity;
    unfold run_doWhenDisable; simpl; run_monad;
    (destruct (doWhenDisable (requirement b)) as [hd|]; simpl; [|reflexivity]);
    destruct (hd ctx api (world_user w1)) as [[v|e] u']; reflexivity.
Qed.

(** C7. Invocation. [handler] first re-runs [evaluateRequirement]. When the
    requirement passed and the element has an action, the action runs once
    (one [EvAction] event) and a failure of it is logged and swallowed. When
    it did not, and the element is disabled, the disabled-handler runs once
    under the same policy. Otherwise nothing runs. Whenever the evaluation
    of the requirement itself returns, [handler] returns: a throwing action
    or disabled-handler never makes it raise. *)
Theorem C7_handler_swallows b ctx api w :
  forall check b' w1,
    Button_evaluateRequirement b ctx w = (Returned (check, b'), w1) ->
    (check = true -> forall mw, middleware b = Some mw ->
       let w2 := push_trace w1 (EvAction (callbackData b) api) in
       (forall v u', mw ctx api (world_user w1) = (Returned v, u') ->
          Button_handler b ctx api w = (Returned (Some v, b'), set_user w2 u'))
       /\ (forall e u', mw ctx api (world_user w1) = (Thrown e, u') ->
          Button_handler b ctx api w
          = (Returned (None, b'),
             push_console (set_user w2 u') (ConsoleError "Error in middleware:" e))))
    /\ (check = false \/ middleware b = None -> isDisable b' = true ->
        let w2 := push_trace w1 (EvDisabled (callbackData b) api) in
        match doWhenDisable (requirement b) with
        | Some h =>
            (forall v u', h ctx api (world_user w1) = (Returned v, u') ->
               Button_handler b ctx api w = (Returned (Some v, b'), set_user w2 u'))
            /\ (forall e u', h ctx api (world_user w1) = (Thrown e, u') ->
               Button_handler b ctx api w
               = (Returned (None, b'),
                  push_console (set_user w2 u')
                               (ConsoleError "Error in doWhenDisable middleware:" e)))
        | None => Button_handler b ctx api w = (Returned (None, b'), w2)
        end)
    /\ (check = false \/ middleware b = None -> isDisable b' = false ->
        Button_handler b ctx api w = (Returned (None, b'), w1))
    /\ (exists r w', Button_handler b ctx api w = (Returned r, w')).
Proof.
  intros check b' w1 H. split; [|split; [|split]].
  - intros -> mw Hmw w2. pose proof (handler_action b ctx api w b' w1 mw H Hmw) as Hh.
    split; intros x u' Hx; rewrite Hx in Hh; exact Hh.
  - intros Hc Hd w2. pose proof (handler_fallback b ctx api w check b' w1 H Hc) as Hh.
    rewrite Hd in Hh. destruct (doWhenDisable (requirement b)) as [h|]; [|exact Hh].
    split; intros x u' Hx; rewrite Hx in Hh; exact Hh.
  - intros Hc Hd. pose proof (handler_fallback b ctx api w check b' w1 H Hc) as Hh.
    rewrite Hd in Hh. exact Hh.
  - destruct check eqn:Ec, (middleware b) as [mw|] eqn:Em.
    + rewrite (handler_action b ctx api w b' w1 mw H Em).
      destruct (mw ctx api (world_user w1)) as [[v|e] u']; eauto.
    + rewrite (handler_fallback b ctx api w true b' w1 H (or_intror Em)).
      destruct (isDisable b'); [|eauto].
      destruct (doWhenDisable (requirement b)) as [h|]; [|eauto].
      destruct (h ctx api (world_user w1)) as [[v|e] u']; eauto.
    + rewrite (handler_fallback b ctx api w false b' w1 H (or_introl eq_refl)).
      destruct (isDisable b'); [|eauto].
      destruct (doWhenDisable (requirement b)) as [h|]; [|eauto].
      destruct (h ctx api (world_user w1)) as [[v|e] u']; eauto.
    + rewrite (handler_fallback b ctx api w false b' w1 H (or_introl eq_refl)).
      destruct (isDisable b'); [|eauto].
      destruct (doWhenDisable (requirement b)) as [h|]; [|eauto].
      destruct (h ctx api (world_user w1)) as [[v|e] u']; eauto.
Qed.

(** ** Element: the identifier *)

Lemma handler_result b ctx api w r b' w' :
  Button_handler b ctx api w = (Returned (r, b'), w') ->
  exists d h, b' = set_flags b d h.
Proof.
  intros H.
  destruct (Button_evaluateRequirement b ctx w) as [[[check b1]|e] w1] eqn:He.
  2: { rewrite (handler_after_throw _ _ api _ _ _ He) in H. discriminate. }
  destruct (evaluateRequirement_result _ _ _ _ _ _ He) as (d & h & Hb1).
  exists d, h.
  assert (Hfb : check = false \/ middleware b = None ->
                b' = set_flags b d h).
  { intros Hc. rewrite (handler_fallback b ctx api w check b1 w1 He Hc) in H.
    destruct (isDisable b1); [|congruence].
    destruct (doWhenDisable (requirement b)) as [hd|]; [|congruence].
    destruct (hd ctx api (world_user w1)) as [[v|e] u']; congruence. }
  destruct check eqn:Ec, (middleware b) as [mw|] eqn:Em; auto.
  rewrite (handler_action b ctx api w b1 w1 mw He Em) in H.
  destruct (mw ctx api (world_user w1)) as [[v|e] u']; congruence.
Qed.

Lemma toJSON_stored_identifier b ctx w :
  truthy_str (callbackData b) = true ->
  exists r,
    Button_toJSON sha256_hex b ctx w = (Returned r, w)
    /\ (forall j, r = Some j -> callback_data j = callbackData b)
    /\ (forall w2, Button_toJSON sha256_hex b ctx w2 = (Returned r, w2)).
Proof.
  intros Ht. pose proof Ht as Ht'. apply truthy_str_spec in Ht' as (t & Hcb & Hne).
  unfold Button_toJSON. rewrite Ht.
  destruct (isHidden b); [eexists; split; [reflexivity|split; [discriminate|reflexivity]]|].
  destruct (is_placeholder (type b));
    [eexists; split; [reflexivity|split; [discriminate|reflexivity]]|].
  destruct (isDisable b); run_monad; eexists; (split; [reflexivity|]);
    (split; [|reflexivity]); intros j [= <-]; simpl; rewrite Hcb; reflexivity.
Qed.

(** C9 (amended). The constructor generates an identifier for an action
    element and for no other kind; nothing regenerates or replaces it:
    requirement evaluation and invocation leave it as it was. For an element
    that has a stored identifier, serialization draws no fresh token, any two
    serializations under the same flags give the same result, and the token
    in it is the stored identifier. (A disabled element without a stored
    identifier gets a fresh token at each serialization.) *)
Theorem C9_identifier_stable b :
  (forall lbl o w0 w1,
     Button_new sha256_hex lbl o w0 = (Returned b, w1) ->
     if is_action (type b)
     then exists t, callbackData b = Some t /\ t <> ""
     else callbackData b = None)
  /\ (forall ctx w check b' w',
      Button_evaluateRequirement b ctx w = (Returned (check, b'), w') ->
      callbackData b' = callbackData b)
  /\ (forall ctx api w r b' w',
      Button_handler b ctx api w = (Returned (r, b'), w') ->
      callbackData b' = callbackData b)
  /\ (truthy_str (callbackData b) = true ->
      forall ctx w, exists r,
        Button_toJSON sha256_hex b ctx w = (Returned r, w)
        /\ (forall j, r = Some j -> callback_data j = callbackData b)
        /\ (forall w2, Button_toJSON sha256_hex b ctx w2 = (Returned r, w2)))
  /\ (truthy_str (callbackData b) = false ->
      isHidden b = false -> type b <> TPlaceholder -> isDisable b = true ->
      forall ctx w, exists j,
        Button_toJSON sha256_hex b ctx w = (Returned (Some j), advance_rng w)
        /\ callback_data j
           = Some (String.substring 0 16
                     (hex (sha256_hex
                        ("action" +:+ "_"
                         +:+ string_of_N (date_now (world_rng w (world_rng_pos w)))
                         +:+ "_" +:+ math_random (world_rng w (world_rng_pos w))))))).
Proof.
  split; [|split; [|split; [|split]]].
  - intros lbl o w0 w1. apply Button_new_identifier.
  - intros ctx w check b' w' H.
    destruct (evaluateRequirement_result _ _ _ _ _ _ H) as (d & h & ->). reflexivity.
  - intros ctx api w r b' w' H.
    destruct (handler_result _ _ _ _ _ _ _ H) as (d & h & ->). reflexivity.
  - intros Ht ctx w. apply toJSON_stored_identifier, Ht.
  - intros Ht Hh Hty Hd ctx w. unfold Button_toJSON. rewrite Hh, Hd, Ht.
    replace (is_placeholder (type b)) with false by (destruct (type b); simpl; congruence).
    unfold generateCallbackData. run_monad. eexists. split; reflexivity.
Qed.

(** ** Grid: rows *)

Implicit Types (bm : @ButtonManager U V) (r row : @Row U V) (rows : list (@Row U V)).

Lemma last_snoc_inv rows r :
  last rows = Some r -> exists init, rows = init ++ [r].
Proof.
  intros H. destruct rows as [|x l] using rev_ind; [discriminate|].
  rewrite last_snoc in H. injection H as ->. eauto.
Qed.

Lemma insert_last (init : list (@Row U V)) r r' :
  <[length (init ++ [r]) - 1 := r']> (init ++ [r]) = init ++ [r'].
Proof.
  rewrite length_app. simpl.
  replace (length init + 1 - 1) with (length init + 0) by lia.
  rewrite insert_app_r. reflexivity.
Qed.

Lemma no_adjacent_empty_snoc rows r :
  no_adjacent_empty (rows ++ [r])
  <-> no_adjacent_empty rows
      /\ match last rows with
         | Some r0 => ~ (cells r0 = [] /\ cells r = [])
         | None => True
         end.
Proof.
  induction rows as [|r1 rest IH]; simpl.
  - tauto.
  - destruct rest as [|r2 rest'].
    + simpl. tauto.
    + change ((r2 :: rest') ++ [r]) with (r2 :: (rest' ++ [r])) in *.
      change (last (r1 :: r2 :: rest')) with (last (r2 :: rest')).
      simpl in IH. simpl. tauto.
Qed.

Lemma newRow_noop bm r :
  last (bm_buttons bm) = Some r -> cells r = [] -> newRow bm = (Returned tt, bm).
Proof.
  intros Hl Hc. unfold newRow. rewrite Hl, Hc. simpl.
  destruct (bm_buttons bm); [discriminate|]. reflexivity.
Qed.

Lemma addButton_preserves button bm :
  no_adjacent_empty (bm_buttons bm) ->
  no_adjacent_empty (bm_buttons (snd (addButton button bm))).
Proof.
  intros H. unfold addButton. destruct (last (bm_buttons bm)) as [r|] eqn:Hl; [|exact H].
  destruct (row_frozen r); [exact H|]. simpl.
  destruct (last_snoc_inv _ _ Hl) as (init & Hrows). rewrite Hrows in *.
  rewrite insert_last. apply no_adjacent_empty_snoc.
  apply no_adjacent_empty_snoc in H as [H _]. split; [exact H|].
  destruct (last init); [|exact I]. simpl. intros [_ Habs].
  destruct (cells r); discriminate.
Qed.

Lemma newRow_preserves bm :
  no_adjacent_empty (bm_buttons bm) ->
  no_adjacent_empty (bm_buttons (snd (newRow bm))).
Proof.
  intros H. unfold newRow.
  destruct (bm_buttons bm) as [|r0 rest] eqn:Hrows.
  - simpl. destruct (array_frozen bm); simpl; [rewrite Hrows; exact I|tauto].
  - rewrite <- Hrows in *. replace (length (bm_buttons bm) =? 0) with false
      by (rewrite Hrows; reflexivity).
    simpl. destruct (last (bm_buttons bm)) as [r|] eqn:Hl; [|exact H].
    destruct (0 <? length (cells r)) eqn:Hlen; [|exact H].
    destruct (array_frozen bm); [exact H|]. simpl.
    apply no_adjacent_empty_snoc. split; [exact H|]. rewrite Hl.
    intros [Habs _]. rewrite Habs in Hlen. discriminate.
Qed.

Lemma run_ops_preserves ops bm :
  no_adjacent_empty (bm_buttons bm) ->
  no_adjacent_empty (bm_buttons (snd (run_ops ops bm))).
Proof.
  revert bm. induction ops as [|op rest IH]; intros bm H; [exact H|].
  simpl. unfold bind.
  assert (Hop : no_adjacent_empty (bm_buttons (snd (run_op op bm)))).
  { destruct op; [apply addButton_preserves|apply newRow_preserves]; exact H. }
  destruct (run_op op bm) as [[[]|e] bm1]; simpl in *; [apply IH|]; exact Hop.
Qed.

Lemma extensible_new : extensible (@ButtonManager_new U V).
Proof.
  unfold extensible. simpl. split; [reflexivity|]. split; [discriminate|].
  repeat constructor.
Qed.

Lemma addButton_extensible button bm :
  extensible bm ->
  exists init r,
    bm_buttons bm = init ++ [r]
    /\ addButton button bm
       = (Returned tt, set_rows bm (init ++ [{| cells := cells r ++ [button];
                                               row_frozen := false |}]))
    /\ extensible (set_rows bm (init ++ [{| cells := cells r ++ [button];
                                            row_frozen := false |}])).
Proof.
  intros (Ha & Hne & Hall). unfold addButton.
  destruct (bm_buttons bm) as [|x l] eqn:Hrows using rev_ind; [congruence|].
  clear IHl. rewrite last_snoc.
  apply Forall_app in Hall as [Hinit Hx]. inversion Hx as [|? ? Hfx _]; subst.
  rewrite Hfx. exists l, x. split; [reflexivity|].
  rewrite insert_last. split; [reflexivity|].
  unfold extensible. simpl. split; [exact Ha|]. split.
  - intros Habs. apply app_eq_nil in Habs as [_ Habs]. discriminate.
  - apply Forall_app. split; [exact Hinit|]. repeat constructor.
Qed.

Lemma newRow_extensible bm :
  extensible bm ->
  exists bm', newRow bm = (Returned tt, bm') /\ extensible bm'
    /\ bm' = if match last (bm_buttons bm) with
                | Some r => 0 <? length (cells r)
                | None => false
                end
             then set_rows bm (bm_buttons bm ++ [empty_row])
             else bm.
Proof.
  intros (Ha & Hne & Hall). unfold newRow.
  replace (length (bm_buttons bm) =? 0) with false
    by (destruct (bm_buttons bm); [congruence|reflexivity]).
  simpl. destruct (match last (bm_buttons bm) with
                   | Some r => 0 <? length (cells r)
                   | None => false
                   end).
  - rewrite Ha. eexists. split; [reflexivity|]. split; [|reflexivity].
    unfold extensible. simpl. split; [exact Ha|]. split.
    + intros Habs. apply app_eq_nil in Habs as [_ Habs]. discriminate.
    + apply Forall_app. split; [exact Hall|]. repeat constructor.
  - eexists. split; [reflexivity|]. split; [|reflexivity]. repeat split; assumption.
Qed.

Lemma run_ops_extensible ops bm :
  extensible bm -> exists bm', run_ops ops bm = (Returned tt, bm') /\ extensible bm'.
Proof.
  revert bm. induction ops as [|op rest IH]; intros bm H.
  - exists bm. split; [reflexivity|exact H].
  - simpl. unfold bind. destruct op as [button|].
    + destruct (addButton_extensible button bm H) as (init & r & _ & Hrun & Hext).
      simpl. rewrite Hrun. apply IH, Hext.
    + destruct (newRow_extensible bm H) as (bm' & Hrun & Hext & _).
      simpl. rewrite Hrun. apply IH, Hext.
Qed.

(** ** Grid: serialization *)

Lemma Button_toJSON_returns b ctx w :
  exists j w', Button_toJSON sha256_hex b ctx w = (Returned j, w').
Proof.
  unfold Button_toJSON. destruct (isHidden b); [run_monad; eauto|].
  destruct (is_placeholder (type b)); [run_monad; eauto|].
  destruct (isDisable b); [|run_monad; eauto].
  destruct (truthy_str (callbackData b)); [run_monad; eauto|].
  unfold generateCallbackData. run_monad. eauto.
Qed.

Lemma serialize_cells_returns (cs : list (@Button U V)) ctx w :
  exists js w', serialize_cells sha256_hex cs ctx w = (Returned js, w')
                /\ length js = length cs.
Proof.
  revert w. induction cs as [|b rest IH]; intros w; simpl.
  - run_monad. eauto.
  - unfold bind. destruct (Button_toJSON_returns b ctx w) as (j & w1 & ->).
    destruct (IH w1) as (js & w2 & -> & Hlen). run_monad. eexists _, _.
    split; [reflexivity|]. simpl. congruence.
Qed.

Lemma serialize_rows_returns rows ctx w :
  exists jss w', serialize_rows sha256_hex rows ctx w = (Returned jss, w').
Proof.
  revert w. induction rows as [|r rest IH]; intros w; simpl.
  - run_monad. eauto.
  - unfold bind. destruct (serialize_cells_returns (cells r) ctx w) as (js & w1 & -> & _).
    destruct (IH w1) as (jss & w2 & ->). run_monad. eauto.
Qed.

Lemma toJSON_row_spec (cs : list (@Button U V)) ctx acc w js w' :
  serialize_cells sha256_hex cs ctx w = (Returned js, w') ->
  toJSON_row sha256_hex cs ctx acc w = (Returned (acc ++ drop_omitted js), w').
Proof.
  revert acc w js. induction cs as [|b rest IH]; intros acc w js; simpl.
  - run_monad. intros [= <- <-]. rewrite app_nil_r. reflexivity.
  - unfold bind. destruct (Button_toJSON_returns b ctx w) as (j & w1 & ->).
    destruct (serialize_cells_returns rest ctx w1) as (js1 & w2 & Hs & _).
    rewrite Hs. run_monad. intros [= <- <-].
    rewrite (IH _ _ _ Hs). unfold drop_omitted. destruct j; simpl.
    + rewrite <- app_assoc. reflexivity.
    + reflexivity.
Qed.

Lemma toJSON_rows_spec rows ctx acc w jss w' :
  serialize_rows sha256_hex rows ctx w = (Returned jss, w') ->
  toJSON_rows sha256_hex rows ctx acc w
  = (Returned (acc ++ List.filter non_empty (List.map drop_omitted jss)), w').
Proof.
  revert acc w jss. induction rows as [|r rest IH]; intros acc w jss; simpl.
  - run_monad. intros [= <- <-]. rewrite app_nil_r. reflexivity.
  - unfold bind. destruct (serialize_cells_returns (cells r) ctx w) as (js & w1 & Hc & _).
    rewrite Hc. rewrite (toJSON_row_spec _ _ [] _ _ _ Hc).
    destruct (serialize_rows_returns rest ctx w1) as (jss1 & w2 & Hs).
    rewrite Hs. run_monad. intros [= <- <-].
    rewrite (IH _ _ _ Hs). simpl. unfold non_empty at 2.
    destruct (0 <? length (drop_omitted js)); [|reflexivity].
    rewrite <- app_assoc. reflexivity.
Qed.

Lemma toJSON_as_specified bm ctx w :
  ButtonManager_toJSON sha256_hex bm ctx w = wire_grid_as_specified sha256_hex bm ctx w.
Proof.
  unfold ButtonManager_toJSON, wire_grid_as_specified, bind.
  destruct (serialize_rows_returns (bm_buttons bm) ctx w) as (jss & w' & Hs).
  rewrite Hs. rewrite (toJSON_rows_spec _ _ [] _ _ _ Hs). reflexivity.
Qed.

Lemma toJSON_rows_nonempty bm ctx w :
  exists out w',
    ButtonManager_toJSON sha256_hex bm ctx w = (Returned out, w')
    /\ Forall (fun line => line <> []) out.
Proof.
  rewrite toJSON_as_specified. unfold wire_grid_as_specified, bind.
  destruct (serialize_rows_returns (bm_buttons bm) ctx w) as (jss & w' & ->).
  run_monad. eexists _, _. split; [reflexivity|].
  apply List.Forall_forall. intros line Hin. apply List.filter_In in Hin as [_ Hne].
  intros ->. discriminate.
Qed.

Lemma toJSON_row_hidden (cs : list (@Button U V)) ctx acc w :
  Forall (fun b => isHidden b = true) cs ->
  toJSON_row sha256_hex cs ctx acc w = (Returned acc, w).
Proof.
  induction 1 as [|b rest Hb _ IH]; simpl; [reflexivity|].
  unfold bind. rewrite (toJSON_omitted b ctx w (or_introl Hb)). exact IH.
Qed.

Lemma toJSON_rows_hidden_row pre r post ctx acc w :
  Forall (fun b => isHidden b = true) (cells r) ->
  toJSON_rows sha256_hex (pre ++ r :: post) ctx acc w
  = toJSON_rows sha256_hex (pre ++ post) ctx acc w.
Proof.
  intros Hh. revert acc w. induction pre as [|p pre IH]; intros acc w; simpl.
  - unfold bind. rewrite (toJSON_row_hidden _ _ [] _ Hh). reflexivity.
  - unfold bind. destruct (toJSON_row sha256_hex (cells p) ctx [] w) as [[rd|e] w1];
      [apply IH|reflexivity].
Qed.

(** C4. Grid row structure. [newRow] changes nothing when the last row is
    empty; whatever sequence of [addButton] and [newRow] calls is run, on any
    manager without two adjacent empty rows (a new manager is one), no two
    adjacent rows of the result are empty, and on a new manager every call
    succeeds. Serialization always returns; its result is the rows mapped
    through the element serialization, with omitted elements and then empty
    rows dropped, in the original order; no row of it is empty; and a row all
    of whose elements are hidden contributes nothing. *)
Theorem C4_grid_rows :
  (forall bm r, last (bm_buttons bm) = Some r -> cells r = [] ->
                newRow bm = (Returned tt, bm))
  /\ no_adjacent_empty (bm_buttons (@ButtonManager_new U V))
  /\ (forall ops bm, no_adjacent_empty (bm_buttons bm) ->
                     no_adjacent_empty (bm_buttons (snd (run_ops ops bm))))
  /\ (forall ops, exists bm',
        run_ops ops (@ButtonManager_new U V) = (Returned tt, bm')
        /\ no_adjacent_empty (bm_buttons bm'))
  /\ (forall bm ctx w,
        ButtonManager_toJSON sha256_hex bm ctx w
        = wire_grid_as_specified sha256_hex bm ctx w)
  /\ (forall bm ctx w, exists out w',
        ButtonManager_toJSON sha256_hex bm ctx w = (Returned out, w')
        /\ Forall (fun line => line <> []) out)
  /\ (forall bm pre r post ctx w,
        bm_buttons bm = pre ++ r :: post ->
        Forall (fun b => isHidden b = true) (cells r) ->
        ButtonManager_toJSON sha256_hex bm ctx w
        = ButtonManager_toJSON sha256_hex (set_rows bm (pre ++ post)) ctx w).
Proof.
  split; [exact newRow_noop|].
  split; [simpl; tauto|].
  split; [exact run_ops_preserves|].
  split.
  { intros ops. destruct (run_ops_extensible ops _ extensible_new) as (bm' & Hrun & _).
    exists bm'. split; [exact Hrun|].
    change bm' with (snd (Returned tt, bm')). rewrite <- Hrun.
    apply run_ops_preserves. simpl. tauto. }
  split; [exact toJSON_as_specified|].
  split; [exact toJSON_rows_nonempty|].
  intros bm pre r post ctx w Hrows Hh. unfold ButtonManager_toJSON. rewrite Hrows.
  simpl. apply toJSON_rows_hidden_row, Hh.
Qed.

(** ** Menu: the merge of static and generated rows *)

Section Grids.

Context {A : Type}.
Implicit Types (acc g d : list (list A)) (c l : list A).

Lemma continue_with_cons l acc g :
  acc <> [] -> continue_with (l :: acc) g = l :: continue_with acc g.
Proof. intros H. destruct acc; [congruence|reflexivity]. Qed.

Lemma continue_with_snoc d c (g1 : list A) g :
  continue_with (d ++ [c]) (g1 :: g) = d ++ (c ++ g1) :: g.
Proof.
  induction d as [|l d IH]; [reflexivity|].
  change ((l :: d) ++ [c]) with (l :: (d ++ [c])).
  rewrite continue_with_cons, IH; [reflexivity|].
  intros Habs. apply app_eq_nil in Habs as [_ Habs]. discriminate.
Qed.

Lemma squash_cons l g :
  g <> [] -> squash (l :: g) = if non_empty l then l :: squash g else squash g.
Proof. intros H. destruct g; [congruence|reflexivity]. Qed.

Lemma squash_snoc d c : squash (d ++ [c]) = List.filter non_empty d ++ [c].
Proof.
  induction d as [|l d IH]; [reflexivity|].
  change ((l :: d) ++ [c]) with (l :: (d ++ [c])).
  rewrite squash_cons, IH.
  - simpl. destruct (non_empty l); reflexivity.
  - intros Habs. apply app_eq_nil in Habs as [_ Habs]. discriminate.
Qed.

Lemma snoc_form acc : acc <> [] -> exists d c, acc = d ++ [c].
Proof.
  intros H. destruct acc as [|x acc'] using rev_ind; [congruence|]. eauto.
Qed.

Lemma continue_with_nonempty acc g : acc <> [] -> continue_with acc g <> [].
Proof.
  intros H. destruct (snoc_form acc H) as (d & c & ->).
  destruct g as [|g1 g].
  - clear H. destruct d as [|l d]; [discriminate|].
    change ((l :: d) ++ [c]) with (l :: (d ++ [c])).
    rewrite continue_with_cons; [discriminate|].
    intros Habs. apply app_eq_nil in Habs as [_ Habs]. discriminate.
  - rewrite continue_with_snoc. intros Habs. apply app_eq_nil in Habs as [_ Habs].
    discriminate.
Qed.

Lemma continue_with_unit acc : acc <> [] -> continue_with acc [[]] = acc.
Proof.
  intros H. destruct (snoc_form acc H) as (d & c & ->).
  rewrite continue_with_snoc, app_nil_r. reflexivity.
Qed.

Lemma continue_with_break acc g : g <> [] -> continue_with (acc ++ [[]]) g = acc ++ g.
Proof.
  intros H. destruct g as [|g1 g]; [congruence|].
  rewrite continue_with_snoc. reflexivity.
Qed.

Lemma continue_with_first acc (g1 : list A) g :
  acc <> [] -> continue_with acc (g1 :: g) = continue_with acc [g1] ++ g.
Proof.
  intros H. destruct (snoc_form acc H) as (d & c & ->).
  rewrite !continue_with_snoc, <- app_assoc. reflexivity.
Qed.

Lemma continue_with_push acc (x : A) l :
  acc <> [] -> continue_with (continue_with acc [[x]]) [l] = continue_with acc [x :: l].
Proof.
  intros H. destruct (snoc_form acc H) as (d & c & ->).
  rewrite !continue_with_snoc, <- app_assoc. reflexivity.
Qed.

Lemma continue_with_app_l d acc g :
  acc <> [] -> continue_with (d ++ acc) g = d ++ continue_with acc g.
Proof.
  intros H. induction d as [|l d IH]; [reflexivity|].
  change ((l :: d) ++ acc) with (l :: (d ++ acc)).
  rewrite continue_with_cons, IH; [reflexivity|].
  intros Habs. apply app_eq_nil in Habs as [_ Habs]. congruence.
Qed.

End Grids.

Implicit Types (N D : list (list (@Button U V))) (gc : gmap string (list (@Row U V))).

Lemma tracks_new : tracks (@ButtonManager_new U V) [[]].
Proof. split; [apply extensible_new|]. split; [discriminate|reflexivity]. Qed.

Lemma addButton_tracks button bm N :
  tracks bm N ->
  exists bm', addButton button bm = (Returned tt, bm')
              /\ tracks bm' (continue_with N [[button]]).
Proof.
  intros (Hext & Hne & Hcells).
  destruct (snoc_form N Hne) as (d & c & ->).
  destruct (addButton_extensible button bm Hext) as (init & r & Hrows & Hrun & Hext').
  eexists. split; [exact Hrun|].
  rewrite Hrows, squash_snoc, map_app in Hcells. simpl in Hcells.
  apply app_inj_tail in Hcells as [Hinit Hc].
  split; [exact Hext'|]. split; [apply continue_with_nonempty, Hne|].
  rewrite continue_with_snoc, squash_snoc. simpl. rewrite map_app. simpl.
  rewrite Hinit, Hc. reflexivity.
Qed.

Lemma newRow_tracks bm N :
  tracks bm N ->
  exists bm', newRow bm = (Returned tt, bm') /\ tracks bm' (N ++ [[]]).
Proof.
  intros (Hext & Hne & Hcells).
  destruct (snoc_form N Hne) as (d & c & ->).
  destruct (newRow_extensible bm Hext) as (bm' & Hrun & Hext' & Hbm').
  exists bm'. split; [exact Hrun|]. split; [exact Hext'|].
  split; [intros Habs; apply app_eq_nil in Habs as [_ Habs]; discriminate|].
  destruct Hext as (_ & Hrows & _).
  destruct (bm_buttons bm) as [|r init _] eqn:E using rev_ind; [congruence|].
  rewrite squash_snoc, map_app in Hcells. simpl in Hcells.
  apply app_inj_tail in Hcells as [Hinit Hc].
  rewrite last_snoc in Hbm'. rewrite squash_snoc, List.filter_app. simpl.
  unfold non_empty at 2. rewrite <- Hc. subst bm'.
  destruct (0 <? length (cells r)) eqn:Hlen; simpl.
  - rewrite !map_app. simpl. rewrite Hinit. reflexivity.
  - rewrite E, map_app. simpl. rewrite Hinit.
    destruct (cells r); [rewrite app_nil_r; reflexivity|discriminate].
Qed.

Lemma add_all_tracks (bs : list (@Button U V)) bm N :
  tracks bm N ->
  exists bm', add_all bs bm = (Returned tt, bm') /\ tracks bm' (continue_with N [bs]).
Proof.
  revert bm N. induction bs as [|button rest IH]; intros bm N H.
  - exists bm. split; [reflexivity|]. rewrite continue_with_unit; [exact H|apply H].
  - simpl. unfold bind.
    destruct (addButton_tracks button bm N H) as (bm1 & -> & H1).
    destruct (IH bm1 _ H1) as (bm2 & -> & H2).
    exists bm2. split; [reflexivity|].
    rewrite continue_with_push in H2; [exact H2|apply H].
Qed.

Lemma merge_dynamicButtons_tracks rows bm N :
  rows <> [] -> tracks bm N ->
  exists bm', merge_dynamicButtons rows bm = (Returned tt, bm')
              /\ tracks bm' (continue_with N (List.map cells rows)).
Proof.
  revert bm N. induction rows as [|r rest IH]; intros bm N Hne H; [congruence|].
  simpl. unfold bind.
  destruct (add_all_tracks (cells r) bm N H) as (bm1 & -> & H1).
  destruct rest as [|r2 rest'].
  - run_monad. exists bm1. split; [reflexivity|exact H1].
  - destruct (newRow_tracks bm1 _ H1) as (bm2 & -> & H2).
    destruct (IH bm2 _ ltac:(discriminate) H2) as (bm3 & -> & H3).
    exists bm3. split; [reflexivity|].
    rewrite continue_with_break in H3 by discriminate.
    rewrite (continue_with_first N (cells r)); [exact H3|apply H].
Qed.

Lemma merge_cell_tracks gc button bm N :
  tracks bm N ->
  exists bm', merge_cell gc button bm = (Returned tt, bm')
              /\ tracks bm' (continue_with N (expand_cell gc button)).
Proof.
  intros H. unfold merge_cell, expand_cell.
  destruct (is_marker button); [|apply addButton_tracks, H].
  destruct (gc !! dynamicId_of (default "" (rawLabel button))) as [[|r rest]|].
  - exists bm. split; [reflexivity|]. rewrite continue_with_unit; [exact H|apply H].
  - apply (merge_dynamicButtons_tracks (r :: rest)); [discriminate|exact H].
  - exists bm. split; [reflexivity|]. rewrite continue_with_unit; [exact H|apply H].
Qed.

Lemma merge_row_tracks gc (cs : list (@Button U V)) bm N :
  tracks bm N ->
  exists bm', merge_row gc cs bm = (Returned tt, bm')
              /\ tracks bm'
                   (fold_left (fun acc b => continue_with acc (expand_cell gc b)) cs N).
Proof.
  revert bm N. induction cs as [|button rest IH]; intros bm N H.
  - exists bm. split; [reflexivity|exact H].
  - simpl. unfold bind.
    destruct (merge_cell_tracks gc button bm N H) as (bm1 & -> & H1).
    apply IH, H1.
Qed.

Lemma expand_from_prefix gc (cs : list (@Button U V)) D N :
  N <> [] ->
  fold_left (fun acc b => continue_with acc (expand_cell gc b)) cs (D ++ N)
  = D ++ fold_left (fun acc b => continue_with acc (expand_cell gc b)) cs N.
Proof.
  revert N. induction cs as [|button rest IH]; intros N H; [reflexivity|].
  simpl. rewrite continue_with_app_l by exact H.
  apply IH, continue_with_nonempty, H.
Qed.

Lemma merge_rows_tracks gc rows bm D :
  rows <> [] -> tracks bm (D ++ [[]]) ->
  exists bm', merge_rows gc rows bm = (Returned tt, bm')
              /\ tracks bm' (D ++ splice_as_specified gc rows).
Proof.
  revert bm D. induction rows as [|r rest IH]; intros bm D Hne H; [congruence|].
  simpl. unfold bind.
  destruct (merge_row_tracks gc (cells r) bm _ H) as (bm1 & -> & H1).
  rewrite expand_from_prefix in H1 by discriminate.
  fold (expand_row gc (cells r)) in H1.
  unfold splice_as_specified. simpl.
  destruct rest as [|r2 rest'].
  - run_monad. exists bm1. split; [reflexivity|]. simpl. rewrite app_nil_r. exact H1.
  - destruct (newRow_tracks bm1 _ H1) as (bm2 & -> & H2).
    destruct (IH bm2 _ ltac:(discriminate) H2) as (bm3 & -> & H3).
    exists bm3. split; [reflexivity|].
    rewrite <- app_assoc in H3. exact H3.
Qed.

(** The merge never fails on a new manager, whether the static rows are
    frozen or not, and builds the specified grid without its empty rows. *)
Lemma merge_rows_new gc rows :
  rows <> [] ->
  exists merged,
    merge_rows gc rows (@ButtonManager_new U V) = (Returned tt, merged)
    /\ extensible merged
    /\ List.map cells (bm_buttons merged) = squash (splice_as_specified gc rows).
Proof.
  intros Hne.
  destruct (merge_rows_tracks gc rows _ [] Hne tracks_new) as (bm' & Hrun & He & _ & Hc).
  exists bm'. auto.
Qed.

(** ** Menu: evaluation *)

Implicit Types (s : @State U V) (m : @Menu U V).

Lemma Menu_evaluate_generator_throws this s m e w1 :
  st_heap s !! this = Some m ->
  run_generators sha256_hex (_dynamicGenerators m) (_context (st_mm s))
                 (_payload (st_mm s)) ∅ (st_world s) = (Thrown e, w1) ->
  Menu_evaluate sha256_hex this s = (Thrown e, rendered s this m ButtonManager_new w1).
Proof.
  intros Hm Hg. unfold Menu_evaluate, read_menu, write_menu, getContext, getPayload,
    lift_w, bind, modify, gets. rewrite Hm. simpl. rewrite Hg. reflexivity.
Qed.

Lemma Menu_evaluate_run this s m gc w1 :
  st_heap s !! this = Some m ->
  bm_buttons (buttons m) <> [] ->
  run_generators sha256_hex (_dynamicGenerators m) (_context (st_mm s))
                 (_payload (st_mm s)) ∅ (st_world s) = (Returned gc, w1) ->
  exists merged,
    merge_rows gc (bm_buttons (buttons m)) ButtonManager_new = (Returned tt, merged)
    /\ extensible merged
    /\ List.map cells (bm_buttons merged)
       = squash (splice_as_specified gc (bm_buttons (buttons m)))
    /\ Menu_evaluate sha256_hex this s
       = let '(r, rows', w2) :=
           evaluateAll_rows (bm_buttons merged) (_context (st_mm s)) w1 in
         (r, rendered s this m (set_rows merged rows') w2).
Proof.
  intros Hm Hne Hg.
  destruct (merge_rows_new gc _ Hne) as (merged & Hmerge & Hext & Hcells).
  exists merged. split; [exact Hmerge|]. split; [exact Hext|]. split; [exact Hcells|].
  pose proof (lookup_lt_Some _ _ _ Hm) as Hlt.
  unfold Menu_evaluate, read_menu, write_menu, getContext, getPayload,
    lift_w, bind, modify, gets. rewrite Hm. simpl. rewrite Hg. simpl.
  unfold on_temporary, lift_obj. simpl.
  rewrite list_lookup_insert_eq by exact Hlt. simpl. unfold getButtons.
  rewrite Hmerge. simpl.
  rewrite list_lookup_insert_eq by (rewrite length_insert; exact Hlt). simpl.
  unfold evaluateAll.
  destruct (evaluateAll_rows (bm_buttons merged) (_context (st_mm s)) w1)
    as [[r rows'] w2].
  unfold rendered. simpl. rewrite !list_insert_insert_eq. reflexivity.
Qed.

Lemma evaluateAll_cells_same (cs : list (@Button U V)) ctx w res cs' w' :
  evaluateAll_cells cs ctx w = (res, cs', w') -> Forall2 same_element cs cs'.
Proof.
  revert w res cs' w'. induction cs as [|b rest IH]; intros w res cs' w'; simpl.
  - intros [= <- <- <-]. constructor.
  - destruct (Button_evaluateRequirement b ctx w) as [[[check b']|e] w1] eqn:He.
    + destruct (evaluateAll_cells rest ctx w1) as [[r1 rest'] w2] eqn:Hr.
      intros [= <- <- <-]. constructor; [|eapply IH; exact Hr].
      eapply evaluateRequirement_result; exact He.
    + intros [= <- <- <-]. apply Forall2_same_length_lookup_2; [reflexivity|].
      intros i x y Hx Hy. assert (x = y) as -> by congruence.
      exists (isDisable y), (isHidden y). destruct y; reflexivity.
Qed.

Lemma same_element_refl b : same_element b b.
Proof. exists (isDisable b), (isHidden b). destruct b; reflexivity. Qed.

Lemma evaluateAll_rows_same rows ctx w res rows' w' :
  evaluateAll_rows rows ctx w = (res, rows', w') ->
  Forall2 (fun x y => Forall2 same_element (cells x) (cells y)
                      /\ row_frozen y = row_frozen x) rows rows'.
Proof.
  revert w res rows' w'. induction rows as [|x rest IH]; intros w res rows' w'; simpl.
  - intros [= <- <- <-]. constructor.
  - destruct (evaluateAll_cells (cells x) ctx w) as [[[[]|e] cs'] w1] eqn:Hc.
    + destruct (evaluateAll_rows rest ctx w1) as [[r1 rest'] w2] eqn:Hr.
      intros [= <- <- <-]. constructor; [|eapply IH; exact Hr].
      split; [|reflexivity]. simpl. eapply evaluateAll_cells_same; exact Hc.
    + intros [= <- <- <-]. constructor.
      * split; [|reflexivity]. simpl. eapply evaluateAll_cells_same; exact Hc.
      * clear. induction rest as [|y rest IH]; constructor; [|exact IH].
        split; [|reflexivity].
        induction (cells y); constructor; [apply same_element_refl|assumption].
Qed.

(** ** Menu: one dynamic block between two static elements *)

Lemma Button_new_returns lbl (o : @ButtonOptions U V) ty w :
  opt_type o = Some ty ->
  exists b w', Button_new sha256_hex lbl o w = (Returned b, w') /\ type b = ty.
Proof.
  intros Hty. unfold Button_new. rewrite Hty. destruct (is_action ty).
  - unfold generateCallbackData. run_monad. eauto.
  - run_monad. eauto.
Qed.

Lemma call_button_returns (c : @RangeCall U V) lbl o w :
  button_of_call c = Some (lbl, o) ->
  exists b w', Button_new sha256_hex lbl o w = (Returned b, w') /\ is_marker b = false.
Proof.
  intros Hc.
  assert (exists ty, opt_type o = Some ty /\ is_placeholder ty = false) as (ty & Hty & Hp).
  { destruct c; simpl in Hc; try discriminate; injection Hc as <- <-; simpl; eauto. }
  destruct (Button_new_returns lbl o ty w Hty) as (b & w' & Hnew & Hb).
  exists b, w'. split; [exact Hnew|]. unfold is_marker. rewrite Hb, Hp. reflexivity.
Qed.

Lemma run_call_button (c : @RangeCall U V) lbl o bm w b w' :
  button_of_call c = Some (lbl, o) ->
  Button_new sha256_hex lbl o w = (Returned b, w') ->
  run_call sha256_hex c (bm, w)
  = let '(res, bm') := addButton b bm in (res, (bm', w')).
Proof.
  intros Hc Hnew.
  destruct c; simpl in Hc; try discriminate; injection Hc as <- <-; simpl;
    unfold MenuRange_text, MenuRange_url, MenuRange_webApp, bind, lift_world, lift_obj;
    rewrite Hnew; reflexivity.
Qed.

Lemma run_generators_one id (g : @Generator U V) ctx payload w calls u1 filled w1 :
  g ctx payload (world_user w) = ({| gen_calls := calls; gen_throws := None |}, u1) ->
  run_calls sha256_hex calls
    (ButtonManager_new, set_user (push_trace w (EvGenerator id)) u1)
  = (Returned tt, (filled, w1)) ->
  run_generators sha256_hex [{| dyn_id := id; dyn_generator := g |}] ctx payload ∅ w
  = (Returned (<[id := bm_buttons filled]> ∅), w1).
Proof.
  intros Hg Hrun. simpl. unfold bind, emit, modify, call_generator, call_user, with_obj.
  simpl. rewrite Hg. simpl. rewrite Hrun. reflexivity.
Qed.

Lemma marker_zero (P : @Button U V) :
  type P = TPlaceholder -> label P = LabelText "__placeholder_dynamic_0__" ->
  is_marker P = true /\ dynamicId_of (default "" (rawLabel P)) = "dynamic_0".
Proof.
  intros Hty Hl. unfold is_marker, rawLabel. rewrite Hty, Hl. split; reflexivity.
Qed.

Lemma merge_one_row (A P B X Y : @Button U V) row0 :
  cells row0 = [A; P; B] ->
  is_marker A = false -> is_marker B = false ->
  type P = TPlaceholder -> label P = LabelText "__placeholder_dynamic_0__" ->
  merge_rows (<["dynamic_0" := [one_row [X; Y]]]> ∅) [row0] ButtonManager_new
  = (Returned tt, grid_of [[A; X; Y; B]]).
Proof.
  intros Hrow HA HB Hty Hl. destruct (marker_zero P Hty Hl) as [HP Hid].
  simpl. rewrite Hrow. simpl. unfold merge_cell, bind.
  rewrite HA, HP, HB, Hid, lookup_insert_eq. reflexivity.
Qed.

Lemma merge_two_rows (A P B X Y : @Button U V) row0 :
  cells row0 = [A; P; B] ->
  is_marker A = false -> is_marker B = false ->
  type P = TPlaceholder -> label P = LabelText "__placeholder_dynamic_0__" ->
  merge_rows (<["dynamic_0" := [one_row [X]; one_row [Y]]]> ∅) [row0] ButtonManager_new
  = (Returned tt, grid_of [[A; X]; [Y; B]]).
Proof.
  intros Hrow HA HB Hty Hl. destruct (marker_zero P Hty Hl) as [HP Hid].
  simpl. rewrite Hrow. simpl. unfold merge_cell, bind.
  rewrite HA, HP, HB, Hid, lookup_insert_eq. reflexivity.
Qed.

Lemma Menu_toJSON_rendered this s m t w (arg : option Ctx) :
  st_heap s !! this = Some m ->
  Menu_toJSON sha256_hex this arg (rendered s this m t w)
  = let '(res, w') :=
      ButtonManager_toJSON sha256_hex t (default (_context (st_mm s)) arg) w in
    (res, rendered s this m t w').
Proof.
  intros Hm. pose proof (lookup_lt_Some _ _ _ Hm) as Hlt.
  unfold Menu_toJSON, getContext, read_menu, lift_w, bind, gets. simpl.
  rewrite list_lookup_insert_eq by exact Hlt. simpl.
  change (current_grid (set_temporary m (Some t))) with t.
  destruct (ButtonManager_toJSON sha256_hex t (default (_context (st_mm s)) arg) w)
    as [res w'].
  reflexivity.
Qed.

Lemma evaluate_sandwich this s m (A P B : @Button U V) g (sep : bool) cX cY lX oX lY oY u1 :
  st_heap s !! this = Some m ->
  sandwich m A P B g ->
  button_of_call cX = Some (lX, oX) ->
  button_of_call cY = Some (lY, oY) ->
  g (_context (st_mm s)) (_payload (st_mm s)) (world_user (st_world s))
  = ({| gen_calls := if sep then [cX; CallRow; cY] else [cX; cY];
        gen_throws := None |}, u1) ->
  exists X Y wX wY,
    Button_new sha256_hex lX oX (after_generator (st_world s) "dynamic_0" u1)
    = (Returned X, wX)
    /\ Button_new sha256_hex lY oY wX = (Returned Y, wY)
    /\ is_marker X = false /\ is_marker Y = false
    /\ Menu_evaluate sha256_hex this s
       = let layout := if sep then [[A; X]; [Y; B]] else [[A; X; Y; B]] in
         let '(res, rows', w2) :=
           evaluateAll_rows (List.map one_row layout) (_context (st_mm s)) wY in
         (res, rendered s this m (set_rows (grid_of layout) rows') w2).
Proof.
  intros Hm ((row0 & Hrows & Hrow0) & HA & HB & Hty & Hl & Hgens) HcX HcY Hg.
  destruct (call_button_returns cX lX oX (after_generator (st_world s) "dynamic_0" u1) HcX)
    as (X & wX & HX & HmX).
  destruct (call_button_returns cY lY oY wX HcY) as (Y & wY & HY & HmY).
  exists X, Y, wX, wY. do 4 (split; [assumption|]).
  assert (Hgen : run_generators sha256_hex (_dynamicGenerators m) (_context (st_mm s))
                   (_payload (st_mm s)) ∅ (st_world s)
                 = (Returned (<["dynamic_0" :=
                       List.map one_row (if sep then [[X]; [Y]] else [[X; Y]])]> ∅), wY)).
  { rewrite Hgens.
    change (List.map one_row (if sep then [[X]; [Y]] else [[X; Y]]))
      with (bm_buttons (grid_of (if sep then [[X]; [Y]] else [[X; Y]]))).
    eapply run_generators_one; [exact Hg|].
    unfold after_generator in HX.
    destruct sep; simpl; unfold bind.
    - rewrite (run_call_button cX lX oX _ _ X wX HcX HX). simpl.
      unfold MenuRange_row, lift_obj. simpl.
      rewrite (run_call_button cY lY oY _ _ Y wY HcY HY). reflexivity.
    - rewrite (run_call_button cX lX oX _ _ X wX HcX HX). simpl.
      rewrite (run_call_button cY lY oY _ _ Y wY HcY HY). reflexivity. }
  destruct (Menu_evaluate_run this s m _ _ Hm ltac:(rewrite Hrows; discriminate) Hgen)
    as (merged & Hmerge & _ & _ & Heval).
  rewrite Heval. rewrite Hrows in Hmerge. destruct sep.
  - change (merge_rows (<["dynamic_0" := [one_row [X]; one_row [Y]]]> ∅) [row0]
              ButtonManager_new = (Returned tt, merged)) in Hmerge.
    rewrite (merge_two_rows A P B X Y row0 Hrow0 HA HB Hty Hl) in Hmerge.
    injection Hmerge as <-. reflexivity.
  - change (merge_rows (<["dynamic_0" := [one_row [X; Y]]]> ∅) [row0]
              ButtonManager_new = (Returned tt, merged)) in Hmerge.
    rewrite (merge_one_row A P B X Y row0 Hrow0 HA HB Hty Hl) in Hmerge.
    injection Hmerge as <-. reflexivity.
Qed.

(** ** Menu: the label of a placeholder names its block *)

Lemma prefix_append (p x : string) : String.prefix p (p +:+ x) = true.
Proof.
  induction p as [|a p IH]; simpl; [destruct x; reflexivity|].
  destruct (Ascii.ascii_dec a a); [exact IH|congruence].
Qed.

Lemma drop_string_append (p x : string) : drop_string (String.length p) (p +:+ x) = x.
Proof. induction p as [|a p IH]; simpl; [reflexivity|exact IH]. Qed.

Lemma js_replace_prefix (p x : string) : js_replace p "" (p +:+ x) = x.
Proof.
  assert (H : forall t : string, String.prefix p t = true ->
                        js_replace p "" t = drop_string (String.length p) t).
  { intros t Ht. destruct t as [|c t'].
    - destruct p; [reflexivity|discriminate].
    - cbn [js_replace]. rewrite Ht. reflexivity. }
  rewrite H by apply prefix_append. apply drop_string_append.
Qed.

Lemma prefix_cons_ne (a c : ascii) (p t : string) :
  a <> c -> String.prefix (String a p) (String c t) = false.
Proof. intros H. simpl. destruct (Ascii.ascii_dec a c); [congruence|reflexivity]. Qed.

Lemma prefix_cons_eq (a : ascii) (p t : string) :
  String.prefix (String a p) (String a t) = String.prefix p t.
Proof. simpl. destruct (Ascii.ascii_dec a a); [reflexivity|congruence]. Qed.

Lemma js_replace_skip (p rep : string) (a : ascii) (t : string) :
  String.prefix p (String a t) = false ->
  js_replace p rep (String a t) = String a (js_replace p rep t).
Proof. intros H. cbn [js_replace]. rewrite H. reflexivity. Qed.

Lemma js_replace_suffix (t : string) :
  no_underscore t -> js_replace "__" "" (t +:+ "__") = t.
Proof.
  induction t as [|c t IH]; [reflexivity|].
  intros [Hc Ht]. change (String c t +:+ "__") with (String c (t +:+ "__")).
  rewrite js_replace_skip by (apply prefix_cons_ne; congruence).
  rewrite (IH Ht). reflexivity.
Qed.

Lemma digits_no_underscore d : no_underscore (NilEmpty.string_of_uint d).
Proof. induction d; simpl; try split; try discriminate; assumption. Qed.

Lemma number_no_underscore d : no_underscore (NilZero.string_of_uint d).
Proof.
  destruct d; try apply (digits_no_underscore (_ _)).
  simpl. split; [discriminate|exact I].
Qed.

Lemma number_nonempty d : exists c rest, NilZero.string_of_uint d = String c rest.
Proof. destruct d; simpl; eauto. Qed.

Lemma dynamicId_of_placeholder_label n :
  dynamicId_of (placeholder_label (dynamic_id n)) = dynamic_id n.
Proof.
  unfold dynamicId_of, placeholder_label. rewrite js_replace_prefix.
  unfold dynamic_id, string_of_nat.
  pose proof (number_no_underscore (Nat.to_uint n)) as Hno.
  destruct (number_nonempty (Nat.to_uint n)) as (c & rest & Hn).
  rewrite Hn in *. destruct Hno as [Hc Hrest].
  change (("dynamic_" +:+ String c rest) +:+ "__")
    with (String "d" (String "y" (String "n" (String "a" (String "m" (String "i"
           (String "c" (String "_" (String c (rest +:+ "__")))))))))).
  do 7 (rewrite js_replace_skip by (apply prefix_cons_ne; discriminate)).
  rewrite js_replace_skip
    by (rewrite prefix_cons_eq; apply prefix_cons_ne; congruence).
  change (String c (rest +:+ "__")) with (String c rest +:+ "__").
  rewrite js_replace_suffix by (split; assumption). reflexivity.
Qed.

Lemma toJSON_rows_cells rows1 rows2 ctx acc w :
  List.map cells rows1 = List.map cells rows2 ->
  toJSON_rows sha256_hex rows1 ctx acc w = toJSON_rows sha256_hex rows2 ctx acc w.
Proof.
  revert rows2 acc w. induction rows1 as [|x rest IH]; intros rows2 acc w H.
  - destruct rows2; [reflexivity|discriminate].
  - destruct rows2 as [|y rest2]; [discriminate|].
    simpl in H. injection H as Hc Hrest. simpl. rewrite Hc. unfold bind.
    destruct (toJSON_row sha256_hex (cells y) ctx [] w) as [[rd|e] w1]; [|reflexivity].
    apply IH, Hrest.
Qed.

Lemma toJSON_rows_squash (g : list (list (@Button U V))) ctx acc w :
  toJSON_rows sha256_hex (List.map one_row (squash g)) ctx acc w
  = toJSON_rows sha256_hex (List.map one_row g) ctx acc w.
Proof.
  revert acc w. induction g as [|l rest IH]; intros acc w; [reflexivity|].
  destruct rest as [|l2 rest']; [reflexivity|].
  destruct l as [|b l'].
  - change (squash ([] :: l2 :: rest')) with (squash (l2 :: rest')).
    rewrite IH. reflexivity.
  - change (squash ((b :: l') :: l2 :: rest'))
      with ((b :: l') :: squash (l2 :: rest')).
    change (List.map one_row ((b :: l') :: squash (l2 :: rest')))
      with (one_row (b :: l') :: List.map one_row (squash (l2 :: rest'))).
    change (List.map one_row ((b :: l') :: l2 :: rest'))
      with (one_row (b :: l') :: List.map one_row (l2 :: rest')).
    cbn [toJSON_rows]. unfold bind.
    destruct (toJSON_row sha256_hex (cells (one_row (b :: l'))) ctx [] w)
      as [[rd|e] w1]; [|reflexivity].
    apply IH.
Qed.

Lemma toJSON_squash bm (g : list (list (@Button U V))) ctx w :
  List.map cells (bm_buttons bm) = squash g ->
  ButtonManager_toJSON sha256_hex bm ctx w
  = ButtonManager_toJSON sha256_hex (grid_of g) ctx w.
Proof.
  intros H. unfold ButtonManager_toJSON. simpl. rewrite <- toJSON_rows_squash.
  apply toJSON_rows_cells. rewrite H, List.map_map. simpl.
  rewrite List.map_id. reflexivity.
Qed.

(** ** Menu: every placeholder stands for its own block *)

Lemma string_of_nat_read n :
  option_map Nat.of_uint (NilEmpty.uint_of_string (string_of_nat n)) = Some n.
Proof.
  unfold string_of_nat, NilZero.string_of_uint.
  pose proof (DecimalNat.Unsigned.of_to n) as Hn.
  destruct (Nat.to_uint n) eqn:E;
    try (rewrite NilEmpty.usu; simpl option_map; f_equal; exact Hn).
  simpl. f_equal. exact Hn.
Qed.

Lemma dynamic_id_inj n1 n2 : dynamic_id n1 = dynamic_id n2 -> n1 = n2.
Proof.
  unfold dynamic_id. intros H.
  change ("dynamic_" +:+ string_of_nat n1)
    with (String "d" (String "y" (String "n" (String "a" (String "m" (String "i"
            (String "c" (String "_" (string_of_nat n1))))))))) in H.
  change ("dynamic_" +:+ string_of_nat n2)
    with (String "d" (String "y" (String "n" (String "a" (String "m" (String "i"
            (String "c" (String "_" (string_of_nat n2))))))))) in H.
  injection H as H.
  pose proof (string_of_nat_read n1) as H1. rewrite H, string_of_nat_read in H1.
  congruence.
Qed.

Lemma well_built_NoDup m :
  well_built m -> NoDup (List.map dyn_id (_dynamicGenerators m)).
Proof.
  intros [Hids _]. apply NoDup_alt. intros i j x Hi Hj.
  rewrite list_lookup_fmap in Hi, Hj.
  destruct (_dynamicGenerators m !! i) as [a|] eqn:Ei; [|discriminate].
  destruct (_dynamicGenerators m !! j) as [b|] eqn:Ej; [|discriminate].
  simpl in Hi, Hj. rewrite (Hids _ _ Ei) in Hi. rewrite (Hids _ _ Ej) in Hj.
  apply dynamic_id_inj. congruence.
Qed.

Lemma run_call_extensible (c : @RangeCall U V) bm w :
  extensible bm ->
  exists bm' w', run_call sha256_hex c (bm, w) = (Returned tt, (bm', w')) /\ extensible bm'.
Proof.
  intros Hext. destruct (button_of_call c) as [[lbl o]|] eqn:Hc.
  - destruct (call_button_returns c lbl o w Hc) as (b & w' & Hnew & _).
    rewrite (run_call_button c lbl o bm w b w' Hc Hnew).
    destruct (addButton_extensible b bm Hext) as (init & r & _ & -> & Hext'). eauto.
  - destruct c; try discriminate. simpl. unfold MenuRange_row, lift_obj.
    destruct (newRow_extensible bm Hext) as (bm' & -> & Hext' & _). eauto.
Qed.

Lemma run_calls_extensible (cs : list (@RangeCall U V)) bm w :
  extensible bm ->
  exists bm' w', run_calls sha256_hex cs (bm, w) = (Returned tt, (bm', w')) /\ extensible bm'.
Proof.
  revert bm w. induction cs as [|c rest IH]; intros bm w Hext.
  - exists bm, w. split; [reflexivity|exact Hext].
  - simpl. unfold bind. destruct (run_call_extensible c bm w Hext) as (bm1 & w1 & -> & H1).
    apply IH, H1.
Qed.

Lemma run_generators_generate_all (gens : list (@DynamicItem U V)) ctx payload gc0 w gc w' :
  run_generators sha256_hex gens ctx payload gc0 w = (Returned gc, w') ->
  exists l,
    generate_all sha256_hex gens ctx payload w = (Returned l, w')
    /\ List.map fst l = List.map dyn_id gens
    /\ Forall (fun p => snd p <> []) l
    /\ (forall id, ~ In id (List.map fst l) -> gc !! id = gc0 !! id)
    /\ (NoDup (List.map fst l) -> forall id v, In (id, v) l -> gc !! id = Some v).
Proof.
  revert gc0 w. induction gens as [|item rest IH]; intros gc0 w; simpl.
  - run_monad. intros [= <- <-]. exists []. simpl. repeat split; auto.
    intros _ id v [].
  - intros Hrun. unfold bind, emit, modify in Hrun. simpl in Hrun.
    destruct (call_generator (dyn_generator item) ctx payload
                (push_trace w (EvGenerator (dyn_id item)))) as [[run|e] w1] eqn:Hcall;
      [|discriminate].
    unfold with_obj in Hrun.
    destruct (run_calls_extensible (gen_calls run) ButtonManager_new w1 extensible_new)
      as (filled & w2 & Hcalls & Hext).
    rewrite Hcalls in Hrun.
    destruct (gen_throws run) as [e|] eqn:Hthrow; [discriminate|].
    destruct (IH _ _ Hrun) as (l & Hl & Hkeys & Hne & Hout & Hin).
    exists ((dyn_id item, bm_buttons filled) :: l).
    split.
    { unfold bind, emit, modify. simpl. rewrite Hcall. unfold with_obj.
      rewrite Hcalls, Hthrow, Hl. reflexivity. }
    simpl.
    split; [f_equal; exact Hkeys|].
    split; [constructor; [apply Hext|exact Hne]|].
    split.
    + intros id Hnot. rewrite Hout by tauto.
      apply lookup_insert_ne. intros <-. tauto.
    + intros Hnd id v [[= <- <-]|Hv].
      * apply NoDup_cons in Hnd as [Hfresh _].
        rewrite Hout by (intros Habs; apply Hfresh, list_elem_of_In, Habs).
        apply lookup_insert_eq.
      * apply NoDup_cons in Hnd as [_ Hnd]. apply Hin; assumption.
Qed.

(** In a menu made by the builder methods every placeholder of the static
    grid is replaced by the rows of its own block. *)
Lemma placeholder_block m ctx payload w gc w1 :
  well_built m ->
  run_generators sha256_hex (_dynamicGenerators m) ctx payload ∅ w = (Returned gc, w1) ->
  exists l,
    generate_all sha256_hex (_dynamicGenerators m) ctx payload w = (Returned l, w1)
    /\ forall row b,
         In row (bm_buttons (buttons m)) -> In b (cells row) ->
         if is_placeholder (type b) then
           exists k item rows_k,
             _dynamicGenerators m !! k = Some item
             /\ label b = LabelText (placeholder_label (dynamic_id k))
             /\ l !! k = Some (dyn_id item, rows_k)
             /\ expand_cell gc b = List.map cells rows_k
         else expand_cell gc b = [[b]].
Proof.
  intros Hwb Hrun. pose proof (well_built_NoDup m Hwb) as Hnd.
  destruct Hwb as [Hids Hcells].
  destruct (run_generators_generate_all _ _ _ _ _ _ _ Hrun)
    as (l & Hl & Hkeys & Hne & _ & Hin).
  rewrite <- Hkeys in Hnd. exists l. split; [exact Hl|].
  intros row b Hrow Hb.
  destruct (is_placeholder (type b)) eqn:Hp.
  - rewrite Forall_forall in Hcells. setoid_rewrite list_elem_of_In in Hcells.
    specialize (Hcells row Hrow). rewrite Forall_forall in Hcells.
    setoid_rewrite list_elem_of_In in Hcells.
    destruct (Hcells b Hb) as (k & Hk & Hlabel);
      [destruct (type b); simpl in Hp; congruence|].
    destruct (lookup_lt_is_Some_2 _ _ Hk) as [item Hitem].
    assert (exists rows_k, l !! k = Some (dyn_id item, rows_k)) as (rows_k & Hlk).
    { assert (Hk' : (List.map fst l) !! k = Some (dyn_id item))
        by (rewrite Hkeys, list_lookup_fmap, Hitem; reflexivity).
      rewrite list_lookup_fmap in Hk'.
      destruct (l !! k) as [[id v]|]; [|discriminate].
      simpl in Hk'. injection Hk' as ->. eauto. }
    exists k, item, rows_k. do 3 (split; [assumption|]).
    assert (Hgc : gc !! dynamic_id k = Some rows_k).
    { apply Hin; [exact Hnd|]. rewrite <- (Hids _ _ Hitem).
      apply list_elem_of_In. eapply list_elem_of_lookup_2, Hlk. }
    assert (Hrows : rows_k <> []).
    { rewrite List.Forall_forall in Hne.
      apply (Hne (dyn_id item, rows_k)), list_elem_of_In.
      eapply list_elem_of_lookup_2, Hlk. }
    unfold expand_cell, is_marker, rawLabel. rewrite Hp, Hlabel. simpl default.
    rewrite dynamicId_of_placeholder_label, Hgc.
    replace (truthy_str (Some (placeholder_label (dynamic_id k)))) with true
      by reflexivity.
    unfold placeholder_label at 1. rewrite prefix_append. simpl.
    destruct rows_k; [congruence|reflexivity].
  - unfold expand_cell, is_marker. rewrite Hp. reflexivity.
Qed.

Lemma evaluateAll_single (cs : list (@Button U V)) ctx w cs' w' :
  evaluateAll_cells cs ctx w = (Returned tt, cs', w') ->
  evaluateAll_rows [one_row cs] ctx w = (Returned tt, [one_row cs'], w').
Proof. intros H. simpl. rewrite H. reflexivity. Qed.

Lemma evaluateAll_pair (cs1 cs2 : list (@Button U V)) ctx w cs1' w1 cs2' w2 :
  evaluateAll_cells cs1 ctx w = (Returned tt, cs1', w1) ->
  evaluateAll_cells cs2 ctx w1 = (Returned tt, cs2', w2) ->
  evaluateAll_rows [one_row cs1; one_row cs2] ctx w
  = (Returned tt, [one_row cs1'; one_row cs2'], w2).
Proof. intros H1 H2. simpl. rewrite H1, H2. reflexivity. Qed.

(** ** Registry: the transient fields *)

Lemma keeps_ret {A : Type} (a : A) : keeps_registry (ret a : M (@State U V) A).
Proof. intros s. reflexivity. Qed.

Lemma keeps_throw {A : Type} e : keeps_registry (throw e : M (@State U V) A).
Proof. intros s. reflexivity. Qed.

Lemma keeps_gets {A : Type} (f : @State U V -> A) : keeps_registry (gets f).
Proof. intros s. reflexivity. Qed.

Lemma keeps_bind {A B : Type} (c : M (@State U V) A) (k : A -> M (@State U V) B) :
  keeps_registry c -> (forall a, keeps_registry (k a)) -> keeps_registry (bind c k).
Proof.
  intros Hc Hk s. unfold bind. specialize (Hc s).
  destruct (c s) as [[a|e] s1]; simpl in *; [|exact Hc].
  rewrite (Hk a s1). exact Hc.
Qed.

Lemma keeps_lift_w {A : Type} (c : M (@World U) A) :
  keeps_registry (lift_w c : M (@State U V) A).
Proof. intros s. unfold lift_w. destruct (c (st_world s)). reflexivity. Qed.

Lemma keeps_read_menu a : keeps_registry (@read_menu U V a).
Proof. intros s. unfold read_menu. destruct (st_heap s !! a); reflexivity. Qed.

Lemma keeps_write_menu a m : keeps_registry (write_menu a m).
Proof. intros s. reflexivity. Qed.

Lemma keeps_on_temporary {A : Type} this (c : M (@ButtonManager U V * @World U) A) :
  keeps_registry (on_temporary this c).
Proof.
  intros s. unfold on_temporary. destruct (st_heap s !! this) as [m|]; [|reflexivity].
  destruct (_temporaryButtons m) as [t|]; [|reflexivity].
  destruct (c (t, st_world s)) as [res [t' w']]. reflexivity.
Qed.

Lemma keeps_evaluate this :
  keeps_registry (U:=U) (V:=V) (Menu_evaluate sha256_hex this).
Proof.
  unfold Menu_evaluate.
  repeat (first [ apply keeps_bind; [|intros ?]
                | apply keeps_read_menu | apply keeps_write_menu
                | apply keeps_gets | apply keeps_lift_w | apply keeps_on_temporary ]).
Qed.

Lemma keeps_store_button a (i j : nat) b : keeps_registry (@store_button U V a i j b).
Proof.
  unfold store_button.
  apply keeps_bind; [apply keeps_read_menu|]. intros m. apply keeps_write_menu.
Qed.

Lemma keeps_routing this ctx :
  keeps_registry
    (let callbackData := token_of ctx in
     if negb (truthy_str callbackData) then lift_w (emit EvNext)
     else
       let! found := find_button (default "" callbackData) in
       let! _ :=
         match found with
         | Some (foundMenu, r0, c0, foundButton) =>
             let menuApi := createMenuApi this (Some foundMenu) in
             let! res := lift_w (Button_handler foundButton ctx menuApi) in
             store_button foundMenu r0 c0 (snd res)
         | None =>
             lift_w (console_log (ConsoleLog ("No button found for callback data: "
                                              +:+ default "" callbackData)))
         end in
       let! _ := lift_w (emit EvAnswerCbQuery) in
       lift_w (emit EvNext) : M (@State U V) unit).
Proof.
  cbv zeta. destruct (negb (truthy_str (token_of ctx))); [apply keeps_lift_w|].
  apply keeps_bind.
  { unfold find_button, getMenus. apply keeps_bind; [apply keeps_gets|].
    intros o. apply keeps_gets. }
  intros found. apply keeps_bind.
  - destruct found as [[[[a r0] c0] b]|]; [|apply keeps_lift_w].
    apply keeps_bind; [apply keeps_lift_w|]. intros res. apply keeps_store_button.
  - intros _. apply keeps_bind; [apply keeps_lift_w|]. intros _. apply keeps_lift_w.
Qed.





(** ** Registry: routing *)











Lemma registerMenu_appends a s m :
  st_heap s !! a = Some m ->
  get_property (_menus (st_mm s)) (menuId m) = None ->
  exists s',
    registerMenu a s = (Returned tt, s')
    /\ _menus (st_mm s') = _menus (st_mm s) ++ [(menuId m, a)]
    /\ st_heap s' = <[a := deepFreeze_menu m]> (st_heap s)
    /\ st_world s' = st_world s.
Proof.
  intros Hm Hp. unfold registerMenu, read_menu, write_menu, bind, gets, modify.
  rewrite Hm. simpl. rewrite Hp. simpl. eexists. split; [reflexivity|].
  repeat split; reflexivity.
Qed.

Lemma registerMenu_ignored a s m :
  st_heap s !! a = Some m ->
  is_Some (get_property (_menus (st_mm s)) (menuId m)) ->
  registerMenu a s = (Returned tt, s).
Proof.
  intros Hm [p Hp]. unfold registerMenu, read_menu, bind, gets.
  rewrite Hm. simpl. rewrite Hp. reflexivity.
Qed.


(** ** Registration freezes the menu *)

Lemma Menu_new_pristine id m : @Menu_new U V id = Returned m -> pristine m.
Proof.
  unfold Menu_new. destruct (negb (truthy_str id)); [discriminate|].
  intros [= <-]. split; [reflexivity|apply extensible_new].
Qed.

Lemma set_buttons_same m : set_buttons m (buttons m) = m.
Proof. destruct m; reflexivity. Qed.

Lemma add_to_pristine lbl (o : @ButtonOptions U V) ty m w :
  opt_type o = Some ty -> pristine m ->
  exists b m' w',
    bind (lift_world (Button_new sha256_hex lbl o))
         (fun button => lift_obj (on_buttons (addButton button))) (m, w)
    = (Returned tt, (m', w'))
    /\ Button_new sha256_hex lbl o w = (Returned b, w')
    /\ pristine m'
    /\ _dynamicGenerators m' = _dynamicGenerators m
    /\ exists init r, bm_buttons (buttons m) = init ++ [r]
       /\ bm_buttons (buttons m') = init ++ [{| cells := cells r ++ [b];
                                                row_frozen := false |}].
Proof.
  intros Hty [Hmf Hext].
  destruct (Button_new_returns lbl o ty w Hty) as (b & w' & Hnew & _).
  destruct (addButton_extensible b (buttons m) Hext) as (init & r & Hrows & Hadd & Hext').
  exists b. eexists. exists w'. unfold bind, lift_world, lift_obj, on_buttons.
  rewrite Hnew, Hadd. split; [reflexivity|]. split; [reflexivity|].
  split; [split; [exact Hmf|exact Hext']|]. split; [reflexivity|].
  exists init, r. split; [exact Hrows|reflexivity].
Qed.

Lemma add_to_frozen lbl (o : @ButtonOptions U V) ty m w r :
  opt_type o = Some ty -> deep_frozen m -> last (bm_buttons (buttons m)) = Some r ->
  exists b w',
    Button_new sha256_hex lbl o w = (Returned b, w')
    /\ bind (lift_world (Button_new sha256_hex lbl o))
            (fun button => lift_obj (on_buttons (addButton button))) (m, w)
       = (Thrown (not_extensible (length (cells r))), (m, w')).
Proof.
  intros Hty (_ & _ & _ & Hrows) Hl.
  destruct (Button_new_returns lbl o ty w Hty) as (b & w' & Hnew & _).
  exists b, w'. split; [exact Hnew|].
  unfold bind, lift_world, lift_obj, on_buttons. rewrite Hnew.
  unfold addButton. rewrite Hl.
  destruct (last_snoc_inv _ _ Hl) as (init & E). rewrite E in Hrows.
  apply Forall_app in Hrows as [_ Hr].
  inversion Hr as [|? ? [Hfr _] _]; subst. rewrite Hfr.
  rewrite set_buttons_same. reflexivity.
Qed.

Lemma deepFreeze_pristine m :
  pristine m ->
  deep_frozen (deepFreeze_menu m)
  /\ bm_buttons (buttons (deepFreeze_menu m)) = deepFreeze_array (bm_buttons (buttons m))
  /\ List.map (fun r => length (cells r)) (bm_buttons (buttons (deepFreeze_menu m)))
     = List.map (fun r => length (cells r)) (bm_buttons (buttons m)).
Proof.
  intros [Hmf (Haf & Hne & Hrows)]. unfold deepFreeze_menu. simpl. rewrite Hmf.
  unfold deepFreeze_manager. simpl. rewrite Haf.
  split; [|split; [reflexivity|]].
  - unfold deep_frozen. simpl. repeat split.
    unfold deepFreeze_array. apply Forall_map.
    eapply Forall_impl; [exact Hrows|]. intros r Hr. simpl in Hr. rewrite Hr.
    simpl. split; [reflexivity|]. apply Forall_map.
    apply Forall_forall. intros b _. simpl.
    destruct (button_frozen b) eqn:Hb; [exact Hb|reflexivity].
  - unfold deepFreeze_array. rewrite List.map_map. apply List.map_ext_in.
    intros r Hin. destruct (row_frozen r); [reflexivity|].
    simpl. apply length_map.
Qed.

Lemma toJSON_ignores_freeze b ctx w :
  Button_toJSON sha256_hex (deepFreeze_button b) ctx w = Button_toJSON sha256_hex b ctx w.
Proof. reflexivity. Qed.

Lemma evaluateRequirement_ignores_freeze b ctx w :
  Button_evaluateRequirement (deepFreeze_button b) ctx w
  = match Button_evaluateRequirement b ctx w with
    | (Returned (check, b'), w') => (Returned (check, deepFreeze_button b'), w')
    | (Thrown e, w') => (Thrown e, w')
    end.
Proof.
  unfold Button_evaluateRequirement. simpl.
  destruct (is_placeholder (type b)); [reflexivity|]. run_monad.
  destruct (require (requirement b) ctx (world_user w)) as [[check|e] u']; reflexivity.
Qed.

Lemma frozen_last_row m :
  deep_frozen m -> bm_buttons (buttons m) <> [] ->
  exists r, last (bm_buttons (buttons m)) = Some r /\ row_frozen r = true.
Proof.
  intros (_ & _ & _ & Hrows) Hne.
  destruct (bm_buttons (buttons m)) as [|r init _] using rev_ind; [congruence|].
  exists r. rewrite last_snoc. split; [reflexivity|].
  apply Forall_app in Hrows as [_ Hr]. inversion Hr as [|? ? [Hfr _] _]. exact Hfr.
Qed.

Lemma Menu_dynamic_frozen (g : @Generator U V) m w r :
  deep_frozen m -> last (bm_buttons (buttons m)) = Some r ->
  Menu_dynamic sha256_hex g (m, w)
  = (Thrown (not_extensible (length (cells r))),
     (set_generators m
        (_dynamicGenerators m
         ++ [{| dyn_id := dynamic_id (length (_dynamicGenerators m));
                dyn_generator := g |}]), w)).
Proof.
  intros Hf Hl'.
  assert (Hne : bm_buttons (buttons m) <> []) by (intros E; rewrite E in Hl'; discriminate).
  destruct (frozen_last_row m Hf Hne) as (r0 & Hl & Hfr).
  rewrite Hl in Hl'. injection Hl' as ->.
  unfold Menu_dynamic, bind, gets, lift_obj, modify, lift_world, on_buttons, Button_new.
  simpl. unfold ret, addButton. simpl. rewrite Hl, Hfr. reflexivity.
Qed.

Lemma Menu_row_frozen m w r :
  deep_frozen m -> last (bm_buttons (buttons m)) = Some r ->
  Menu_row (m, w)
  = if 0 <? length (cells r)
    then (Thrown (not_extensible (length (bm_buttons (buttons m)))), (m, w))
    else (Returned tt, (m, w)).
Proof.
  intros (_ & _ & Haf & _) Hl. unfold Menu_row, lift_obj, on_buttons, newRow.
  rewrite Hl. destruct (bm_buttons (buttons m)) eqn:E; [discriminate|]. simpl.
  destruct (0 <? length (cells r)).
  - rewrite Haf. rewrite set_buttons_same. reflexivity.
  - rewrite set_buttons_same. reflexivity.
Qed.

Lemma Menu_dynamic_pristine (g : @Generator U V) m w :
  pristine m ->
  exists m', Menu_dynamic sha256_hex g (m, w) = (Returned tt, (m', w))
             /\ pristine m'
             /\ _dynamicGenerators m'
                = _dynamicGenerators m
                  ++ [{| dyn_id := dynamic_id (length (_dynamicGenerators m));
                         dyn_generator := g |}].
Proof.
  intros [Hmf Hext].
  unfold Menu_dynamic, bind, gets, lift_obj, modify, lift_world, on_buttons, Button_new.
  simpl. unfold ret.
  match goal with |- context [addButton ?p (buttons m)] =>
    destruct (addButton_extensible p (buttons m) Hext) as (init & r & _ & -> & Hext')
  end.
  eexists. split; [reflexivity|]. split; [|reflexivity]. split; [exact Hmf|exact Hext'].
Qed.

Lemma Menu_row_pristine m w :
  pristine m -> exists m', @Menu_row U V (m, w) = (Returned tt, (m', w)) /\ pristine m'.
Proof.
  intros [Hmf Hext]. unfold Menu_row, lift_obj, on_buttons.
  destruct (newRow_extensible (buttons m) Hext) as (bm' & -> & Hext' & Hbm').
  eexists. split; [reflexivity|]. split; [|exact Hext']. simpl.
  rewrite Hbm'. destruct (match last (bm_buttons (buttons m)) with
                          | Some r => 0 <? length (cells r)
                          | None => false
                          end); exact Hmf.
Qed.

Lemma Menu_new_well_built id m : @Menu_new U V id = Returned m -> well_built m.
Proof.
  unfold Menu_new. destruct (negb (truthy_str id)); [discriminate|].
  intros [= <-]. split; simpl.
  - intros k item H. destruct k; discriminate.
  - repeat constructor.
Qed.

Lemma well_built_snoc m m' init r (b : @Button U V) :
  well_built m ->
  bm_buttons (buttons m) = init ++ [r] ->
  bm_buttons (buttons m') = init ++ [{| cells := cells r ++ [b]; row_frozen := false |}] ->
  _dynamicGenerators m' = _dynamicGenerators m ->
  type b <> TPlaceholder ->
  well_built m'.
Proof.
  intros [Hids Hcells] Hrows Hrows' Hgens Hty. split.
  - rewrite Hgens. exact Hids.
  - rewrite Hrows', Hgens. rewrite Hrows in Hcells.
    apply Forall_app in Hcells as [Hinit Hr]. apply Forall_app. split; [exact Hinit|].
    inversion Hr as [|? ? Hr0 _]; subst. constructor; [|constructor].
    simpl. apply Forall_app. split; [exact Hr0|]. constructor; [|constructor].
    intros Habs. congruence.
Qed.

Lemma add_to_well_built lbl (o : @ButtonOptions U V) ty m w :
  opt_type o = Some ty -> ty <> TPlaceholder -> pristine m -> well_built m ->
  exists m' w',
    bind (lift_world (Button_new sha256_hex lbl o))
         (fun button => lift_obj (on_buttons (addButton button))) (m, w)
    = (Returned tt, (m', w'))
    /\ pristine m' /\ well_built m'.
Proof.
  intros Hty Hne Hp Hwb.
  destruct (add_to_pristine lbl o ty m w Hty Hp)
    as (b & m' & w' & Hrun & Hnew & Hp' & Hgens & init & r & Hrows & Hrows').
  exists m', w'. split; [exact Hrun|]. split; [exact Hp'|].
  apply (well_built_snoc m m' init r b Hwb Hrows Hrows' Hgens).
  destruct (Button_new_fields lbl o w b w' Hnew) as (ty' & Hty' & Hb & _).
  rewrite Hb. congruence.
Qed.

Lemma Menu_dynamic_well_built (g : @Generator U V) m w :
  pristine m -> well_built m ->
  exists m', Menu_dynamic sha256_hex g (m, w) = (Returned tt, (m', w))
             /\ pristine m' /\ well_built m'.
Proof.
  intros [Hmf Hext] [Hids Hcells].
  unfold Menu_dynamic, bind, gets, lift_obj, modify, lift_world, on_buttons, Button_new.
  simpl. unfold ret.
  match goal with |- context [addButton ?p (buttons m)] =>
    destruct (addButton_extensible p (buttons m) Hext)
      as (init & r & Hrows & -> & Hext')
  end.
  eexists. split; [reflexivity|]. split; [split; [exact Hmf|exact Hext']|].
  split; simpl.
  - intros k item Hk. apply lookup_app_Some in Hk as [Hk|[Hlen Hk]].
    + apply Hids, Hk.
    + destruct (k - length (_dynamicGenerators m)) as [|n] eqn:E; [|destruct n; discriminate].
      injection Hk as <-. simpl. f_equal. lia.
  - rewrite Hrows in Hcells. apply Forall_app in Hcells as [Hinit Hr].
    assert (Hweak : forall cs : list (@Button U V),
               Forall (fun b => type b = TPlaceholder ->
                                exists k, k < length (_dynamicGenerators m)
                                          /\ label b = LabelText (placeholder_label (dynamic_id k)))
                      cs ->
               Forall (fun b => type b = TPlaceholder ->
                                exists k, k < length (_dynamicGenerators m ++
                                   [{| dyn_id := dynamic_id (length (_dynamicGenerators m));
                                       dyn_generator := g |}])
                                          /\ label b = LabelText (placeholder_label (dynamic_id k)))
                      cs).
    { intros cs Hcs. eapply Forall_impl; [exact Hcs|]. intros b Hb Hty.
      destruct (Hb Hty) as (k & Hk & Hl). exists k. split; [|exact Hl].
      rewrite length_app. simpl. lia. }
    apply Forall_app. split.
    + eapply Forall_impl; [exact Hinit|]. intros r0 Hr0. apply Hweak, Hr0.
    + inversion Hr as [|? ? Hr0 _]; subst. constructor; [|constructor]. simpl.
      apply Forall_app. split; [apply Hweak, Hr0|]. constructor; [|constructor].
      intros _. exists (length (_dynamicGenerators m)). split; [|reflexivity].
      rewrite length_app. simpl. lia.
Qed.

Lemma Menu_row_well_built m w :
  pristine m -> well_built m ->
  exists m', @Menu_row U V (m, w) = (Returned tt, (m', w)) /\ pristine m' /\ well_built m'.
Proof.
  intros Hp [Hids Hcells].
  destruct (Menu_row_pristine m w Hp) as (m' & Hrun & Hp').
  exists m'. split; [exact Hrun|]. split; [exact Hp'|].
  unfold Menu_row, lift_obj, on_buttons in Hrun.
  destruct Hp as [_ Hext].
  destruct (newRow_extensible (buttons m) Hext) as (bm' & Hnr & _ & Hbm').
  rewrite Hnr in Hrun. injection Hrun as <-. split; simpl; [exact Hids|].
  rewrite Hbm'. destruct (match last (bm_buttons (buttons m)) with
                          | Some r => 0 <? length (cells r)
                          | None => false
                          end); [|exact Hcells].
  simpl. apply Forall_app. split; [exact Hcells|]. repeat constructor.
Qed.

(** C1. Dynamic splice positioning. In general the merge of [#evaluate]
    never fails and its result is the grid of the specification (every
    placeholder replaced in place by the rows generated for its block, their
    row breaks kept, the other elements copied, the static rows kept apart)
    without its empty rows, which serialization drops anyway; evaluation
    stores that grid, with re-evaluated flags, as the rendered grid; the
    label of the n-th placeholder names the n-th block, and in every menu
    made by the builder methods each placeholder is replaced by the rows its
    own generator produced and each other element by itself. For a static row
    [A, placeholder, B] whose generator appends X and Y, the rendered grid is
    [[A, X, Y, B]], and [[A, X], [Y, B]] when the generator starts a new row
    between X and Y; when the four elements are serialized as jA, jX, jY, jB
    the menu serializes to [[jA, jX, jY, jB]], respectively
    [[jA, jX], [jY, jB]]. *)
Theorem C1_dynamic_splice :
  (forall gc rows, rows <> [] ->
     exists merged,
       merge_rows gc rows (@ButtonManager_new U V) = (Returned tt, merged)
       /\ List.map cells (bm_buttons merged) = squash (splice_as_specified gc rows)
       /\ forall ctx w,
            ButtonManager_toJSON sha256_hex merged ctx w
            = ButtonManager_toJSON sha256_hex (grid_of (splice_as_specified gc rows)) ctx w)
  /\ (forall this s m gc w1,
        st_heap s !! this = Some m ->
        bm_buttons (buttons m) <> [] ->
        run_generators sha256_hex (_dynamicGenerators m) (_context (st_mm s))
                       (_payload (st_mm s)) ∅ (st_world s) = (Returned gc, w1) ->
        exists merged res rows' w2,
          List.map cells (bm_buttons merged)
          = squash (splice_as_specified gc (bm_buttons (buttons m)))
          /\ evaluateAll_rows (bm_buttons merged) (_context (st_mm s)) w1 = (res, rows', w2)
          /\ Forall2 (fun x y => Forall2 same_element (cells x) (cells y))
                     (bm_buttons merged) rows'
          /\ Menu_evaluate sha256_hex this s
             = (res, rendered s this m (set_rows merged rows') w2))
  /\ (forall n, dynamicId_of (placeholder_label (dynamic_id n)) = dynamic_id n)
  /\ (forall this s m (A P B : @Button U V) g cX cY lX oX lY oY u1,
        st_heap s !! this = Some m ->
        sandwich m A P B g ->
        button_of_call cX = Some (lX, oX) ->
        button_of_call cY = Some (lY, oY) ->
        g (_context (st_mm s)) (_payload (st_mm s)) (world_user (st_world s))
        = ({| gen_calls := [cX; cY]; gen_throws := None |}, u1) ->
        exists X Y wX wY,
          Button_new sha256_hex lX oX (after_generator (st_world s) "dynamic_0" u1)
          = (Returned X, wX)
          /\ Button_new sha256_hex lY oY wX = (Returned Y, wY)
          /\ forall A' X' Y' B' w2,
               evaluateAll_cells [A; X; Y; B] (_context (st_mm s)) wY
               = (Returned tt, [A'; X'; Y'; B'], w2) ->
               Menu_evaluate sha256_hex this s
               = (Returned tt, rendered s this m (grid_of [[A'; X'; Y'; B']]) w2)
               /\ forall jA jX jY jB w3,
                    serialize_cells sha256_hex [A'; X'; Y'; B'] (_context (st_mm s)) w2
                    = (Returned [Some jA; Some jX; Some jY; Some jB], w3) ->
                    bind (Menu_evaluate sha256_hex this)
                         (fun _ => Menu_toJSON sha256_hex this None) s
                    = (Returned [[jA; jX; jY; jB]],
                       rendered s this m (grid_of [[A'; X'; Y'; B']]) w3))
  /\ (forall this s m (A P B : @Button U V) g cX cY lX oX lY oY u1,
        st_heap s !! this = Some m ->
        sandwich m A P B g ->
        button_of_call cX = Some (lX, oX) ->
        button_of_call cY = Some (lY, oY) ->
        g (_context (st_mm s)) (_payload (st_mm s)) (world_user (st_world s))
        = ({| gen_calls := [cX; CallRow; cY]; gen_throws := None |}, u1) ->
        exists X Y wX wY,
          Button_new sha256_hex lX oX (after_generator (st_world s) "dynamic_0" u1)
          = (Returned X, wX)
          /\ Button_new sha256_hex lY oY wX = (Returned Y, wY)
          /\ forall A' X' Y' B' w2 w3,
               evaluateAll_cells [A; X] (_context (st_mm s)) wY
               = (Returned tt, [A'; X'], w2) ->
               evaluateAll_cells [Y; B] (_context (st_mm s)) w2
               = (Returned tt, [Y'; B'], w3) ->
               Menu_evaluate sha256_hex this s
               = (Returned tt, rendered s this m (grid_of [[A'; X']; [Y'; B']]) w3)
               /\ forall jA jX jY jB w4 w5,
                    serialize_cells sha256_hex [A'; X'] (_context (st_mm s)) w3
                    = (Returned [Some jA; Some jX], w4) ->
                    serialize_cells sha256_hex [Y'; B'] (_context (st_mm s)) w4
                    = (Returned [Some jY; Some jB], w5) ->
                    bind (Menu_evaluate sha256_hex this)
                         (fun _ => Menu_toJSON sha256_hex this None) s
                    = (Returned [[jA; jX]; [jY; jB]],
                       rendered s this m (grid_of [[A'; X']; [Y'; B']]) w5))
  /\ (forall id m, @Menu_new U V id = Returned m -> pristine m /\ well_built m)
  /\ (forall m w, pristine m -> well_built m ->
        (forall lbl mw req, exists m' w',
           Menu_text sha256_hex lbl mw req (m, w) = (Returned tt, (m', w'))
           /\ pristine m' /\ well_built m')
        /\ (forall lbl u req, exists m' w',
           Menu_url sha256_hex lbl u req (m, w) = (Returned tt, (m', w'))
           /\ pristine m' /\ well_built m')
        /\ (forall lbl u req, exists m' w',
           Menu_webApp sha256_hex lbl u req (m, w) = (Returned tt, (m', w'))
           /\ pristine m' /\ well_built m')
        /\ (forall g, exists m',
           Menu_dynamic sha256_hex g (m, w) = (Returned tt, (m', w))
           /\ pristine m' /\ well_built m')
        /\ (exists m', Menu_row (m, w) = (Returned tt, (m', w))
                       /\ pristine m' /\ well_built m'))
  /\ (forall m ctx payload w gc w1,
        well_built m ->
        run_generators sha256_hex (_dynamicGenerators m) ctx payload ∅ w
        = (Returned gc, w1) ->
        exists l,
          generate_all sha256_hex (_dynamicGenerators m) ctx payload w = (Returned l, w1)
          /\ forall row b,
               In row (bm_buttons (buttons m)) -> In b (cells row) ->
               if is_placeholder (type b) then
                 exists k item rows_k,
                   _dynamicGenerators m !! k = Some item
                   /\ label b = LabelText (placeholder_label (dynamic_id k))
                   /\ l !! k = Some (dyn_id item, rows_k)
                   /\ expand_cell gc b = List.map cells rows_k
               else expand_cell gc b = [[b]]).
Proof.
  split; [|split; [|split; [|split; [|split; [|split; [|split]]]]]].
  6: { intros id m H. split; [eapply Menu_new_pristine|eapply Menu_new_well_built];
       exact H. }
  6: { intros m w Hp Hwb. split; [|split; [|split; [|split]]].
       - intros lbl mw req. apply (add_to_well_built lbl _ TAction); auto; discriminate.
       - intros lbl u req. apply (add_to_well_built lbl _ TUrl); auto; discriminate.
       - intros lbl u req. apply (add_to_well_built lbl _ TWebApp); auto; discriminate.
       - intros g. apply Menu_dynamic_well_built; assumption.
       - apply Menu_row_well_built; assumption. }
  6: { intros m ctx payload w gc w1. apply placeholder_block. }
  - intros gc rows Hne. destruct (merge_rows_new gc rows Hne) as (merged & Hrun & _ & Hc).
    exists merged. split; [exact Hrun|]. split; [exact Hc|].
    intros ctx w. apply toJSON_squash, Hc.
  - intros this s m gc w1 Hm Hne Hg.
    destruct (Menu_evaluate_run this s m gc w1 Hm Hne Hg) as (merged & _ & _ & Hc & He).
    destruct (evaluateAll_rows (bm_buttons merged) (_context (st_mm s)) w1)
      as [[res rows'] w2] eqn:Hev.
    exists merged, res, rows', w2. split; [exact Hc|]. split; [exact Hev|].
    split; [|exact He].
    eapply Forall2_impl; [eapply evaluateAll_rows_same; exact Hev|].
    intros x y [H _]. exact H.
  - exact dynamicId_of_placeholder_label.
  - intros this s m A P B g cX cY lX oX lY oY u1 Hm Hs HcX HcY Hg.
    destruct (evaluate_sandwich this s m A P B g false cX cY lX oX lY oY u1
                Hm Hs HcX HcY Hg) as (X & Y & wX & wY & HX & HY & _ & _ & He).
    exists X, Y, wX, wY. split; [exact HX|]. split; [exact HY|].
    intros A' X' Y' B' w2 Hev.
    assert (He' : Menu_evaluate sha256_hex this s
                  = let '(res, rows', w2') :=
                      evaluateAll_rows [one_row [A; X; Y; B]] (_context (st_mm s)) wY in
                    (res, rendered s this m (set_rows (grid_of [[A; X; Y; B]]) rows') w2'))
      by exact He.
    clear He. rename He' into He.
    rewrite (evaluateAll_single _ _ _ _ _ Hev) in He.
    split; [exact He|].
    intros jA jX jY jB w3 Hser. unfold bind at 1. rewrite He.
    rewrite (Menu_toJSON_rendered this s m _ w2 None Hm).
    change (default (_context (st_mm s)) None) with (_context (st_mm s)).
    unfold ButtonManager_toJSON, grid_of.
    cbn [bm_buttons array_frozen manager_frozen set_rows List.map toJSON_rows
           one_row cells]. unfold bind.
    rewrite (toJSON_row_spec _ _ [] _ _ _ Hser). reflexivity.
  - intros this s m A P B g cX cY lX oX lY oY u1 Hm Hs HcX HcY Hg.
    destruct (evaluate_sandwich this s m A P B g true cX cY lX oX lY oY u1
                Hm Hs HcX HcY Hg) as (X & Y & wX & wY & HX & HY & _ & _ & He).
    exists X, Y, wX, wY. split; [exact HX|]. split; [exact HY|].
    intros A' X' Y' B' w2 w3 Hev1 Hev2.
    assert (He' : Menu_evaluate sha256_hex this s
                  = let '(res, rows', w2') :=
                      evaluateAll_rows [one_row [A; X]; one_row [Y; B]]
                                       (_context (st_mm s)) wY in
                    (res, rendered s this m
                            (set_rows (grid_of [[A; X]; [Y; B]]) rows') w2'))
      by exact He.
    clear He. rename He' into He.
    rewrite (evaluateAll_pair _ _ _ _ _ _ _ _ Hev1 Hev2) in He.
    split; [exact He|].
    intros jA jX jY jB w4 w5 Hser1 Hser2. unfold bind at 1. rewrite He.
    rewrite (Menu_toJSON_rendered this s m _ w3 None Hm).
    change (default (_context (st_mm s)) None) with (_context (st_mm s)).
    unfold ButtonManager_toJSON, grid_of.
    cbn [bm_buttons array_frozen manager_frozen set_rows List.map toJSON_rows
           one_row cells]. unfold bind.
    rewrite (toJSON_row_spec _ _ [] _ _ _ Hser1).
    cbn [drop_omitted omap app length Nat.ltb Nat.leb id mbind option_bind].
    rewrite (toJSON_row_spec _ _ [] _ _ _ Hser2). reflexivity.
Qed.

(** C10 (amended). Registration freezes the menu when it stores it. A menu
    made by the constructor and the builder methods has nothing frozen.
    Registering it under an id that the registry object does not have yet
    stores it deep-frozen: the menu object, its manager, the row arrays and
    the buttons, with the same rows. Registering it under an id that the
    registry object has (a menu is registered under it, or it names a
    member that every object inherits) is ignored and freezes nothing. On a
    deep-frozen menu every builder call that appends to the static grid
    throws the TypeError of [push] on a frozen array and leaves the static
    grid as it was ([dynamic] still records its generator); [row] does so
    when the current row is not empty and does nothing otherwise. The merge
    of an evaluation, the evaluation itself, requirement evaluation,
    serialization and [setCaption] do not depend on the freeze. *)
Theorem C10_registration_freezes :
  (forall id m, @Menu_new U V id = Returned m -> pristine m)
  /\ (forall m w, pristine m ->
        (forall lbl mw req, exists m' w',
           Menu_text sha256_hex lbl mw req (m, w) = (Returned tt, (m', w')) /\ pristine m')
        /\ (forall lbl u req, exists m' w',
           Menu_url sha256_hex lbl u req (m, w) = (Returned tt, (m', w')) /\ pristine m')
        /\ (forall lbl u req, exists m' w',
           Menu_webApp sha256_hex lbl u req (m, w) = (Returned tt, (m', w')) /\ pristine m')
        /\ (forall g, exists m',
           Menu_dynamic sha256_hex g (m, w) = (Returned tt, (m', w)) /\ pristine m')
        /\ (exists m', Menu_row (m, w) = (Returned tt, (m', w)) /\ pristine m'))
  /\ (forall a s m,
        st_heap s !! a = Some m -> pristine m ->
        get_property (_menus (st_mm s)) (menuId m) = None ->
        exists s' m',
          registerMenu a s = (Returned tt, s')
          /\ get_own (_menus (st_mm s')) (menuId m) = Some a
          /\ st_heap s' !! a = Some m'
          /\ deep_frozen m'
          /\ bm_buttons (buttons m') = deepFreeze_array (bm_buttons (buttons m))
          /\ List.map (fun r => length (cells r)) (bm_buttons (buttons m'))
             = List.map (fun r => length (cells r)) (bm_buttons (buttons m)))
  /\ (forall m w r, deep_frozen m -> last (bm_buttons (buttons m)) = Some r ->
        let full_row := not_extensible (length (cells r)) in
        (forall lbl mw req, exists w',
           Menu_text sha256_hex lbl mw req (m, w) = (Thrown full_row, (m, w')))
        /\ (forall lbl u req, exists w',
           Menu_url sha256_hex lbl u req (m, w) = (Thrown full_row, (m, w')))
        /\ (forall lbl u req, exists w',
           Menu_webApp sha256_hex lbl u req (m, w) = (Thrown full_row, (m, w')))
        /\ (forall g, exists m',
           Menu_dynamic sha256_hex g (m, w) = (Thrown full_row, (m', w))
           /\ buttons m' = buttons m)
        /\ Menu_row (m, w)
           = if 0 <? length (cells r)
             then (Thrown (not_extensible (length (bm_buttons (buttons m)))), (m, w))
             else (Returned tt, (m, w)))
  /\ (forall index, exists msg, not_extensible index = TypeError msg)
  /\ (forall this s m gc w1,
        st_heap s !! this = Some m ->
        bm_buttons (buttons m) <> [] ->
        run_generators sha256_hex (_dynamicGenerators m) (_context (st_mm s))
                       (_payload (st_mm s)) ∅ (st_world s) = (Returned gc, w1) ->
        exists merged,
          merge_rows gc (bm_buttons (buttons m)) ButtonManager_new = (Returned tt, merged)
          /\ forall rows' w2,
               evaluateAll_rows (bm_buttons merged) (_context (st_mm s)) w1
               = (Returned tt, rows', w2) ->
               Menu_evaluate sha256_hex this s
               = (Returned tt, rendered s this m (set_rows merged rows') w2))
  /\ (forall b ctx w,
        Button_toJSON sha256_hex (deepFreeze_button b) ctx w
        = Button_toJSON sha256_hex b ctx w
        /\ Button_evaluateRequirement (deepFreeze_button b) ctx w
           = match Button_evaluateRequirement b ctx w with
             | (Returned (check, b'), w') => (Returned (check, deepFreeze_button b'), w')
             | (Thrown e, w') => (Thrown e, w')
             end)
  /\ (forall caption format m, exists m',
        Menu_setCaption caption format m = (Returned tt, m')
        /\ _caption m' = Some caption /\ buttons m' = buttons m)
  /\ (forall a s m,
        st_heap s !! a = Some m ->
        is_Some (get_property (_menus (st_mm s)) (menuId m)) ->
        registerMenu a s = (Returned tt, s)).
Proof.
  split; [exact Menu_new_pristine|].
  split.
  { intros m w Hp. split; [|split; [|split; [|split]]].
    - intros lbl mw req.
      destruct (add_to_pristine lbl
                  {| opt_type := Some TAction; opt_url := None; opt_middleware := mw;
                     opt_requirement := req |} TAction m w eq_refl Hp)
        as (b & m' & w' & H & _ & Hp' & _). eauto.
    - intros lbl u req.
      destruct (add_to_pristine lbl
                  {| opt_type := Some TUrl; opt_url := u; opt_middleware := None;
                     opt_requirement := req |} TUrl m w eq_refl Hp)
        as (b & m' & w' & H & _ & Hp' & _). eauto.
    - intros lbl u req.
      destruct (add_to_pristine lbl
                  {| opt_type := Some TWebApp; opt_url := u; opt_middleware := None;
                     opt_requirement := req |} TWebApp m w eq_refl Hp)
        as (b & m' & w' & H & _ & Hp' & _). eauto.
    - intros g. destruct (Menu_dynamic_pristine g m w Hp) as (m' & H & Hp' & _). eauto.
    - apply Menu_row_pristine, Hp. }
  split.
  { intros a s m Hm Hp Hfree.
    destruct (registerMenu_appends a s m Hm Hfree) as (s' & Hreg & Hmenus & Hheap & _).
    destruct (deepFreeze_pristine m Hp) as (Hdf & Hrows & Hlen).
    exists s', (deepFreeze_menu m). split; [exact Hreg|].
    split.
    { rewrite Hmenus. unfold get_property in Hfree.
      destruct (get_own (_menus (st_mm s)) (menuId m)) eqn:Ho; [discriminate|].
      clear -Ho. induction (_menus (st_mm s)) as [|[k v] o IH]; simpl in *.
      - rewrite String.eqb_refl. reflexivity.
      - destruct (String.eqb k (menuId m)); [discriminate|]. apply IH, Ho. }
    split.
    { rewrite Hheap. apply list_lookup_insert_eq. eapply lookup_lt_Some, Hm. }
    auto. }
  split.
  { intros m w r Hf Hl full_row. split; [|split; [|split; [|split]]].
    - intros lbl mw req.
      destruct (add_to_frozen lbl
                  {| opt_type := Some TAction; opt_url := None; opt_middleware := mw;
                     opt_requirement := req |} TAction m w r eq_refl Hf Hl)
        as (b & w' & _ & H). eauto.
    - intros lbl u req.
      destruct (add_to_frozen lbl
                  {| opt_type := Some TUrl; opt_url := u; opt_middleware := None;
                     opt_requirement := req |} TUrl m w r eq_refl Hf Hl)
        as (b & w' & _ & H). eauto.
    - intros lbl u req.
      destruct (add_to_frozen lbl
                  {| opt_type := Some TWebApp; opt_url := u; opt_middleware := None;
                     opt_requirement := req |} TWebApp m w r eq_refl Hf Hl)
        as (b & w' & _ & H). eauto.
    - intros g. eexists. split; [apply Menu_dynamic_frozen; assumption|reflexivity].
    - apply Menu_row_frozen; assumption. }
  split; [intros index; eexists; reflexivity|].
  split.
  { intros this s m gc w1 Hm Hne Hg.
    destruct (Menu_evaluate_run this s m gc w1 Hm Hne Hg) as (merged & Hmerge & _ & _ & He).
    exists merged. split; [exact Hmerge|]. intros rows' w2 Hev.
    rewrite Hev in He. exact He. }
  split.
  { intros b ctx w. split; [apply toJSON_ignores_freeze|].
    apply evaluateRequirement_ignores_freeze. }
  split.
  { intros caption format m. eexists. split; [reflexivity|]. split; reflexivity. }
  exact registerMenu_ignored.
Qed.

(** ** Registry: registration and lookup *)

Lemma getMenuById_not_found id s :
  get_property (_menus (st_mm s)) id = None ->
  getMenuById id s = (Thrown (Error ("Menu with ID " +:+ id +:+ " does not exist.")), s).
Proof. intros H. unfold getMenuById, bind, gets. rewrite H. reflexivity. Qed.

Lemma getMenuById_registered id s a :
  get_own (_menus (st_mm s)) id = Some a ->
  getMenuById id s = (Returned (OwnMenu a), s).
Proof.
  intros H. unfold getMenuById, bind, gets, get_property. rewrite H. reflexivity.
Qed.

Lemma getMenuById_inherited id s :
  get_own (_menus (st_mm s)) id = None -> id ∈ object_prototype_keys ->
  getMenuById id s = (Returned (Inherited id), s).
Proof.
  intros H Hin. unfold getMenuById, bind, gets, get_property. rewrite H.
  rewrite bool_decide_eq_true_2 by exact Hin. reflexivity.
Qed.

Lemma get_own_snoc (o : JsObject) id key a :
  get_own (o ++ [(key, a)]) id
  = match get_own o id with
    | Some x => Some x
    | None => if String.eqb key id then Some a else None
    end.
Proof.
  induction o as [|[k v] o IH]; simpl; [reflexivity|].
  destruct (String.eqb k id); [reflexivity|exact IH].
Qed.

(** Registration never replaces an entry, and a second registration under
    the id of the first changes nothing. *)
Lemma registerMenu_keeps_entries a s id a0 :
  get_own (_menus (st_mm s)) id = Some a0 ->
  get_own (_menus (st_mm (snd (registerMenu a s)))) id = Some a0.
Proof.
  intros H. unfold registerMenu, read_menu, write_menu, bind, gets, modify.
  destruct (st_heap s !! a) as [m|]; [|exact H]. simpl.
  destruct (get_property (_menus (st_mm s)) (menuId m)); [exact H|].
  simpl. rewrite get_own_snoc, H. reflexivity.
Qed.

Lemma registerMenu_first_wins a1 a2 s m1 m2 :
  st_heap s !! a1 = Some m1 -> st_heap s !! a2 = Some m2 ->
  menuId m2 = menuId m1 ->
  registerMenu a2 (snd (registerMenu a1 s)) = (Returned tt, snd (registerMenu a1 s)).
Proof.
  intros H1 H2 Hid.
  destruct (get_property (_menus (st_mm s)) (menuId m1)) as [p|] eqn:Hp.
  - rewrite (registerMenu_ignored a1 s m1 H1) by eauto. simpl.
    apply (registerMenu_ignored a2 s m2 H2). rewrite Hid, Hp. eauto.
  - destruct (registerMenu_appends a1 s m1 H1 Hp) as (s1 & Hreg & Hmenus & Hheap & _).
    rewrite Hreg. simpl.
    assert (exists m2', st_heap s1 !! a2 = Some m2' /\ menuId m2' = menuId m1)
      as (m2' & H2' & Hid').
    { rewrite Hheap. destruct (decide (a1 = a2)) as [<-|Hne].
      - exists (deepFreeze_menu m1). split; [|reflexivity].
        apply list_lookup_insert_eq. eapply lookup_lt_Some, H1.
      - exists m2. split; [|exact Hid]. rewrite list_lookup_insert_ne by exact Hne.
        exact H2. }
    apply (registerMenu_ignored a2 s1 m2' H2'). rewrite Hid', Hmenus.
    unfold get_property. rewrite get_own_snoc.
    destruct (get_own (_menus (st_mm s)) (menuId m1)); [eauto|].
    rewrite String.eqb_refl. eauto.
Qed.

End Properties.

(** * Worked examples *)

(** The requirement of a placeholder is not evaluated; a failing predicate
    with [disable: true] disables; a button built without a predicate
    passes. *)
Lemma C3_evaluateRequirement_witness :
  (exists b', Button_evaluateRequirement Demo.marker Demo.ctx0 Demo.world0
              = (Returned (false, b'), Demo.world0) /\ isHidden b' = true)
  /\ (exists b' w',
        Button_evaluateRequirement Demo.locked_link Demo.ctx0 Demo.world0
        = (Returned (false, b'), w')
        /\ isDisable b' = true /\ isHidden b' = false
        /\ world_user w' = 0 /\ world_trace w' = [EvRequire None])
  /\ (forall c u, require (requirement Demo.go) c u = (Returned true, u)).
Proof.
  split; [|split].
  - apply (proj1 (C3_evaluateRequirement Demo.sha256_hex Demo.marker Demo.ctx0 Demo.world0)).
    reflexivity.
  - apply (proj1 (proj2 (C3_evaluateRequirement Demo.sha256_hex Demo.locked_link
                           Demo.ctx0 Demo.world0)) ltac:(discriminate) false 0).
    reflexivity.
  - apply (proj2 (proj2 (C3_evaluateRequirement Demo.sha256_hex Demo.go Demo.ctx0
                           (advance_rng Demo.world0)))
             (LabelText "Go") (Demo.action_options (Some Demo.count) None) Demo.world0).
    + reflexivity.
    + exact I.
Defined.

(** A link built without url is serialized with its label alone. *)
Lemma C2_counterexample :
  Button_new Demo.sha256_hex (LabelText "Docs") (Demo.link_options None None) Demo.world0
  = (Returned Demo.bare_link, Demo.world0)
  /\ ~ serialize_enabled_as_specified Demo.sha256_hex Demo.bare_link Demo.ctx0 Demo.world0.
Proof.
  split; [reflexivity|].
  intros H. destruct (H eq_refl ltac:(discriminate) eq_refl) as (j & w' & Hj & _ & Hone).
  vm_compute in Hj. injection Hj as <- _.
  destruct Hone as [[[x Hx] _]|[_ [x Hx]]]; discriminate.
Qed.

Lemma C2_serialize_witness :
  Button_toJSON Demo.sha256_hex (set_flags Demo.go true true) Demo.ctx0 Demo.world0
  = (Returned None, Demo.world0)
  /\ (exists token w',
        Button_toJSON Demo.sha256_hex (set_flags Demo.locked_link true false)
                      Demo.ctx0 Demo.world0
        = (Returned (Some {| text := "Docs" +:+ locked_marker; wire_url := None;
                             callback_data := Some token |}), w')
        /\ token <> "")
  /\ (exists j,
        Button_toJSON Demo.sha256_hex Demo.go Demo.ctx0 Demo.world0
        = (Returned (Some j), Demo.world0)
        /\ text j = "Go"
        /\ (is_Some (wire_url j) <-> false = true)
        /\ (is_Some (callback_data j) <-> true = true)
        /\ (false = negb true -> exactly_one_of j))
  /\ truthy_str (callbackData Demo.go) = true.
Proof.
  split; [|split; [|split]].
  - apply (proj1 (C2_serialize Demo.sha256_hex (set_flags Demo.go true true)
                    Demo.ctx0 Demo.world0)).
    left. reflexivity.
  - apply (proj1 (proj2 (C2_serialize Demo.sha256_hex
                           (set_flags Demo.locked_link true false)
                           Demo.ctx0 Demo.world0)));
      [reflexivity|discriminate|reflexivity].
  - apply (proj1 (proj2 (proj2 (C2_serialize Demo.sha256_hex Demo.go
                                  Demo.ctx0 Demo.world0))));
      [reflexivity|discriminate|reflexivity].
  - apply (proj2 (proj2 (proj2 (C2_serialize Demo.sha256_hex Demo.go
                                  Demo.ctx0 (advance_rng Demo.world0))))
             (LabelText "Go") (Demo.action_options (Some Demo.count) None) Demo.world0
             (advance_rng Demo.world0)).
    reflexivity.
Defined.

(** An action that throws is logged and swallowed. *)
Lemma C7_handler_swallows_witness :
  Button_handler Demo.faulty Demo.ctx0 Demo.api0 Demo.world0
  = (Returned (None, set_flags Demo.faulty false false),
     push_console
       (set_user
          (push_trace (set_user (push_trace Demo.world0 (EvRequire (callbackData Demo.faulty))) 0)
                      (EvAction (callbackData Demo.faulty) Demo.api0)) 0)
       (ConsoleError "Error in middleware:" (Error "boom"))).
Proof.
  apply (proj2 (proj1 (C7_handler_swallows Demo.faulty Demo.ctx0 Demo.api0 Demo.world0
                         true (set_flags Demo.faulty false false)
                         (set_user (push_trace Demo.world0
                                      (EvRequire (callbackData Demo.faulty))) 0)
                         eq_refl)
                      eq_refl Demo.boom eq_refl)
           (Error "boom") 0).
  reflexivity.
Defined.

(** A disabled link has no stored identifier, yet its serialization carries
    a token. *)
Lemma C9_counterexample :
  exists w1,
    Button_new Demo.sha256_hex (LabelText "Docs")
      (Demo.link_options (Some "https://example.org") (Some Demo.lock_when_failing))
      Demo.world0
    = (Returned Demo.locked_link, Demo.world0)
    /\ Button_evaluateRequirement Demo.locked_link Demo.ctx0 Demo.world0
       = (Returned (false, set_flags Demo.locked_link true false), w1)
    /\ ~ emits_stored_identifier Demo.sha256_hex (set_flags Demo.locked_link true false)
           Demo.ctx0 w1.
Proof.
  eexists. split; [reflexivity|]. split; [reflexivity|].
  intros H. specialize (H _ _ eq_refl). discriminate H.
Qed.

Lemma C9_identifier_stable_witness :
  (exists t, callbackData Demo.go = Some t /\ t <> "")
  /\ (exists r,
        Button_toJSON Demo.sha256_hex Demo.go Demo.ctx0 Demo.world0
        = (Returned r, Demo.world0)
        /\ (forall j, r = Some j -> callback_data j = callbackData Demo.go)
        /\ (forall w2, Button_toJSON Demo.sha256_hex Demo.go Demo.ctx0 w2
                       = (Returned r, w2)))
  /\ (exists j,
        Button_toJSON Demo.sha256_hex (set_flags Demo.locked_link true false)
                      Demo.ctx0 Demo.world0
        = (Returned (Some j), advance_rng Demo.world0)
        /\ callback_data j = Some "1000000000000000").
Proof.
  split; [|split].
  - apply (proj1 (C9_identifier_stable Demo.sha256_hex Demo.go)
             (LabelText "Go") (Demo.action_options (Some Demo.count) None) Demo.world0
             (advance_rng Demo.world0)).
    reflexivity.
  - apply (proj1 (proj2 (proj2 (proj2 (C9_identifier_stable Demo.sha256_hex Demo.go))))).
    reflexivity.
  - apply (proj2 (proj2 (proj2 (proj2 (C9_identifier_stable Demo.sha256_hex
                                         (set_flags Demo.locked_link true false)))))
             eq_refl eq_refl ltac:(discriminate) eq_refl Demo.ctx0 Demo.world0).
Defined.

(** C6 (the defect). Looking up an unregistered id should fail with the
    error that the menu does not exist, and it does for an id such as
    ["settings"]. But [getMenuById("constructor")] on an empty registry
    returns the member that every object inherits, and a menu named
    ["constructor"] is never stored: its registration is taken for a
    repetition. *)
Theorem C6_inherited_member_is_found :
  getMenuById "constructor" Demo.state0
  = (Returned (Inherited "constructor"), Demo.state0)
  /\ get_own (_menus (st_mm Demo.state0)) "constructor" = None
  /\ _menus (st_mm (snd (bind (Menu_alloc (Some "constructor")) registerMenu Demo.state0)))
     = []
  /\ getMenuById "settings" Demo.state0
     = (Thrown (Error "Menu with ID settings does not exist."), Demo.state0).
Proof. repeat split. Qed.



Lemma C4_grid_rows_witness :
  newRow (@ButtonManager_new nat string) = (Returned tt, ButtonManager_new)
  /\ no_adjacent_empty
       (bm_buttons (snd (run_ops [OpNewRow; OpAdd Demo.go; OpNewRow; OpNewRow; OpAdd Demo.faulty]
                                 ButtonManager_new)))
  /\ ButtonManager_toJSON Demo.sha256_hex
       (grid_of [[Demo.go]; [set_flags Demo.faulty false true]; [Demo.bare_link]])
       Demo.ctx0 Demo.world0
     = ButtonManager_toJSON Demo.sha256_hex
         (set_rows (grid_of [[Demo.go]; [set_flags Demo.faulty false true];
                             [Demo.bare_link]])
                   ([one_row [Demo.go]] ++ [one_row [Demo.bare_link]]))
         Demo.ctx0 Demo.world0.
Proof.
  pose proof (C4_grid_rows (U:=nat) (V:=string) Demo.sha256_hex)
    as (Hnoop & Hnew & Hops & _ & _ & _ & Hhidden).
  split; [|split].
  - apply (Hnoop ButtonManager_new empty_row); reflexivity.
  - apply Hops. exact Hnew.
  - apply (Hhidden _ [one_row [Demo.go]] (one_row [set_flags Demo.faulty false true])
             [one_row [Demo.bare_link]]).
    + reflexivity.
    + repeat constructor.
Defined.

(** The menu [root] of the examples, with X and Y generated on one row and
    on two. *)
Lemma C1_dynamic_splice_witness :
  fst (bind (Menu_evaluate Demo.sha256_hex 0)
            (fun _ => Menu_toJSON Demo.sha256_hex 0 None)
            (Demo.with_root Demo.gen_flat))
  = Returned
      [[{| text := "A"; wire_url := None; callback_data := Some "1000000000000000" |};
        {| text := "X"; wire_url := None; callback_data := Some "3000000000000000" |};
        {| text := "Y"; wire_url := Some "https://example.org"; callback_data := None |};
        {| text := "B"; wire_url := None; callback_data := Some "2000000000000000" |}]]
  /\ fst (bind (Menu_evaluate Demo.sha256_hex 0)
               (fun _ => Menu_toJSON Demo.sha256_hex 0 None)
               (Demo.with_root Demo.gen_break))
     = Returned
         [[{| text := "A"; wire_url := None; callback_data := Some "1000000000000000" |};
           {| text := "X"; wire_url := None; callback_data := Some "3000000000000000" |}];
          [{| text := "Y"; wire_url := Some "https://example.org"; callback_data := None |};
           {| text := "B"; wire_url := None; callback_data := Some "2000000000000000" |}]].
Proof.
  pose proof (C1_dynamic_splice (U:=nat) (V:=string) Demo.sha256_hex)
    as (_ & _ & _ & Hflat & Hbreak & _).
  split.
  - edestruct Hflat with (this := 0) (s := Demo.with_root Demo.gen_flat)
      (g := Demo.gen_flat) (cX := Demo.callX) (cY := Demo.callY) (u1 := 0)
      as (X & Y & wX & wY & HX & HY & H).
    + reflexivity.
    + unfold sandwich. split; [eexists; split; reflexivity|]. repeat split; reflexivity.
    + reflexivity.
    + reflexivity.
    + reflexivity.
    + vm_compute in HX. injection HX as <- <-.
      vm_compute in HY. injection HY as <- <-.
      edestruct H as [_ Hser]; [vm_compute; reflexivity|].
      erewrite Hser; [reflexivity|vm_compute; reflexivity].
  - edestruct Hbreak with (this := 0) (s := Demo.with_root Demo.gen_break)
      (g := Demo.gen_break) (cX := Demo.callX) (cY := Demo.callY) (u1 := 0)
      as (X & Y & wX & wY & HX & HY & H).
    + reflexivity.
    + unfold sandwich. split; [eexists; split; reflexivity|]. repeat split; reflexivity.
    + reflexivity.
    + reflexivity.
    + reflexivity.
    + vm_compute in HX. injection HX as <- <-.
      vm_compute in HY. injection HY as <- <-.
      edestruct H as [_ Hser]; [vm_compute; reflexivity|vm_compute; reflexivity|].
      erewrite Hser; [reflexivity|vm_compute; reflexivity|vm_compute; reflexivity].
Defined.


(** Registering the menu [root], then calling [text] on it. *)
Lemma C10_registration_freezes_witness :
  exists s' m',
    registerMenu 0 (Demo.with_root Demo.gen_flat) = (Returned tt, s')
    /\ st_heap s' !! 0 = Some m'
    /\ deep_frozen m'
    /\ (exists w', Menu_text Demo.sha256_hex (LabelText "C") None None (m', Demo.world0)
                   = (Thrown (not_extensible 3), (m', w')))
    /\ Menu_row (m', Demo.world0) = (Thrown (not_extensible 1), (m', Demo.world0)).
Proof.
  pose proof (C10_registration_freezes (U:=nat) (V:=string) Demo.sha256_hex)
    as (_ & _ & Hreg & Hthrow & _).
  edestruct Hreg with (a := 0) (s := Demo.with_root Demo.gen_flat)
    as (s' & m' & Hr & _ & Hheap & Hdf & Hrows & _).
  - reflexivity.
  - split; [reflexivity|]. split; [reflexivity|]. split; [discriminate|].
    repeat constructor.
  - reflexivity.
  - assert (Hlast : exists r, last (bm_buttons (buttons m')) = Some r
                              /\ length (cells r) = 3
                              /\ length (bm_buttons (buttons m')) = 1).
    { rewrite Hrows. eexists. split; [reflexivity|]. split; reflexivity. }
    destruct Hlast as (r & Hl & Hlen & Hrows1).
    destruct (Hthrow m' Demo.world0 r Hdf Hl) as (Htext & _ & _ & _ & Hrow).
    exists s', m'. split; [exact Hr|]. split; [exact Hheap|]. split; [exact Hdf|].
    rewrite Hlen in Htext. split; [apply Htext|].
    rewrite Hrow, Hlen, Hrows1. reflexivity.
Defined.

(** The second menu with the id ["root"], and the menu ["constructor"]:
    their registration is ignored, nothing of them is frozen, and [text]
    still works on them. *)
Lemma C10_counterexample :
  ~ freezes_as_specified 1 Demo.twins
  /\ ~ freezes_as_specified 2 Demo.twins
  /\ (exists m2,
        registerMenu 1 Demo.twins = (Returned tt, Demo.twins)
        /\ st_heap Demo.twins !! 1 = Some m2
        /\ menu_frozen m2 = false
        /\ exists m' w',
             Menu_text Demo.sha256_hex (LabelText "C") None None (m2, Demo.world0)
             = (Returned tt, (m', w'))).
Proof.
  assert (Hnot : forall a, a = 1 \/ a = 2 -> ~ freezes_as_specified a Demo.twins).
  { intros a Ha H. destruct (H Demo.twins) as (m' & Hm' & Hf & _).
    - destruct Ha as [-> | ->]; reflexivity.
    - destruct Ha as [-> | ->]; vm_compute in Hm'; injection Hm' as <-;
        discriminate Hf. }
  split; [apply Hnot; auto|]. split; [apply Hnot; auto|].
  eexists. split; [reflexivity|]. split; [reflexivity|]. split; [reflexivity|].
  eexists _, _. reflexivity.
Qed.

(** * Further properties of the code *)

Section Coverage.
Context {U V : Type}.
Variable sha256_hex : string -> HexDigest.
Variable telegram_of : Ctx -> option (@Telegram U).
Implicit Types (s : @State U V) (m : @Menu U V) (b : @Bot U V) (ctx : Ctx).

(** *** Elements *)

Lemma substring_length (n : nat) (t : string) :
  n <= String.length t -> String.length (String.substring 0 n t) = n.
Proof.
  revert t. induction n as [|n IH]; intros t H.
  - destruct t; reflexivity.
  - destruct t as [|c t]; simpl in *; [lia|]. rewrite IH by lia. reflexivity.
Qed.

Lemma generateCallbackData_run ty (w : @World U) :
  exists t, generateCallbackData sha256_hex ty w = (Returned t, advance_rng w)
            /\ String.length t = 16.
Proof.
  unfold generateCallbackData, next_sample, bind, ret. eexists. split; [reflexivity|].
  apply substring_length. rewrite hex_length. lia.
Qed.

(** X1. The constructor fails exactly when no type
    is given, and then nothing has happened. Otherwise the new element is
    neither disabled nor hidden. An action element gets an identifier of
    exactly 16 characters, for which one reading of the clock and of the
    random source is used; an element of another type gets no identifier
    and uses none. *)
Theorem constructor_outcome lbl (o : @ButtonOptions U V) (w : @World U) :
  match opt_type o with
  | None =>
      Button_new sha256_hex lbl o w = (Thrown (Error "Button type is required."), w)
  | Some ty =>
      exists button w',
        Button_new sha256_hex lbl o w = (Returned button, w')
        /\ type button = ty /\ label button = lbl /\ url button = opt_url o
        /\ isDisable button = false /\ isHidden button = false
        /\ if is_action ty
           then (exists t, callbackData button = Some t /\ String.length t = 16)
                /\ w' = advance_rng w
           else callbackData button = None /\ w' = w
  end.
Proof.
  unfold Button_new. destruct (opt_type o) as [ty|]; [|reflexivity].
  destruct (is_action ty) eqn:Ha.
  - destruct (generateCallbackData_run (type_name ty) w) as (t & Hg & Hlen).
    unfold bind, ret. rewrite Hg. simpl. eexists _, _. split; [reflexivity|].
    simpl. repeat split; eauto.
  - unfold bind, ret. simpl. eexists _, _. split; [reflexivity|].
    simpl. repeat split; eauto.
Qed.

(** X2. An exception of the predicate is not
    swallowed by [handler]: it is thrown on to the caller; neither the
    action nor the disabled-handler has run and nothing is logged. *)
Theorem handler_requirement_failure (button : @Button U V) ctx api (w : @World U) e u' :
  type button <> TPlaceholder ->
  require (requirement button) ctx (world_user w) = (Thrown e, u') ->
  Button_handler button ctx api w
  = (Thrown e, set_user (push_trace w (EvRequire (callbackData button))) u').
Proof.
  intros Hty Hreq. unfold Button_handler, Button_evaluateRequirement.
  destruct (type button) eqn:Ety; try congruence; simpl;
    unfold bind, emit, modify, call_user; simpl; rewrite Hreq; reflexivity.
Qed.

(** X3. What an element looks like after
    its requirement was evaluated. When the predicate passed it is shown
    unlocked. When it failed: with [hidden] the element is left out, also
    when [disable] is set as well; with [disable] alone it is shown locked,
    without url; with neither option it is shown exactly as if the predicate
    had passed. *)
Theorem requirement_decides_rendering (button : @Button U V) ctx (w : @World U)
    check button' w1 :
  type button <> TPlaceholder ->
  Button_evaluateRequirement button ctx w = (Returned (check, button'), w1) ->
  let shown := {| text := getLabel button ctx;
                  wire_url := if truthy_str (url button) then url button else None;
                  callback_data := if truthy_str (callbackData button)
                                   then callbackData button else None |} in
  (check = true ->
   Button_toJSON sha256_hex button' ctx w1 = (Returned (Some shown), w1))
  /\ (check = false -> hidden (requirement button) = true ->
      Button_toJSON sha256_hex button' ctx w1 = (Returned None, w1))
  /\ (check = false -> hidden (requirement button) = false ->
      disable (requirement button) = true ->
      exists t w2,
        Button_toJSON sha256_hex button' ctx w1
        = (Returned (Some {| text := getLabel button ctx +:+ locked_marker;
                             wire_url := None; callback_data := Some t |}), w2)
        /\ (truthy_str (callbackData button) = true ->
            callbackData button = Some t /\ w2 = w1))
  /\ (check = false -> hidden (requirement button) = false ->
      disable (requirement button) = false ->
      Button_toJSON sha256_hex button' ctx w1 = (Returned (Some shown), w1)).
Proof.
  intros Hty H shown.
  assert (Hp : is_placeholder (type button) = false)
    by (destruct (type button) eqn:Ety; simpl; congruence).
  unfold Button_evaluateRequirement in H. rewrite Hp in H.
  unfold bind, emit, modify, call_user, ret in H. simpl in H.
  destruct (require (requirement button) ctx (world_user w)) as [[c|e] u1];
    [|discriminate H].
  injection H as -> <- <-.
  unfold Button_toJSON, getLabel. simpl. rewrite Hp.
  split; [|split; [|split]].
  - intros ->. reflexivity.
  - intros -> ->. reflexivity.
  - intros -> -> ->. simpl.
    destruct (truthy_str (callbackData button)) eqn:Ht.
    + unfold bind, ret. simpl. eexists _, _. split; [reflexivity|].
      intros _. split; [|reflexivity].
      destruct (callbackData button); [reflexivity|discriminate Ht].
    + destruct (generateCallbackData_run "action"
                  (set_user (push_trace w (EvRequire (callbackData button))) u1))
        as (t & Hg & _).
      unfold bind, ret. rewrite Hg. eexists _, _. split; [reflexivity|].
      intros Habs. discriminate Habs.
  - intros -> -> ->. reflexivity.
Qed.

(** *** Grids *)

Lemma run_ops_order (ops : list (@GridOp U V)) (bm : @ButtonManager U V) :
  extensible bm ->
  exists bm', run_ops ops bm = (Returned tt, bm')
              /\ all_cells (bm_buttons bm') = all_cells (bm_buttons bm) ++ added ops.
Proof.
  revert bm. induction ops as [|op rest IH]; intros bm H.
  - exists bm. split; [reflexivity|]. unfold added. simpl. rewrite app_nil_r. reflexivity.
  - simpl. unfold bind. destruct op as [button|].
    + destruct (addButton_extensible button bm H) as (init & r & Hrows & Hrun & Hext).
      simpl. rewrite Hrun. destruct (IH _ Hext) as (bm' & Hr & Hc).
      exists bm'. split; [exact Hr|]. rewrite Hc. unfold all_cells. simpl. rewrite Hrows.
      rewrite !List.map_app, !concat_app. simpl. rewrite !app_nil_r.
      unfold added. simpl. rewrite <- !app_assoc. reflexivity.
    + destruct (newRow_extensible bm H) as (bm1 & Hrun & Hext & Hbm1).
      simpl. rewrite Hrun. destruct (IH _ Hext) as (bm' & Hr & Hc).
      exists bm'. split; [exact Hr|]. rewrite Hc. f_equal. rewrite Hbm1.
      destruct (match last (bm_buttons bm) with
                | Some r => 0 <? length (cells r)
                | None => false
                end); [|reflexivity].
      unfold all_cells. simpl. rewrite List.map_app, concat_app. simpl.
      rewrite app_nil_r. reflexivity.
Qed.

(** X4. Whatever sequence of [addButton] and [newRow]
    calls is made on a new manager, no call fails, and the buttons of the
    grid, read row after row, are exactly the buttons that were added, in
    the order of the calls: none is lost, repeated or moved. *)
Theorem grid_keeps_order (ops : list (@GridOp U V)) :
  exists bm,
    run_ops ops ButtonManager_new = (Returned tt, bm)
    /\ all_cells (bm_buttons bm) = added ops.
Proof.
  destruct (run_ops_order ops _ (extensible_new (U:=U) (V:=V))) as (bm & Hr & Hc).
  exists bm. split; [exact Hr|exact Hc].
Qed.

Lemma evaluateRequirement_trace (button : @Button U V) ctx (w : @World U) res w' :
  Button_evaluateRequirement button ctx w = (res, w') ->
  world_trace w'
  = world_trace w ++ (if is_placeholder (type button) then []
                      else [EvRequire (callbackData button)])
  /\ world_console w' = world_console w
  /\ world_rng w' = world_rng w /\ world_rng_pos w' = world_rng_pos w.
Proof.
  unfold Button_evaluateRequirement. destruct (is_placeholder (type button)).
  - unfold ret. intros [= <- <-]. rewrite app_nil_r. auto.
  - unfold bind, emit, modify, call_user, ret. simpl.
    destruct (require (requirement button) ctx (world_user w)) as [[c|e] u1];
      intros [= <- <-]; simpl; auto.
Qed.

Lemma evaluateAll_cells_trace (cs : list (@Button U V)) ctx (w : @World U) cs' w' :
  evaluateAll_cells cs ctx w = (Returned tt, cs', w') ->
  world_trace w'
  = world_trace w
    ++ List.map (fun button => EvRequire (callbackData button))
         (List.filter (fun button => negb (is_placeholder (type button))) cs)
  /\ Forall2 (fun x y => y = set_flags x (isDisable y) (isHidden y)
                         /\ (is_placeholder (type x) = true -> isHidden y = true)) cs cs'.
Proof.
  revert w cs' w'. induction cs as [|button rest IH]; intros w cs' w'; simpl.
  - intros [= <- <-]. rewrite app_nil_r. split; [reflexivity|constructor].
  - destruct (Button_evaluateRequirement button ctx w) as [[[c button']|e] w1] eqn:Hb;
      [|discriminate].
    destruct (evaluateAll_cells rest ctx w1) as [[r rest'] w2] eqn:Hrest.
    intros [= -> <- <-]. destruct (IH _ _ _ Hrest) as (Ht & Hf).
    destruct (evaluateRequirement_trace _ _ _ _ _ Hb) as (Ht1 & _).
    split.
    + rewrite Ht, Ht1. destruct (is_placeholder (type button)); simpl.
      * rewrite app_nil_r. reflexivity.
      * rewrite <- app_assoc. reflexivity.
    + constructor; [|exact Hf]. unfold Button_evaluateRequirement in Hb.
      destruct (is_placeholder (type button)).
      * unfold ret in Hb. injection Hb as _ <- _. split; [reflexivity|]. reflexivity.
      * unfold bind, emit, modify, call_user, ret in Hb. simpl in Hb.
        destruct (require (requirement button) ctx (world_user w)) as [[c0|e] u1];
          [|discriminate Hb].
        injection Hb as _ <- _. split; [reflexivity|discriminate].
Qed.

(** X5. When [evaluateAll] returns, it has
    called the predicate of every element that is not a placeholder exactly
    once, row after row and left to right, and no other callback. The grid
    keeps its rows and its elements: only their flags are new, and every
    placeholder is hidden. *)
Theorem evaluateAll_visits_in_order (bm bm' : @ButtonManager U V) ctx (w w' : @World U) :
  evaluateAll ctx (bm, w) = (Returned tt, (bm', w')) ->
  world_trace w'
  = world_trace w
    ++ List.map (fun button => EvRequire (callbackData button))
         (List.filter (fun button => negb (is_placeholder (type button)))
                      (all_cells (bm_buttons bm)))
  /\ Forall2 (fun r r' =>
                row_frozen r' = row_frozen r
                /\ Forall2 (fun x y => y = set_flags x (isDisable y) (isHidden y)
                                       /\ (is_placeholder (type x) = true ->
                                           isHidden y = true))
                           (cells r) (cells r'))
             (bm_buttons bm) (bm_buttons bm').
Proof.
  unfold evaluateAll.
  destruct (evaluateAll_rows (bm_buttons bm) ctx w) as [[r rows'] w1] eqn:H.
  intros [= -> <- <-]. simpl.
  revert w rows' w1 H. generalize (bm_buttons bm) as l.
  induction l as [|row rest IH]; intros w rows' w1; simpl.
  - intros [= <- <-]. rewrite app_nil_r. split; [reflexivity|constructor].
  - destruct (evaluateAll_cells (cells row) ctx w) as [[[[]|e] cs'] w2] eqn:Hrow;
      [|discriminate].
    destruct (evaluateAll_rows rest ctx w2) as [[r rest'] w3] eqn:Hrest.
    intros [= -> <- <-]. destruct (IH _ _ _ Hrest) as (Ht & Hf).
    destruct (evaluateAll_cells_trace _ _ _ _ _ Hrow) as (Ht1 & Hf1).
    split.
    + rewrite Ht, Ht1. unfold all_cells. simpl.
      rewrite List.filter_app, List.map_app, <- app_assoc. reflexivity.
    + constructor; [|exact Hf]. split; [reflexivity|exact Hf1].
Qed.

(** *** Serialization *)





Lemma bind_returned {S A B : Type} (c : M S A) (k : A -> M S B) x a x' :
  c x = (Returned a, x') -> bind c k x = k a x'.
Proof. intros H. unfold bind. rewrite H. reflexivity. Qed.

Lemma bind_thrown {S A B : Type} (c : M S A) (k : A -> M S B) x e x' :
  c x = (Thrown e, x') -> bind c k x = (Thrown e, x').
Proof. intros H. unfold bind. rewrite H. reflexivity. Qed.

Lemma try_catch_returned {S A : Type} (c : M S A) h x a x' :
  c x = (Returned a, x') -> try_catch c h x = (Returned a, x').
Proof. intros H. unfold try_catch. rewrite H. reflexivity. Qed.

Lemma try_catch_thrown {S A : Type} (c : M S A) h x e x' :
  c x = (Thrown e, x') -> try_catch c h x = h e x'.
Proof. intros H. unfold try_catch. rewrite H. reflexivity. Qed.

Lemma lift_s_run {A : Type} (c : M (@State U V) A) b r s' :
  c (bot_state b) = (r, s') ->
  lift_s c b = (r, {| bot_state := s'; bot_effects := bot_effects b |}).
Proof. intros H. unfold lift_s. rewrite H. reflexivity. Qed.

Lemma send_edit_run this tg method chat mid fmt markup b m :
  st_heap (bot_state b) !! this = Some m ->
  let s := bot_state b in
  let req := {| edit_chat := chat; edit_message := mid;
                edit_caption := caption_value m (st_mm s);
                parse_mode := fmt; reply_markup := markup |} in
  send_edit this tg method chat mid fmt markup b
  = let '(o, u') := run_method tg method req (world_user (st_world s)) in
    (o, with_effects b (with_world s (set_user (st_world s) u')) [Called method req]).
Proof.
  intros Hm s req. subst s req. destruct b as [s eff]. simpl in *.
  unfold send_edit, Menu_caption, call_edit, effect, lift_s, lift_w,
    read_menu, getContext, getPayload, call_user, bind, gets, modify, ret. simpl.
  rewrite Hm. unfold caption_value, with_effects, with_world.
  destruct (_caption m) as [[t|f]|]; simpl;
    destruct method; simpl;
    match goal with |- context [?f ?r (world_user ?w)] =>
      destruct (f r (world_user w)) as [o u'] end; reflexivity.
Qed.

Lemma evaluate_frame this s m :
  st_heap s !! this = Some m ->
  exists r t w1, Menu_evaluate sha256_hex this s = (r, rendered s this m t w1).
Proof.
  intros Hm. pose proof (lookup_lt_Some _ _ _ Hm) as Hlt.
  unfold Menu_evaluate, read_menu, write_menu, getContext, getPayload,
    lift_w, bind, modify, gets. rewrite Hm. simpl.
  destruct (run_generators _ _ _ _ _ _) as [[gc|e] w1].
  2:{ eexists _, _, _. reflexivity. }
  simpl. unfold on_temporary, lift_obj. simpl.
  rewrite list_lookup_insert_eq by exact Hlt. simpl.
  destruct (merge_rows gc _ _) as [[[]|e] merged]; simpl.
  2:{ eexists _, _, _. unfold rendered. rewrite list_insert_insert_eq. reflexivity. }
  rewrite list_lookup_insert_eq by (rewrite length_insert; exact Hlt). simpl.
  unfold evaluateAll.
  destruct (evaluateAll_rows _ _ _) as [[r rows'] w2].
  eexists _, _, _. unfold rendered. simpl. rewrite !list_insert_insert_eq. reflexivity.
Qed.

Lemma evaluate_dangling this s :
  st_heap s !! this = None ->
  Menu_evaluate sha256_hex this s = (Thrown no_such_object, s).
Proof.
  intros Hm. unfold Menu_evaluate, read_menu, bind. rewrite Hm. reflexivity.
Qed.

Lemma update_start this b :
  Menu_update sha256_hex telegram_of this b
  = let s := bot_state b in
    let ctx := _context (st_mm s) in
    match Menu_evaluate sha256_hex this s with
    | (Thrown e, s1) =>
        (Returned tt,
         with_effects b s1 [ErrorLine "Error updating menu:" (Some (message_of e))])
    | (Returned _, s1) =>
        try_catch
          (match chat_id ctx, telegram_of ctx with
           | Some chat, Some tg =>
               let! messageId := lift_s getCurrentMessageId in
               if negb (truthy_num messageId) then
                 effect (ErrorLine "No message ID available for update" None)
               else
                 let! mediaType := lift_s getMediaType in
                 let! format := lift_s (Menu_format this) in
                 let! markup := lift_s (Menu_toJSON sha256_hex this (Some ctx)) in
                 let first := if String.eqb mediaType "media"
                              then EditMessageCaption else EditMessageText in
                 try_catch
                   (send_edit this tg first chat (default 0%N messageId) format markup)
                   (fun editError =>
                      try_catch
                        (send_edit this tg (other_method first) chat
                                   (default 0%N messageId) format markup)
                        (fun altError =>
                           effect (ErrorLine "Both update methods failed:"
                                             (Some (message_of altError)))))
           | _, _ => effect (ErrorLine "Invalid context for menu update" None)
           end)
          (fun error => effect (ErrorLine "Error updating menu:" (Some (message_of error))))
          {| bot_state := s1; bot_effects := bot_effects b |}
    end.
Proof.
  destruct b as [s eff]. unfold Menu_update. unfold bind at 1.
  unfold lift_s at 1. unfold getContext at 1, gets at 1. simpl.
  unfold try_catch at 1. unfold bind at 1. unfold lift_s at 1. simpl.
  destruct (Menu_evaluate sha256_hex this s) as [[[]|e] s1]; simpl.
  - unfold try_catch at 3. reflexivity.
  - reflexivity.
Qed.

Lemma update_evaluation_failed this b e s1 :
  Menu_evaluate sha256_hex this (bot_state b) = (Thrown e, s1) ->
  Menu_update sha256_hex telegram_of this b
  = (Returned tt,
     with_effects b s1 [ErrorLine "Error updating menu:" (Some (message_of e))]).
Proof. intros H. rewrite update_start. cbv zeta. rewrite H. reflexivity. Qed.

Lemma update_invalid_context this b s1 :
  Menu_evaluate sha256_hex this (bot_state b) = (Returned tt, s1) ->
  chat_id (_context (st_mm (bot_state b))) = None
  \/ telegram_of (_context (st_mm (bot_state b))) = None ->
  Menu_update sha256_hex telegram_of this b
  = (Returned tt, with_effects b s1 [ErrorLine "Invalid context for menu update" None]).
Proof.
  intros H Hc. rewrite update_start. cbv zeta. rewrite H.
  destruct (chat_id _) as [chat|]; [|reflexivity].
  destruct Hc as [Hc| ->]; [discriminate|reflexivity].
Qed.

Lemma evaluate_keeps_mm this s r s1 :
  Menu_evaluate sha256_hex this s = (r, s1) -> st_mm s1 = st_mm s.
Proof.
  intros H. pose proof (keeps_evaluate sha256_hex this s) as Hk.
  rewrite H in Hk. exact Hk.
Qed.

Lemma update_no_message this b s1 chat tg :
  Menu_evaluate sha256_hex this (bot_state b) = (Returned tt, s1) ->
  chat_id (_context (st_mm (bot_state b))) = Some chat ->
  telegram_of (_context (st_mm (bot_state b))) = Some tg ->
  truthy_num (_currentMessageId (st_mm (bot_state b))) = false ->
  Menu_update sha256_hex telegram_of this b
  = (Returned tt,
     with_effects b s1 [ErrorLine "No message ID available for update" None]).
Proof.
  intros H Hc Ht Hid. rewrite update_start. cbv zeta. rewrite H, Hc, Ht.
  unfold try_catch, bind, lift_s, getCurrentMessageId, gets. simpl.
  rewrite (evaluate_keeps_mm _ _ _ _ H), Hid. reflexivity.
Qed.

Lemma Menu_format_rendered this s m t w :
  st_heap s !! this = Some m ->
  Menu_format this (rendered s this m t w) = (Returned (_format m), rendered s this m t w).
Proof.
  intros Hm. pose proof (lookup_lt_Some _ _ _ Hm) as Hlt.
  unfold Menu_format, read_menu, bind, ret. simpl.
  rewrite list_lookup_insert_eq by exact Hlt. reflexivity.
Qed.

Lemma update_edits this b m s1 chat tg mid :
  st_heap (bot_state b) !! this = Some m ->
  Menu_evaluate sha256_hex this (bot_state b) = (Returned tt, s1) ->
  chat_id (_context (st_mm (bot_state b))) = Some chat ->
  telegram_of (_context (st_mm (bot_state b))) = Some tg ->
  _currentMessageId (st_mm (bot_state b)) = Some mid -> mid <> 0%N ->
  let s := bot_state b in
  exists markup s2,
    Menu_toJSON sha256_hex this (Some (_context (st_mm s))) s1 = (Returned markup, s2)
    /\ let req := {| edit_chat := chat; edit_message := mid;
                     edit_caption := caption_value m (st_mm s);
                     parse_mode := _format m; reply_markup := markup |} in
       let first := first_method (_mediaType (st_mm s)) in
       Menu_update sha256_hex telegram_of this b
       = match run_method tg first req (world_user (st_world s2)) with
         | (Returned _, u1) =>
             (Returned tt,
              with_effects b (with_world s2 (set_user (st_world s2) u1))
                           [Called first req])
         | (Thrown _, u1) =>
             match run_method tg (other_method first) req u1 with
             | (Returned _, u2) =>
                 (Returned tt,
                  with_effects b (with_world s2 (set_user (st_world s2) u2))
                               [Called first req; Called (other_method first) req])
             | (Thrown altError, u2) =>
                 (Returned tt,
                  with_effects b (with_world s2 (set_user (st_world s2) u2))
                               [Called first req; Called (other_method first) req;
                                ErrorLine "Both update methods failed:"
                                          (Some (message_of altError))])
             end
         end.
Proof.
  intros Hm H Hc Ht Hid Hnz s.
  destruct (evaluate_frame this (bot_state b) m Hm) as (r & t & w1 & He).
  fold s in He, H. rewrite He in H. injection H as -> <-.
  destruct (toJSON_rows_nonempty sha256_hex t (_context (st_mm s)) w1)
    as (markup & w2 & Hj & _).
  exists markup, (rendered s this m t w2). split.
  { rewrite (Menu_toJSON_rendered sha256_hex this s m t w1 _ Hm). simpl.
    rewrite Hj. reflexivity. }
  intros req first. rewrite update_start. cbv zeta. fold s. rewrite He.
  fold s in Hc, Ht, Hid. rewrite Hc, Ht.
  pose proof (lookup_lt_Some _ _ _ Hm) as Hlt.
  set (b1 := {| bot_state := rendered s this m t w1; bot_effects := bot_effects b |}).
  set (b2 := {| bot_state := rendered s this m t w2; bot_effects := bot_effects b |}).
  assert (Hz : negb (truthy_num (Some mid)) = false).
  { unfold truthy_num. rewrite (proj2 (N.eqb_neq _ _) Hnz). reflexivity. }
  assert (Hsend : forall method eff u,
    send_edit this tg method chat mid (_format m) markup
      {| bot_state := with_world (rendered s this m t w2) (set_user w2 u);
         bot_effects := eff |}
    = let '(o, u') := run_method tg method req u in
      (o, {| bot_state := with_world (rendered s this m t w2) (set_user w2 u');
             bot_effects := eff ++ [Called method req] |})).
  { intros method eff u.
    rewrite (send_edit_run this tg method chat mid (_format m) markup _
               (set_temporary m (Some t))).
    - reflexivity.
    - simpl. apply list_lookup_insert_eq, Hlt. }
  assert (Hb2 : b2 = {| bot_state := with_world (rendered s this m t w2)
                                      (set_user w2 (world_user w2));
                        bot_effects := bot_effects b |}).
  { unfold b2, with_world, rendered, set_user. destruct w2. reflexivity. }
  match goal with |- try_catch ?c ?h b1 = ?rhs => assert (Hbody : c b1 = rhs) end.
  2:{ unfold try_catch at 1. rewrite Hbody.
      destruct (run_method tg first req _) as [[[]|e1] u1]; [reflexivity|].
      destruct (run_method tg (other_method first) req u1) as [[[]|e2] u2];
        reflexivity. }
  rewrite (bind_returned _ _ b1 (Some mid) b1)
    by (apply (lift_s_run getCurrentMessageId b1); unfold getCurrentMessageId, gets;
        simpl; rewrite Hid; reflexivity).
  rewrite Hz.
  rewrite (bind_returned _ _ b1 (_mediaType (st_mm s)) b1)
    by (apply (lift_s_run getMediaType b1); reflexivity).
  rewrite (bind_returned _ _ b1 (_format m) b1)
    by (apply (lift_s_run (Menu_format this) b1); apply Menu_format_rendered, Hm).
  rewrite (bind_returned _ _ b1 markup b2).
  2:{ apply (lift_s_run (Menu_toJSON sha256_hex this _) b1). simpl.
      rewrite (Menu_toJSON_rendered sha256_hex this s m t w1 _ Hm). simpl.
      rewrite Hj. reflexivity. }
  change (if String.eqb (_mediaType (st_mm s)) "media"
          then EditMessageCaption else EditMessageText) with first.
  change (default 0%N (Some mid)) with mid.
  rewrite Hb2. unfold try_catch at 1. rewrite Hsend.
  change (st_world (rendered s this m t w2)) with w2.
  destruct (run_method tg first req (world_user w2)) as [[[]|e1] u1]; [reflexivity|].
  unfold try_catch at 1. rewrite Hsend.
  destruct (run_method tg (other_method first) req u1) as [[[]|e2] u2].
  - unfold with_effects. rewrite <- app_assoc. reflexivity.
  - unfold effect, modify, with_effects. simpl. rewrite <- !app_assoc. reflexivity.
Qed.

(** *** Navigation *)

Lemma nav_start (menuId : option string) (payload : option (@Payload V)) b :
  Menu_nav sha256_hex telegram_of menuId payload b
  = match get_property (_menus (st_mm (bot_state b))) (default "null" menuId) with
    | None =>
        (Thrown (Error ("Menu with ID " +:+ default "null" menuId +:+ " does not exist.")),
         b)
    | Some (OwnMenu a) =>
        Menu_update sha256_hex telegram_of a
          {| bot_state := with_payload (bot_state b) (default None payload);
             bot_effects := bot_effects b |}
    | Some (Inherited _) =>
        (Thrown (TypeError "menu.update is not a function"),
         {| bot_state := with_payload (bot_state b) (default None payload);
            bot_effects := bot_effects b |})
    end.
Proof.
  destruct b as [s eff]. unfold Menu_nav, getMenuById, setPayload, lift_s, bind, gets,
    modify, throw, ret. simpl.
  destruct (get_property (_menus (st_mm s)) (default "null" menuId)) as [[a|name]|];
    reflexivity.
Qed.

Lemma update_summary this b :
  exists b' new,
    Menu_update sha256_hex telegram_of this b = (Returned tt, b')
    /\ bot_effects b' = bot_effects b ++ new
    /\ 1 <= length new <= 3
    /\ st_mm (bot_state b') = st_mm (bot_state b)
    /\ (forall a, a <> this ->
          st_heap (bot_state b') !! a = st_heap (bot_state b) !! a)
    /\ (forall method req m,
          In (Called method req) new ->
          st_heap (bot_state b) !! this = Some m ->
          edit_caption req = caption_value m (st_mm (bot_state b))
          /\ parse_mode req = _format m
          /\ chat_id (_context (st_mm (bot_state b))) = Some (edit_chat req)
          /\ _currentMessageId (st_mm (bot_state b)) = Some (edit_message req)).
Proof.
  set (s := bot_state b).
  destruct (st_heap s !! this) as [m|] eqn:Hm.
  2:{ eexists _, _.
      split; [apply update_evaluation_failed, evaluate_dangling, Hm|].
      split; [reflexivity|]. split; [simpl; lia|]. split; [reflexivity|].
      split; [reflexivity|]. intros method req m [Hin|[]]. discriminate Hin. }
  destruct (evaluate_frame this s m Hm) as (r & t & w1 & He).
  assert (Hheap : forall w a, a <> this ->
            st_heap (rendered s this m t w) !! a = st_heap s !! a).
  { intros w a Hne. simpl. apply list_lookup_insert_ne. congruence. }
  destruct r as [[]|e].
  2:{ eexists _, _. split; [apply update_evaluation_failed, He|].
      split; [reflexivity|]. split; [simpl; lia|]. split; [reflexivity|].
      split; [apply Hheap|]. intros method req m0 [Hin|[]]. discriminate Hin. }
  destruct (chat_id (_context (st_mm s))) as [chat|] eqn:Hc.
  2:{ eexists _, _. split; [apply (update_invalid_context _ _ _ He); left; exact Hc|].
      split; [reflexivity|]. split; [simpl; lia|]. split; [reflexivity|].
      split; [apply Hheap|]. intros method req m0 [Hin|[]]. discriminate Hin. }
  destruct (telegram_of (_context (st_mm s))) as [tg|] eqn:Ht.
  2:{ eexists _, _. split; [apply (update_invalid_context _ _ _ He); right; exact Ht|].
      split; [reflexivity|]. split; [simpl; lia|]. split; [reflexivity|].
      split; [apply Hheap|]. intros method req m0 [Hin|[]]. discriminate Hin. }
  destruct (truthy_num (_currentMessageId (st_mm s))) eqn:Hid.
  2:{ eexists _, _. split; [apply (update_no_message _ _ _ _ _ He Hc Ht Hid)|].
      split; [reflexivity|]. split; [simpl; lia|]. split; [reflexivity|].
      split; [apply Hheap|]. intros method req m0 [Hin|[]]. discriminate Hin. }
  destruct (_currentMessageId (st_mm s)) as [mid|] eqn:Hmid; [|discriminate Hid].
  assert (Hnz : mid <> 0%N).
  { intros ->. discriminate Hid. }
  destruct (update_edits this b m _ chat tg mid Hm He Hc Ht Hmid Hnz)
    as (markup & s2 & Hj & Hu).
  rewrite (Menu_toJSON_rendered sha256_hex this s m t w1 _ Hm) in Hj.
  destruct (ButtonManager_toJSON sha256_hex t _ w1) as [res w2].
  injection Hj as -> <-. cbv zeta in Hu. fold s in Hu.
  set (req := {| edit_chat := chat |}) in Hu.
  assert (Hreq : forall method req' m0,
            In (Called method req') [Called (first_method (_mediaType (st_mm s))) req;
                                     Called (other_method
                                               (first_method (_mediaType (st_mm s)))) req] ->
            Some m = Some m0 ->
            edit_caption req' = caption_value m0 (st_mm s)
            /\ parse_mode req' = _format m0
            /\ Some chat = Some (edit_chat req')
            /\ Some mid = Some (edit_message req')).
  { intros method req' m0 Hin [= <-].
    assert (req' = req) as ->.
    { destruct Hin as [Hin|[Hin|[]]]; injection Hin as _ <-; reflexivity. }
    repeat split. }
  destruct (run_method tg _ req _) as [[[]|e1] u1].
  - eexists _, _. split; [exact Hu|]. split; [reflexivity|]. split; [simpl; lia|].
    split; [reflexivity|]. split; [apply Hheap|].
    intros method req' m0 Hin. apply (Hreq method). simpl in *. tauto.
  - destruct (run_method tg _ req u1) as [[[]|e2] u2].
    + eexists _, _. split; [exact Hu|]. split; [reflexivity|]. split; [simpl; lia|].
      split; [reflexivity|]. split; [apply Hheap|].
      intros method req' m0 Hin. apply (Hreq method). exact Hin.
    + eexists _, _. split; [exact Hu|]. split; [reflexivity|]. split; [simpl; lia|].
      split; [reflexivity|]. split; [apply Hheap|].
      intros method req' m0 Hin. apply (Hreq method).
      simpl in Hin. destruct Hin as [Hin|[Hin|[Hin|[]]]];
        [left; exact Hin|right; left; exact Hin|discriminate Hin].
Qed.




(** X10. [nav] looks the target up before it stores the
    payload. For an id that names nothing it throws the error of the lookup
    and changes nothing: the payload of the previous navigation stays. For a
    name that the registry object inherits, the lookup succeeds, the payload
    is overwritten, and the call of [update] on the inherited value throws a
    TypeError. A [null] id is looked up as the key ["null"]. *)
Theorem nav_unknown_menu (menuId : option string) (payload : option (@Payload V)) b :
  let key := default "null" menuId in
  (get_property (_menus (st_mm (bot_state b))) key = None ->
   Menu_nav sha256_hex telegram_of menuId payload b
   = (Thrown (Error ("Menu with ID " +:+ key +:+ " does not exist.")), b))
  /\ (get_own (_menus (st_mm (bot_state b))) key = None ->
      key ∈ object_prototype_keys ->
      Menu_nav sha256_hex telegram_of menuId payload b
      = (Thrown (TypeError "menu.update is not a function"),
         {| bot_state := with_payload (bot_state b) (default None payload);
            bot_effects := bot_effects b |})).
Proof.
  intros key. split.
  - intros H. rewrite nav_start. fold key. rewrite H. reflexivity.
  - intros H Hin. rewrite nav_start. fold key. unfold get_property. rewrite H.
    rewrite bool_decide_eq_true_2 by exact Hin. reflexivity.
Qed.


(** *** The api object *)

Lemma register_run this sub s parent m :
  st_heap s !! this = Some parent -> st_heap s !! sub = Some m ->
  Menu_register this sub s
  = if menu_frozen m
    then (Thrown read_only_parent, s)
    else registerMenu sub
           (with_heap s (<[sub := set_parent m (Some (menuId parent))]> (st_heap s))).
Proof.
  intros Hp Hm. unfold Menu_register, read_menu, write_menu, bind, modify, throw.
  rewrite Hp, Hm. destruct (menu_frozen m) eqn:Hf; [reflexivity|].
  unfold with_heap, set_parent. rewrite Hf. reflexivity.
Qed.

Lemma register_sets_parent this sub s parent s' :
  st_heap s !! this = Some parent ->
  Menu_register this sub s = (Returned tt, s') ->
  exists m m',
    st_heap s !! sub = Some m /\ menu_frozen m = false
    /\ st_heap s' !! sub = Some m'
    /\ parentMenuId m' = Some (menuId parent) /\ menuId m' = menuId m.
Proof.
  intros Hp H. destruct (st_heap s !! sub) as [m|] eqn:Hm.
  2:{ unfold Menu_register, read_menu, bind in H. rewrite Hp, Hm in H. discriminate H. }
  rewrite (register_run this sub s parent m Hp Hm) in H.
  destruct (menu_frozen m) eqn:Hf; [discriminate H|].
  exists m. pose proof (lookup_lt_Some _ _ _ Hm) as Hlt.
  set (s1 := with_heap s _) in H.
  assert (H1 : st_heap s1 !! sub = Some (set_parent m (Some (menuId parent))))
    by (apply list_lookup_insert_eq, Hlt).
  destruct (get_property (_menus (st_mm s1)) (menuId m)) as [x|] eqn:Hx.
  - rewrite (registerMenu_ignored sub s1 _ H1) in H
      by (change (is_Some (get_property (_menus (st_mm s1)) (menuId m)));
          rewrite Hx; eauto).
    injection H as <-. eexists. split; [reflexivity|]. split; [exact Hf|].
    split; [exact H1|]. split; reflexivity.
  - destruct (registerMenu_appends sub s1 _ H1 Hx) as (s2 & Hr & _ & Hheap & _).
    rewrite Hr in H. injection H as <-. eexists. split; [reflexivity|].
    split; [exact Hf|]. rewrite Hheap. split.
    + apply list_lookup_insert_eq. unfold s1. simpl. rewrite length_insert. exact Hlt.
    + split; reflexivity.
Qed.

(** X12. [register] and the [back] of the
    api agree: after [parent.register(sub)] has returned, [back()] without a
    menu id, on an api bound to [sub], is [nav] to the id of [parent], with
    the payload it is given; with a menu id it is [nav] to that id. *)
Theorem back_goes_to_registering_menu this sub s parent s' :
  st_heap s !! this = Some parent ->
  Menu_register this sub s = (Returned tt, s') ->
  forall eff (menuId' : option string) (payload : option (@Payload V)),
    api_back sha256_hex telegram_of {| api_menu := sub |} menuId' payload
             {| bot_state := s'; bot_effects := eff |}
    = Menu_nav sha256_hex telegram_of
        (if truthy_str menuId' then menuId' else Some (menuId parent)) payload
        {| bot_state := s'; bot_effects := eff |}.
Proof.
  intros Hp H eff menuId' payload.
  destruct (register_sets_parent this sub s parent s' Hp H)
    as (m & m' & _ & _ & Hm' & Hpar & _).
  unfold api_back. simpl api_menu. unfold bind at 1, lift_s at 1, read_menu at 1. simpl.
  rewrite Hm', Hpar. reflexivity.
Qed.

(** X13. [back()] without a menu id on an api whose
    menu has no parent navigates to [null]: unless a menu is registered
    under the id ["null"], it throws the error of the lookup, and neither
    the payload nor anything else changes. *)
Theorem back_without_parent api (menuId' : option string) (payload : option (@Payload V)) b m :
  st_heap (bot_state b) !! api_menu api = Some m ->
  parentMenuId m = None ->
  truthy_str menuId' = false ->
  get_property (_menus (st_mm (bot_state b))) "null" = None ->
  api_back sha256_hex telegram_of api menuId' payload b
  = (Thrown (Error "Menu with ID null does not exist."), b).
Proof.
  intros Hm Hpar Hid Hnull. destruct b as [s eff]. simpl in *.
  unfold api_back. unfold bind at 1, lift_s at 1, read_menu at 1. simpl.
  rewrite Hm, Hid, Hpar. rewrite nav_start. simpl. rewrite Hnull. reflexivity.
Qed.

(** *** The caption *)

(** X14. The getters read back what [setCaption] stored:
    a text caption as it is, a caption function applied to the context and
    the payload the registry holds at the time of the reading, and the
    format, which is ["Markdown"] when the caller gave none. A menu on which
    [setCaption] was never called has neither caption nor format. *)
Theorem caption_round_trip :
  (forall this s m (cap : @Caption V) fmt,
     st_heap s !! this = Some m ->
     exists s',
       on_menu this (lift_obj (Menu_setCaption cap fmt)) s = (Returned tt, s')
       /\ st_mm s' = st_mm s
       /\ (forall mm w,
             let s'' := {| st_world := w; st_heap := st_heap s'; st_mm := mm |} in
             Menu_caption this s''
             = (Returned (Some match cap with
                               | CaptionText t => t
                               | CaptionFn f => f (_context mm) (_payload mm)
                               end), s'')
             /\ Menu_format this s'' = (Returned (Some (default "Markdown" fmt)), s'')))
  /\ (forall id (s : @State U V) a s',
        Menu_alloc id s = (Returned a, s') ->
        Menu_caption a s' = (Returned None, s')
        /\ Menu_format a s' = (Returned None, s')).
Proof.
  split.
  - intros this s m cap fmt Hm. pose proof (lookup_lt_Some _ _ _ Hm) as Hlt.
    unfold on_menu, lift_obj, Menu_setCaption, modify. rewrite Hm. simpl.
    eexists. split; [reflexivity|]. split; [reflexivity|]. intros mm w. simpl.
    unfold Menu_caption, Menu_format, read_menu, getContext, getPayload, bind, gets, ret.
    simpl. rewrite list_lookup_insert_eq by exact Hlt. simpl.
    destruct cap; split; reflexivity.
  - intros id s a s' H. unfold Menu_alloc in H.
    destruct (Menu_new id) as [m|e] eqn:Hn; [|discriminate H].
    injection H as <- <-. unfold Menu_new in Hn.
    destruct (negb (truthy_str id)); [discriminate Hn|]. injection Hn as <-.
    unfold Menu_caption, Menu_format, read_menu, bind, ret. simpl.
    rewrite lookup_app_r by lia. rewrite Nat.sub_diag. simpl. split; reflexivity.
Qed.

(** *** The registry *)

Lemma maintains_bind (P : JsObject -> Prop) {A B : Type}
    (c : M (@State U V) A) (k : A -> M (@State U V) B) :
  maintains P c -> (forall a, maintains P (k a)) -> maintains P (bind c k).
Proof.
  intros Hc Hk s HP. unfold bind. specialize (Hc s HP).
  destruct (c s) as [[a|e] s1]; simpl in *; [|exact Hc]. apply Hk, Hc.
Qed.

Lemma maintains_keeps (P : JsObject -> Prop) {A : Type} (c : M (@State U V) A) :
  keeps_registry c -> maintains P c.
Proof. intros Hk s HP. rewrite (Hk s). exact HP. Qed.

Lemma maintains_registerMenu (P : JsObject -> Prop) a :
  survives_growth P -> maintains P (@registerMenu U V a).
Proof.
  intros Hg s HP. unfold registerMenu, read_menu, write_menu, bind, gets, modify.
  destruct (st_heap s !! a) as [m|]; [|exact HP]. simpl.
  destruct (get_property (_menus (st_mm s)) (menuId m)) eqn:Hp; [exact HP|].
  simpl. apply Hg; assumption.
Qed.

Lemma maintains_register (P : JsObject -> Prop) this sub :
  survives_growth P -> maintains P (@Menu_register U V this sub).
Proof.
  intros Hg. unfold Menu_register.
  apply maintains_bind; [apply maintains_keeps, keeps_read_menu|]. intros parent.
  apply maintains_bind; [apply maintains_keeps, keeps_read_menu|]. intros m.
  destruct (menu_frozen m); [apply maintains_keeps, keeps_throw|].
  apply maintains_bind; [apply maintains_keeps, keeps_write_menu|]. intros _.
  apply maintains_registerMenu, Hg.
Qed.

Lemma maintains_middleware (P : JsObject -> Prop) this ctx :
  survives_growth P -> maintains P (@Menu_middleware U V sha256_hex this ctx).
Proof.
  intros Hg. unfold Menu_middleware.
  apply maintains_bind; [apply maintains_registerMenu, Hg|]. intros _.
  apply maintains_bind.
  { apply maintains_keeps. intros s. unfold message_id_of.
    destruct (callbackQuery ctx) as [q|]; [|reflexivity].
    destruct (message q); reflexivity. }
  intros mid. apply maintains_bind.
  { intros s HP. exact HP. }
  intros ctx'. apply maintains_bind; [apply maintains_keeps, keeps_evaluate|].
  intros _. apply maintains_keeps, (keeps_routing this ctx').
Qed.

Lemma lookup_survives id x :
  survives_growth (fun o => get_property o id = Some x).
Proof.
  intros o id' a HP Hnone. unfold get_property in *. rewrite get_own_snoc.
  destruct (get_own o id) as [a0|]; [exact HP|].
  destruct (String.eqb id' id) eqn:He; [|exact HP].
  apply String.eqb_eq in He. subst id'. destruct (get_own o id); congruence.
Qed.

(** X15. The registry only grows. Once a lookup of
    an id finds a value, every later lookup of that id finds the same value,
    whatever is registered afterwards and whichever of [registerMenu],
    [register], the middleware, [update] and [nav] runs, and whether it
    returns or throws: no menu is ever removed or replaced. *)
Theorem registry_never_forgets id x (s : @State U V) :
  get_property (_menus (st_mm s)) id = Some x ->
  (forall a, fst (getMenuById id (snd (registerMenu a s))) = Returned x)
  /\ (forall this sub, fst (getMenuById id (snd (Menu_register this sub s))) = Returned x)
  /\ (forall this ctx,
        fst (getMenuById id (snd (Menu_middleware sha256_hex this ctx s))) = Returned x)
  /\ (forall this eff,
        fst (getMenuById id
               (bot_state (snd (Menu_update sha256_hex telegram_of this
                                  {| bot_state := s; bot_effects := eff |}))))
        = Returned x)
  /\ (forall target payload eff,
        fst (getMenuById id
               (bot_state (snd (Menu_nav sha256_hex telegram_of target payload
                                  {| bot_state := s; bot_effects := eff |}))))
        = Returned x).
Proof.
  intros H.
  assert (Hfound : forall s', get_property (_menus (st_mm s')) id = Some x ->
                              fst (getMenuById id s') = Returned x).
  { intros s' Hs'. unfold getMenuById, bind, gets. rewrite Hs'. reflexivity. }
  split; [|split; [|split; [|split]]].
  - intros a. apply Hfound.
    apply (maintains_registerMenu _ a (lookup_survives id x) s H).
  - intros this sub. apply Hfound.
    apply (maintains_register _ this sub (lookup_survives id x) s H).
  - intros this ctx. apply Hfound.
    apply (maintains_middleware _ this ctx (lookup_survives id x) s H).
  - intros this eff. apply Hfound.
    destruct (update_summary this {| bot_state := s; bot_effects := eff |})
      as (b' & new & -> & _ & _ & Hmm & _).
    simpl in *. rewrite Hmm. exact H.
  - intros target payload eff. apply Hfound. rewrite nav_start. simpl.
    destruct (get_property (_menus (st_mm s)) (default "null" target)) as [[a|name]|];
      [|exact H|exact H].
    destruct (update_summary a {| bot_state := with_payload s (default None payload);
                                  bot_effects := eff |})
      as (b' & new & -> & _ & _ & Hmm & _).
    simpl in *. rewrite Hmm. exact H.
Qed.

Lemma get_own_None (o : JsObject) id : get_own o id = None <-> id ∉ List.map fst o.
Proof.
  induction o as [|[k a] o IH]; simpl.
  - split; [intros _ Hin; inversion Hin|reflexivity].
  - destruct (String.eqb k id) eqn:He.
    + apply String.eqb_eq in He. subst k. split; [discriminate|].
      intros Hn. exfalso. apply Hn. left.
    + apply String.eqb_neq in He. rewrite IH. split.
      * intros Hn Hin. apply Hn. inversion Hin; subst; [congruence|assumption].
      * intros Hn Hin. apply Hn. right. exact Hin.
Qed.

Lemma unique_ids_survive : survives_growth (fun o => NoDup (List.map fst o)).
Proof.
  intros o id a HP Hnone. rewrite List.map_app. simpl.
  apply NoDup_app. split; [exact HP|]. split; [|apply NoDup_singleton].
  intros k Hk Hin. apply list_elem_of_singleton in Hin. subst k.
  unfold get_property in Hnone.
  destruct (get_own o id) eqn:Ho; [discriminate|].
  apply get_own_None in Ho. contradiction.
Qed.

Lemma insert_index_perm (x : N * string) l : insert_index x l ≡ₚ x :: l.
Proof.
  induction l as [|y l IH]; simpl; [reflexivity|].
  destruct (fst x <=? fst y)%N; [reflexivity|].
  rewrite IH. apply Permutation_swap.
Qed.

Lemma sorted_keys_perm (l : list (N * string)) : foldr insert_index [] l ≡ₚ l.
Proof.
  induction l as [|x l IH]; simpl; [reflexivity|].
  rewrite insert_index_perm, IH. reflexivity.
Qed.

Lemma tagged_keys (keys : list string) :
  List.map snd (omap tag_index keys) = List.filter is_index keys.
Proof.
  induction keys as [|k keys IH]; simpl; [reflexivity|].
  unfold tag_index, is_index. destruct (array_index k); simpl; [f_equal|]; exact IH.
Qed.

Lemma filter_split {A : Type} (f : A -> bool) (l : list A) :
  List.filter f l ++ List.filter (fun x => negb (f x)) l ≡ₚ l.
Proof.
  induction l as [|x l IH]; simpl; [reflexivity|].
  destruct (f x); simpl.
  - rewrite IH. reflexivity.
  - rewrite <- Permutation_middle, IH. reflexivity.
Qed.

Lemma for_in_keys_perm (o : JsObject) : for_in_keys o ≡ₚ List.map fst o.
Proof.
  unfold for_in_keys. rewrite sorted_keys_perm, tagged_keys. apply filter_split.
Qed.

Lemma insert_index_sorted (x : N * string) l :
  StronglySorted (fun p q => (fst p <= fst q)%N) l ->
  StronglySorted (fun p q => (fst p <= fst q)%N) (insert_index x l).
Proof.
  induction 1 as [|y l Hs IH Hall]; simpl.
  - repeat constructor.
  - destruct (fst x <=? fst y)%N eqn:Hle.
    + apply N.leb_le in Hle. constructor; [constructor; assumption|].
      constructor; [exact Hle|].
      eapply Forall_impl; [exact Hall|]. intros q Hq. simpl in *. lia.
    + apply N.leb_gt in Hle. constructor; [exact IH|].
      rewrite insert_index_perm. constructor; [lia|exact Hall].
Qed.

Lemma sorted_keys_sorted (l : list (N * string)) :
  StronglySorted (fun p q => (fst p <= fst q)%N) (foldr insert_index [] l).
Proof.
  induction l as [|x l IH]; simpl; [constructor|]. apply insert_index_sorted, IH.
Qed.

Lemma tagged_keys_index (keys : list string) :
  Forall (fun p => array_index (snd p) = Some (fst p)) (omap tag_index keys).
Proof.
  induction keys as [|k keys IH]; simpl; [constructor|].
  unfold tag_index at 1. destruct (array_index k) eqn:Hk; simpl; [|exact IH].
  constructor; [exact Hk|exact IH].
Qed.

(** X16. The registry never holds two menus under
    one id: it starts empty, and [registerMenu], [register] and the
    middleware keep its ids distinct, whether they return or throw. The
    loop of the router enumerates exactly the registered ids, so with
    distinct ids it visits every registered menu once. *)
Theorem registry_ids_are_unique :
  NoDup (List.map fst (_menus (@MenuManager_initial V)))
  /\ (forall o : JsObject, for_in_keys o ≡ₚ List.map fst o)
  /\ (forall s : @State U V,
        NoDup (List.map fst (_menus (st_mm s))) ->
        (forall a, NoDup (List.map fst (_menus (st_mm (snd (registerMenu a s))))))
        /\ (forall this sub,
              NoDup (List.map fst (_menus (st_mm (snd (Menu_register this sub s))))))
        /\ (forall this ctx,
              let s' := snd (Menu_middleware sha256_hex this ctx s) in
              NoDup (List.map fst (_menus (st_mm s')))
              /\ NoDup (for_in_keys (_menus (st_mm s'))))).
Proof.
  split; [constructor|]. split; [exact for_in_keys_perm|].
  intros s H. split; [|split].
  - intros a. apply (maintains_registerMenu _ a unique_ids_survive s H).
  - intros this sub. apply (maintains_register _ this sub unique_ids_survive s H).
  - intros this ctx s'.
    assert (Hs' : NoDup (List.map fst (_menus (st_mm s'))))
      by apply (maintains_middleware _ this ctx unique_ids_survive s H).
    split; [exact Hs'|]. rewrite for_in_keys_perm. exact Hs'.
Qed.

(** X17. The order in which the router takes the menus: first
    the ids that are canonical array indices, in ascending numeric order
    (so ["9"] before ["10"]), then all other ids in the order in which they
    were registered. *)
Theorem for_in_order (o : JsObject) :
  exists idx,
    for_in_keys o
    = List.map snd idx ++ List.filter (fun k => negb (is_index k)) (List.map fst o)
    /\ Forall (fun p => array_index (snd p) = Some (fst p)) idx
    /\ StronglySorted (fun p q => (fst p <= fst q)%N) idx
    /\ List.map snd idx ≡ₚ List.filter is_index (List.map fst o).
Proof.
  exists (foldr insert_index [] (omap tag_index (List.map fst o))).
  split; [reflexivity|]. split; [|split].
  - rewrite sorted_keys_perm. apply tagged_keys_index.
  - apply sorted_keys_sorted.
  - rewrite sorted_keys_perm. rewrite tagged_keys. reflexivity.
Qed.

(** X18. [register] makes the receiver the parent of
    the submenu and registers the submenu. Under a free id the submenu is
    stored, frozen, with that parent, and from then on every [register] of
    it, from whichever menu, throws a TypeError and changes nothing: the
    parent of a registered menu never changes. A submenu that is frozen
    already is refused in the same way. When the id is taken, the parent is
    set all the same, and the submenu is neither stored nor frozen. *)
Theorem register_only_once this sub (s : @State U V) parent m :
  st_heap s !! this = Some parent ->
  st_heap s !! sub = Some m ->
  (menu_frozen m = true ->
   Menu_register this sub s = (Thrown read_only_parent, s))
  /\ (menu_frozen m = false ->
      get_property (_menus (st_mm s)) (menuId m) = None ->
      exists s' m',
        Menu_register this sub s = (Returned tt, s')
        /\ get_own (_menus (st_mm s')) (menuId m) = Some sub
        /\ st_heap s' !! sub = Some m'
        /\ parentMenuId m' = Some (menuId parent) /\ menu_frozen m' = true
        /\ forall other, is_Some (st_heap s' !! other) ->
             Menu_register other sub s' = (Thrown read_only_parent, s'))
  /\ (menu_frozen m = false ->
      is_Some (get_property (_menus (st_mm s)) (menuId m)) ->
      Menu_register this sub s
      = (Returned tt,
         with_heap s (<[sub := set_parent m (Some (menuId parent))]> (st_heap s)))).
Proof.
  intros Hp Hm. pose proof (lookup_lt_Some _ _ _ Hm) as Hlt.
  rewrite (register_run this sub s parent m Hp Hm).
  set (s1 := with_heap s _).
  assert (H1 : st_heap s1 !! sub = Some (set_parent m (Some (menuId parent))))
    by (apply list_lookup_insert_eq, Hlt).
  split; [|split].
  - intros ->. reflexivity.
  - intros Hf Hfree. rewrite Hf.
    destruct (registerMenu_appends sub s1 _ H1 Hfree) as (s2 & Hr & Hmenus & Hheap & _).
    assert (H2 : st_heap s2 !! sub
                 = Some (deepFreeze_menu (set_parent m (Some (menuId parent))))).
    { rewrite Hheap. apply list_lookup_insert_eq. unfold s1. simpl.
      rewrite length_insert. exact Hlt. }
    exists s2, (deepFreeze_menu (set_parent m (Some (menuId parent)))).
    split; [exact Hr|]. split.
    { rewrite Hmenus, get_own_snoc. simpl. unfold get_property in Hfree. simpl in Hfree.
      destruct (get_own (_menus (st_mm s)) (menuId m)); [discriminate|].
      rewrite String.eqb_refl. reflexivity. }
    split; [exact H2|]. split; [reflexivity|]. split; [reflexivity|].
    intros other [p2 Hother].
    rewrite (register_run other sub s2 p2 _ Hother H2). reflexivity.
  - intros Hf Htaken. rewrite Hf.
    apply (registerMenu_ignored sub s1 _ H1). exact Htaken.
Qed.

(** *** The middleware *)

Lemma middleware_start this ctx (s : @State U V) s1 mid :
  registerMenu this s = (Returned tt, s1) ->
  message_id_of (U:=U) (V:=V) ctx s1 = (Returned mid, s1) ->
  Menu_middleware sha256_hex this ctx s
  = match Menu_evaluate sha256_hex this (snd (setContext ctx mid None s1)) with
    | (Thrown e, s3) => (Thrown e, s3)
    | (Returned _, s3) =>
        if negb (truthy_str (token_of ctx))
        then (Returned tt, with_world s3 (push_trace (st_world s3) EvNext))
        else
          (let! found := find_button (default "" (token_of ctx)) in
           let! _ :=
             match found with
             | Some (foundMenu, r, c, foundButton) =>
                 let menuApi := createMenuApi this (Some foundMenu) in
                 let! res := lift_w (Button_handler foundButton ctx menuApi) in
                 store_button foundMenu r c (snd res)
             | None =>
                 lift_w (console_log (ConsoleLog ("No button found for callback data: "
                                                  +:+ default "" (token_of ctx))))
             end in
           let! _ := lift_w (emit EvAnswerCbQuery) in
           lift_w (emit EvNext)) s3
    end.
Proof.
  intros Hreg Hmid. unfold Menu_middleware.
  rewrite (bind_returned _ _ _ _ _ Hreg). rewrite (bind_returned _ _ _ _ _ Hmid).
  unfold bind at 1. unfold setContext at 1. unfold bind at 1, modify at 1, gets at 1.
  simpl. unfold bind at 1.
  destruct (Menu_evaluate sha256_hex this _) as [[[]|e] s3]; [|reflexivity].
  destruct (negb (truthy_str (token_of ctx))); reflexivity.
Qed.


(** X20. Two failures the middleware does not
    catch. A callback query without a message (one that comes from an inline
    message) makes it throw a TypeError right after the registration of its
    menu: the stored context is not replaced and the menu is not evaluated.
    An evaluation that throws (a generator or a predicate of the menu does)
    makes it throw that error, after the context has been replaced. In both
    cases the run ends there: no handler runs, the query is not answered and
    [next] is not called. *)
Theorem middleware_failure_paths this ctx (s : @State U V) s1 :
  registerMenu this s = (Returned tt, s1) ->
  (forall q, callbackQuery ctx = Some q -> message q = None ->
     Menu_middleware sha256_hex this ctx s = (Thrown no_message, s1))
  /\ (forall mid e s3,
        message_id_of ctx s1 = (Returned mid, s1) ->
        Menu_evaluate sha256_hex this (snd (setContext ctx mid None s1)) = (Thrown e, s3) ->
        Menu_middleware sha256_hex this ctx s = (Thrown e, s3)
        /\ _context (st_mm s3) = ctx).
Proof.
  intros Hreg. split.
  - intros q Hq Hmsg. unfold Menu_middleware.
    rewrite (bind_returned _ _ _ _ _ Hreg).
    apply bind_thrown. unfold message_id_of. rewrite Hq, Hmsg. reflexivity.
  - intros mid e s3 Hmid He. rewrite (middleware_start this ctx s s1 mid Hreg Hmid).
    rewrite He. split; [reflexivity|].
    rewrite (evaluate_keeps_mm _ _ _ _ He). reflexivity.
Qed.

(** *** Evaluation *)

Lemma toJSON_new ctx (w : @World U) :
  ButtonManager_toJSON sha256_hex (@ButtonManager_new U V) ctx w = (Returned [], w).
Proof. reflexivity. Qed.

(** X21. When a generator throws, the
    evaluation throws its error, and the
    menu is left with an empty rendered grid, not with its previous
    rendering and not with its static grid: until the next evaluation the
    menu serializes to an empty keyboard and the router finds none of its
    buttons. *)
Theorem failed_generator_empties_the_menu this (s : @State U V) m e w1 :
  st_heap s !! this = Some m ->
  run_generators sha256_hex (_dynamicGenerators m) (_context (st_mm s))
                 (_payload (st_mm s)) ∅ (st_world s) = (Thrown e, w1) ->
  exists s',
    Menu_evaluate sha256_hex this s = (Thrown e, s')
    /\ (forall arg, Menu_toJSON sha256_hex this arg s' = (Returned [], s'))
    /\ (forall o key token, get_own o key = Some this ->
          List.find (matches token) (menu_positions (st_heap s') o key) = None).
Proof.
  intros Hm Hg. pose proof (lookup_lt_Some _ _ _ Hm) as Hlt.
  exists (rendered s this m ButtonManager_new w1).
  split; [apply (Menu_evaluate_generator_throws sha256_hex this s m e w1 Hm Hg)|].
  split.
  - intros arg. rewrite (Menu_toJSON_rendered sha256_hex this s m _ w1 arg Hm).
    rewrite toJSON_new. reflexivity.
  - intros o key token Hkey. unfold menu_positions. rewrite Hkey. simpl.
    rewrite list_lookup_insert_eq by exact Hlt. reflexivity.
Qed.


(** *** Identifiers of generated elements *)

Lemma Button_new_token lbl (o : @ButtonOptions U V) (w : @World U) button w' :
  Button_new sha256_hex lbl o w = (Returned button, w') ->
  world_rng w' = world_rng w
  /\ if is_action (type button)
     then callbackData button
          = Some (token_of_sample sha256_hex (world_rng w (world_rng_pos w)))
          /\ world_rng_pos w' = S (world_rng_pos w)
     else callbackData button = None /\ world_rng_pos w' = world_rng_pos w.
Proof.
  unfold Button_new. destruct (opt_type o) as [ty|]; [|discriminate].
  destruct (is_action ty) eqn:Ha.
  - unfold generateCallbackData, next_sample, bind, ret. intros [= <- <-]. simpl.
    rewrite Ha. destruct ty; try discriminate Ha. repeat split.
  - unfold bind, ret. intros [= <- <-]. simpl. rewrite Ha. repeat split.
Qed.

Lemma drawn_tokens_app rng from n1 n2 :
  drawn_tokens sha256_hex rng from (n1 + n2)
  = drawn_tokens sha256_hex rng from n1 ++ drawn_tokens sha256_hex rng (from + n1) n2.
Proof. unfold drawn_tokens. rewrite seq_app, List.map_app. reflexivity. Qed.

Lemma action_tokens_app (l1 l2 : list (@Button U V)) :
  action_tokens (l1 ++ l2) = action_tokens l1 ++ action_tokens l2.
Proof. unfold action_tokens. rewrite List.filter_app, List.map_app. reflexivity. Qed.

Lemma run_calls_tokens (cs : list (@RangeCall U V)) (bm : @ButtonManager U V)
    (w : @World U) :
  extensible bm ->
  exists bm' w' new n,
    run_calls sha256_hex cs (bm, w) = (Returned tt, (bm', w'))
    /\ extensible bm'
    /\ all_cells (bm_buttons bm') = all_cells (bm_buttons bm) ++ new
    /\ world_rng w' = world_rng w
    /\ world_rng_pos w' = world_rng_pos w + n
    /\ action_tokens new = drawn_tokens sha256_hex (world_rng w) (world_rng_pos w) n
    /\ world_user w' = world_user w /\ world_trace w' = world_trace w.
Proof.
  revert bm w. induction cs as [|c rest IH]; intros bm w Hext.
  - exists bm, w, [], 0. split; [reflexivity|]. split; [exact Hext|].
    rewrite app_nil_r, Nat.add_0_r. repeat split.
  - simpl. unfold bind. destruct (button_of_call c) as [[lbl o]|] eqn:Hc.
    + destruct (call_button_returns sha256_hex c lbl o w Hc) as (b & w1 & Hnew & _).
      rewrite (run_call_button sha256_hex c lbl o bm w b w1 Hc Hnew).
      destruct (addButton_extensible b bm Hext) as (init & r & Hrows & -> & Hext1).
      destruct (IH _ w1 Hext1) as (bm' & w' & new & n & -> & Hext' & Hcells & Hrng & Hpos
                                   & Htok & Hu & Ht).
      destruct (Button_new_token _ _ _ _ _ Hnew) as (Hrng1 & Hb).
      assert (Hw1 : world_user w1 = world_user w /\ world_trace w1 = world_trace w).
      { unfold Button_new in Hnew. destruct (opt_type o) as [ty|]; [|discriminate].
        destruct (is_action ty);
          unfold generateCallbackData, next_sample, bind, ret in Hnew;
          injection Hnew as _ <-; split; reflexivity. }
      exists bm', w', (b :: new),
        ((if is_action (type b) then 1 else 0) + n).
      split; [reflexivity|]. split; [exact Hext'|]. split.
      { rewrite Hcells. unfold all_cells. simpl. rewrite Hrows.
        rewrite !List.map_app, !concat_app. simpl. rewrite !app_nil_r.
        rewrite <- !app_assoc. reflexivity. }
      split; [congruence|].
      destruct (is_action (type b)) eqn:Ha.
      * destruct Hb as (Hcb & Hp1). split; [lia|].
        split; [|split; [rewrite Hu; apply Hw1|rewrite Ht; apply Hw1]].
        change (b :: new) with ([b] ++ new). rewrite action_tokens_app.
        rewrite drawn_tokens_app. f_equal.
        -- unfold action_tokens. simpl. rewrite Ha. simpl. rewrite Hcb. reflexivity.
        -- rewrite Htok, Hrng1, Hp1. f_equal. lia.
      * destruct Hb as (Hcb & Hp1). split; [lia|].
        split; [|split; [rewrite Hu; apply Hw1|rewrite Ht; apply Hw1]].
        unfold action_tokens at 1. simpl. rewrite Ha.
        fold (action_tokens new). rewrite Htok, Hrng1, Hp1. reflexivity.
    + destruct c; try discriminate. simpl. unfold MenuRange_row, lift_obj.
      destruct (newRow_extensible bm Hext) as (bm1 & -> & Hext1 & Hbm1).
      destruct (IH _ w Hext1) as (bm' & w' & new & n & -> & Hext' & Hcells & Hrest).
      exists bm', w', new, n. split; [reflexivity|]. split; [exact Hext'|].
      split; [|exact Hrest]. rewrite Hcells. f_equal. rewrite Hbm1.
      destruct (match last (bm_buttons bm) with
                | Some r => 0 <? length (cells r)
                | None => false
                end); [|reflexivity].
      unfold all_cells. simpl. rewrite List.map_app, concat_app. simpl.
      rewrite app_nil_r. reflexivity.
Qed.

Lemma generate_all_tokens (gens : list (@DynamicItem U V)) ctx payload (w : @World U) l w' :
  generate_all sha256_hex gens ctx payload w = (Returned l, w') ->
  exists n,
    world_rng w' = world_rng w
    /\ world_rng_pos w' = world_rng_pos w + n
    /\ action_tokens (concat (List.map (fun p => all_cells (snd p)) l))
       = drawn_tokens sha256_hex (world_rng w) (world_rng_pos w) n.
Proof.
  revert w l. induction gens as [|item rest IH]; intros w l; simpl.
  - unfold ret. intros [= <- <-]. exists 0. rewrite Nat.add_0_r. repeat split.
  - unfold bind, emit, modify, call_generator, call_user. simpl.
    destruct (dyn_generator item ctx payload (world_user w)) as [run u1].
    simpl. unfold with_obj.
    destruct (run_calls_tokens (gen_calls run) ButtonManager_new
                (set_user (push_trace w (EvGenerator (dyn_id item))) u1)
                (extensible_new (U:=U) (V:=V)))
      as (filled & w2 & new & n1 & -> & _ & Hcells & Hrng & Hpos & Htok & _).
    destruct (gen_throws run); [discriminate|].
    destruct (generate_all sha256_hex rest ctx payload w2) as [[l1|e] w3] eqn:Hrest;
      [|discriminate].
    unfold ret. intros [= <- <-].
    destruct (IH _ _ Hrest) as (n2 & Hrng2 & Hpos2 & Htok2).
    simpl in Hrng, Hpos, Htok, Hcells.
    exists (n1 + n2). split; [congruence|]. split; [lia|].
    simpl. rewrite action_tokens_app, drawn_tokens_app. unfold getButtons.
    rewrite Hcells, Htok, Htok2, Hrng, Hpos. reflexivity.
Qed.

(** X22. The elements of the dynamic
    blocks are constructed anew in every evaluation. Their action elements,
    taken block after block in the order of construction, carry the
    identifiers computed from the consecutive readings of the clock and the
    random source that this evaluation takes, one reading for each; no
    identifier of an earlier rendering is kept. *)
Theorem generated_identifiers_are_redrawn (gens : list (@DynamicItem U V)) ctx payload
    (w : @World U) gc w' :
  run_generators sha256_hex gens ctx payload ∅ w = (Returned gc, w') ->
  exists l n,
    List.map fst l = List.map dyn_id gens
    /\ (NoDup (List.map dyn_id gens) ->
        forall id rows, In (id, rows) l -> gc !! id = Some rows)
    /\ world_rng w' = world_rng w
    /\ world_rng_pos w' = world_rng_pos w + n
    /\ action_tokens (concat (List.map (fun p => all_cells (snd p)) l))
       = drawn_tokens sha256_hex (world_rng w) (world_rng_pos w) n.
Proof.
  intros H.
  destruct (run_generators_generate_all sha256_hex _ _ _ _ _ _ _ H)
    as (l & Hl & Hkeys & _ & _ & Hin).
  destruct (generate_all_tokens _ _ _ _ _ _ Hl) as (n & Hrng & Hpos & Htok).
  exists l, n. split; [exact Hkeys|]. split.
  { intros Hnd. apply Hin. rewrite Hkeys. exact Hnd. }
  auto.
Qed.

(** *** The transient fields of the registry *)


End Coverage.

(** ** Worked examples of the further properties *)


(** The predicate of [Pay] throws: [handler] throws the same error. *)
Lemma handler_requirement_failure_witness :
  Button_handler Demo.guarded Demo.ctx0 Demo.api0 Demo.world0
  = (Thrown (Error "no session"),
     set_user (push_trace Demo.world0 (EvRequire (Some "1000000000000000"))) 0).
Proof.
  apply (handler_requirement_failure Demo.guarded Demo.ctx0 Demo.api0 Demo.world0
           (Error "no session") 0); [discriminate|reflexivity].
Defined.

(** [Docs], a link with a failing predicate and [disable: true], is shown
    locked after its evaluation, with an identifier and without its url. *)
Lemma requirement_decides_rendering_witness :
  exists t w2,
    Button_toJSON Demo.sha256_hex (set_flags Demo.locked_link true false) Demo.ctx0
      (snd (Button_evaluateRequirement Demo.locked_link Demo.ctx0 Demo.world0))
    = (Returned (Some {| text := "Docs" +:+ locked_marker; wire_url := None;
                         callback_data := Some t |}), w2).
Proof.
  destruct (requirement_decides_rendering Demo.sha256_hex Demo.locked_link Demo.ctx0
              Demo.world0 false (set_flags Demo.locked_link true false)
              (snd (Button_evaluateRequirement Demo.locked_link Demo.ctx0 Demo.world0)))
    as (_ & _ & H & _); [discriminate|reflexivity|].
  destruct H as (t & w2 & Hj & _); [reflexivity|reflexivity|reflexivity|].
  exists t, w2. exact Hj.
Defined.

(** Evaluating the grid [[Go, placeholder], [Docs]] calls the predicate of
    [Go] and then the one of [Docs]. *)
Lemma evaluateAll_visits_in_order_witness :
  world_trace (snd (snd (evaluateAll Demo.ctx0 (Demo.small_grid, Demo.world0))))
  = [EvRequire (Some "1000000000000000"); EvRequire None].
Proof.
  destruct (evaluateAll_visits_in_order Demo.small_grid
              (fst (snd (evaluateAll Demo.ctx0 (Demo.small_grid, Demo.world0))))
              Demo.ctx0 Demo.world0
              (snd (snd (evaluateAll Demo.ctx0 (Demo.small_grid, Demo.world0)))))
    as [Ht _]; [reflexivity|].
  exact Ht.
Defined.



(** There is no menu ["cart"]: [nav] throws and the bot is as before. *)
Lemma nav_unknown_menu_witness :
  Menu_nav Demo.sha256_hex Demo.telegram_of (Some "cart") (Some (Some "2")) Demo.shop
  = (Thrown (Error "Menu with ID cart does not exist."), Demo.shop).
Proof.
  apply (proj1 (nav_unknown_menu Demo.sha256_hex Demo.telegram_of (Some "cart")
                  (Some (Some "2")) Demo.shop)).
  reflexivity.
Defined.


(** After [root.register(items)], [back()] on an api bound to [items] is
    [nav("root")]. *)
Lemma back_goes_to_registering_menu_witness :
  let b := {| bot_state := snd (Menu_register 0 1 Demo.two_menus); bot_effects := [] |} in
  api_back Demo.sha256_hex Demo.telegram_of {| api_menu := 1 |} None None b
  = Menu_nav Demo.sha256_hex Demo.telegram_of (Some "root") None b.
Proof.
  intros b.
  apply (back_goes_to_registering_menu Demo.sha256_hex Demo.telegram_of 0 1
           Demo.two_menus
           {| menuId := "root"; buttons := ButtonManager_new; parentMenuId := None;
              _caption := None; _format := None; _dynamicGenerators := [];
              _temporaryButtons := None; menu_frozen := false |}
           (snd (Menu_register 0 1 Demo.two_menus)));
    reflexivity.
Defined.

(** [root] has no parent: [back()] on an api bound to it throws. *)
Lemma back_without_parent_witness :
  api_back Demo.sha256_hex Demo.telegram_of {| api_menu := 0 |} None None Demo.shop
  = (Thrown (Error "Menu with ID null does not exist."), Demo.shop).
Proof.
  eapply (back_without_parent Demo.sha256_hex Demo.telegram_of {| api_menu := 0 |}
            None None Demo.shop); reflexivity.
Defined.

(** [items] is registered by [root]; a second [register], by [items]
    itself, is refused. *)
Lemma register_only_once_witness :
  exists s',
    Menu_register 0 1 Demo.two_menus = (Returned tt, s')
    /\ Menu_register 1 1 s' = (Thrown read_only_parent, s').
Proof.
  edestruct (register_only_once 0 1 Demo.two_menus) as (_ & H & _);
    [reflexivity|reflexivity|].
  destruct H as (s' & m' & Hreg & _ & Hm' & _ & _ & Hagain); [reflexivity|reflexivity|].
  exists s'. split; [exact Hreg|]. apply Hagain. eauto.
Defined.


(** A press on an inline message, and a menu whose generator throws. *)
Lemma middleware_failure_paths_witness :
  fst (Menu_middleware Demo.sha256_hex 0 Demo.inline_press (Demo.with_root Demo.gen_flat))
  = Thrown no_message
  /\ fst (Menu_middleware Demo.sha256_hex 0 Demo.ctx0 (Demo.with_root Demo.gen_fail))
     = Thrown (Error "no data").
Proof.
  split.
  - destruct (middleware_failure_paths Demo.sha256_hex 0 Demo.inline_press
                (Demo.with_root Demo.gen_flat)
                (snd (registerMenu 0 (Demo.with_root Demo.gen_flat))))
      as [H _]; [reflexivity|].
    erewrite H; reflexivity.
  - pose (s1 := snd (registerMenu 0 (Demo.with_root Demo.gen_fail))).
    destruct (middleware_failure_paths Demo.sha256_hex 0 Demo.ctx0
                (Demo.with_root Demo.gen_fail) s1) as [_ H]; [reflexivity|].
    destruct (H None (Error "no data")
                (snd (Menu_evaluate Demo.sha256_hex 0
                        (snd (setContext Demo.ctx0 None None s1)))))
      as [Hm _]; [reflexivity|reflexivity|].
    rewrite Hm. reflexivity.
Defined.

(** The generator of [root] throws: the menu serializes to nothing. *)
Lemma failed_generator_empties_the_menu_witness :
  exists s',
    Menu_evaluate Demo.sha256_hex 0 (Demo.with_root Demo.gen_fail)
    = (Thrown (Error "no data"), s')
    /\ Menu_toJSON Demo.sha256_hex 0 None s' = (Returned [], s').
Proof.
  edestruct (failed_generator_empties_the_menu Demo.sha256_hex 0
               (Demo.with_root Demo.gen_fail))
    as (s' & He & Hj & _); [reflexivity|vm_compute; reflexivity|].
  exists s'. split; [exact He|apply Hj].
Defined.

(** The block of [root]: X is its one action element and gets the
    identifier of the first reading. *)
Lemma generated_identifiers_are_redrawn_witness :
  exists gc w' l,
    run_generators Demo.sha256_hex
      [{| dyn_id := "dynamic_0"; dyn_generator := Demo.gen_flat |}]
      Demo.ctx0 None ∅ Demo.world0 = (Returned gc, w')
    /\ List.map fst l = ["dynamic_0"]
    /\ world_rng_pos w' = 1
    /\ action_tokens (U:=nat) (V:=string)
         (concat (List.map (fun p => all_cells (snd p)) l))
       = [Some "1000000000000000"].
Proof.
  destruct (run_generators Demo.sha256_hex
              [{| dyn_id := "dynamic_0"; dyn_generator := Demo.gen_flat |}]
              Demo.ctx0 None ∅ Demo.world0) as [[gc|e] w'] eqn:Hrun;
    [|vm_compute in Hrun; discriminate Hrun].
  destruct (generated_identifiers_are_redrawn Demo.sha256_hex _ _ _ _ _ _ Hrun)
    as (l & n & Hkeys & _ & _ & Hpos & Htok).
  assert (Hw' : world_rng_pos w' = 1) by (vm_compute in Hrun; injection Hrun as _ <-;
                                          reflexivity).
  exists gc, w', l. split; [reflexivity|]. split; [exact Hkeys|]. split; [exact Hw'|].
  rewrite Htok. assert (n = 1) as -> by (simpl in Hpos; lia). reflexivity.
Defined.

(** [items] stays registered through a press handled by [root]. *)
Lemma registry_never_forgets_witness :
  fst (getMenuById "items"
         (snd (Menu_middleware Demo.sha256_hex 0 (Demo.press "1000000000000000")
                 (bot_state Demo.shop))))
  = Returned (OwnMenu 1).
Proof.
  destruct (registry_never_forgets Demo.sha256_hex Demo.telegram_of "items" (OwnMenu 1)
              (bot_state Demo.shop)) as (_ & _ & H & _); [reflexivity|].
  apply H.
Defined.

(** [setCaption] with a caption function and no format, read back under a
    payload. *)
Lemma caption_round_trip_witness :
  exists s',
    on_menu 1 (lift_obj (Menu_setCaption (CaptionFn Demo.page_caption) None)) Demo.two_menus
    = (Returned tt, s')
    /\ fst (Menu_caption 1 (with_payload s' (Some "2"))) = Returned (Some "Page 2")
    /\ fst (Menu_format 1 s') = Returned (Some "Markdown").
Proof.
  edestruct (proj1 (caption_round_trip (U:=nat) (V:=string)) 1 Demo.two_menus)
    with (cap := CaptionFn Demo.page_caption) (fmt := @None string)
    as (s' & Hset & _ & Hget); [reflexivity|].
  exists s'. split; [exact Hset|]. split.
  - destruct (Hget (st_mm (with_payload s' (Some "2"))) (st_world s')) as [Hc _].
    unfold with_payload, set_mm. simpl in *. rewrite Hc. reflexivity.
  - destruct (Hget (st_mm s') (st_world s')) as [_ Hf].
    destruct s'. simpl in *. rewrite Hf. reflexivity.
Defined.
